(** * r2env: the package manager of radare2 environments

    A shallow embedding of [r2env/package_manager.py] (class
    [PackageManager]) and of the parts of the Python library it relies
    on ([posixpath], [str], [list], [dict], [json], [os], [shutil]).

    Conventions of the embedding.
    - Python [str] is [string]: a sequence of 8-bit characters (code
      points below 256).
    - A Python [dict] is an association list in insertion order
      (Python 3.7 and later iterate a dict in insertion order, and an
      assignment to a key that is present keeps the key's position).
    - A Python exception is a value of [exn]; a computation that may
      raise returns a [result].
    - Code that reads or changes the disk runs in the monad [M], a
      state monad over the file system [FS] with exceptions; a change
      made before an exception is raised stays made, as in Python.
    - Console output ([print_console]) is not part of the state. *)

From Stdlib Require Import String Ascii List Bool Arith ZArith Lia.
From Stdlib Require Import DecimalString.
Import ListNotations.
Open Scope string_scope.
Open Scope Z_scope.


(* ================================================================= *)
(** ** Exceptions and results *)

(** The classes of [OSError] the file-system operations raise. *)
Inductive os_error : Type :=
| FileExistsError
| FileNotFoundError
| NotADirectoryError
| IsADirectoryError
| SameFileError.

Inductive exn : Type :=
| PackageManagerException (msg : string)
| ValueError
| TypeError
| KeyError (key : string)
| OSError (kind : os_error) (path : string)
| URLError (reason : string)
| ConnectionResetError
| Foreign (what : string).   (* any other exception of a collaborator *)

Inductive result (A : Type) : Type :=
| Ok (a : A)
| Raise (e : exn).

Arguments Ok {A} a.
Arguments Raise {A} e.

Definition rbind {A B} (r : result A) (k : A -> result B) : result B :=
  match r with
  | Ok a => k a
  | Raise e => Raise e
  end.

Declare Scope result_scope.
Delimit Scope result_scope with res.
Notation "x <-- c ;; k" := (rbind c (fun x => k))
  (at level 61, c at next level, right associativity) : result_scope.

(* ================================================================= *)
(** ** Python strings and lists *)

Module Py.

Definition chr (n : nat) : string := String (ascii_of_nat n) EmptyString.

(** ["x"] in a Python source text, as a character. *)
Definition slash : ascii := "/"%char.
Definition dot : ascii := "."%char.
Definition hyphen : ascii := "-"%char.
Definition underscore : ascii := "_"%char.

Definition len (s : string) : Z := Z.of_nat (String.length s).

(** [s.replace(a, b)] for one-character [a] and [b]. *)
Fixpoint replace (a b : ascii) (s : string) : string :=
  match s with
  | EmptyString => EmptyString
  | String c s' => String (if Ascii.eqb c a then b else c) (replace a b s')
  end.

(** [s.split(sep)] for a one-character separator: never the empty
    list; [''.split('-') == ['']]. *)
Fixpoint split (sep : ascii) (s : string) : list string :=
  match s with
  | EmptyString => [EmptyString]
  | String c s' =>
      if Ascii.eqb c sep then EmptyString :: split sep s'
      else match split sep s' with
           | [] => [String c EmptyString]
           | w :: ws => String c w :: ws
           end
  end.

(** [s.rfind(c)]: the highest index of [c] in [s], or [-1].  [i] is
    the index of the first character of [s]. *)
Fixpoint rfind_from (c : ascii) (s : string) (i : Z) : Z :=
  match s with
  | EmptyString => -1
  | String d s' =>
      let r := rfind_from c s' (i + 1) in
      if 0 <=? r then r else if Ascii.eqb d c then i else -1
  end.

Definition rfind (c : ascii) (s : string) : Z := rfind_from c s 0.

(** The slice [s[i:j]] for [0 <= i]. *)
Definition slice (s : string) (i j : Z) : string :=
  substring (Z.to_nat i) (Z.to_nat (j - i)) s.

Definition slice_from (s : string) (i : Z) : string := slice s i (len s).
Definition slice_to (s : string) (j : Z) : string := slice s 0 j.

(** [sep.join(l)]. *)
Fixpoint join (sep : string) (l : list string) : string :=
  match l with
  | [] => EmptyString
  | [x] => x
  | x :: xs => x ++ sep ++ join sep xs
  end.

(** [x in l] for a list of strings. *)
Fixpoint mem (x : string) (l : list string) : bool :=
  match l with
  | [] => false
  | y :: ys => String.eqb x y || mem x ys
  end.

(** [l.remove(x)]: removes the first occurrence; [ValueError] when
    there is none. *)
Fixpoint remove (x : string) (l : list string) : result (list string) :=
  match l with
  | [] => Raise ValueError
  | y :: ys =>
      if String.eqb y x then Ok ys
      else match remove x ys with
           | Ok ys' => Ok (y :: ys')
           | Raise e => Raise e
           end
  end.

(** [l1 == l2] on lists of strings. *)
Fixpoint list_eqb (l1 l2 : list string) : bool :=
  match l1, l2 with
  | [], [] => true
  | x :: xs, y :: ys => String.eqb x y && list_eqb xs ys
  | _, _ => false
  end.

(** [x in ls] for a list of lists of strings. *)
Definition mem_list (x : list string) (ls : list (list string)) : bool :=
  existsb (list_eqb x) ls.

(** [x in s] for strings: [x] occurs in [s] as a substring. *)
Fixpoint str_in (x s : string) : bool :=
  String.prefix x s
  || match s with
     | EmptyString => false
     | String _ s' => str_in x s'
     end.

(** [s.endswith(suffix)]. *)
Definition endswith (s suffix : string) : bool :=
  (String.length suffix <=? String.length s)%nat
  && String.eqb (substring (String.length s - String.length suffix)
                           (String.length suffix) s) suffix.

(** [str(n)] for an integer. *)
Definition str_of_int (n : Z) : string := NilZero.string_of_int (Z.to_int n).

End Py.

(** *** Dictionaries with string keys *)

Module Dict.

Definition t (V : Type) : Type := list (string * V).

Fixpoint get {V} (d : t V) (k : string) : option V :=
  match d with
  | [] => None
  | (k', v) :: d' => if String.eqb k' k then Some v else get d' k
  end.

Definition mem {V} (d : t V) (k : string) : bool :=
  match get d k with Some _ => true | None => false end.

(** [d[k] = v]: in place when [k] is present, at the end otherwise. *)
Fixpoint set {V} (d : t V) (k : string) (v : V) : t V :=
  match d with
  | [] => [(k, v)]
  | (k', v') :: d' =>
      if String.eqb k' k then (k', v) :: d' else (k', v') :: set d' k v
  end.

Definition keys {V} (d : t V) : list string := map fst d.

End Dict.

(* ================================================================= *)
(** ** posixpath *)

Module PosixPath.

(** [genericpath._splitext]'s loop: skip the leading dots of the
    file name; [fuel] bounds the iterations by [dotIndex -
    filenameIndex]. *)
Fixpoint splitext_loop (fuel : nat) (p : string) (filenameIndex dotIndex : Z)
  : option (string * string) :=
  match fuel with
  | O => None
  | S fuel' =>
      if filenameIndex <? dotIndex then
        if negb (String.eqb (Py.slice p filenameIndex (filenameIndex + 1))
                            (String Py.dot EmptyString))
        then Some (Py.slice_to p dotIndex, Py.slice_from p dotIndex)
        else splitext_loop fuel' p (filenameIndex + 1) dotIndex
      else None
  end.

(** [os.path.splitext(p)] on POSIX ([sep = '/'], no [altsep]). *)
Definition splitext (p : string) : string * string :=
  let sepIndex := Py.rfind Py.slash p in
  let dotIndex := Py.rfind Py.dot p in
  if sepIndex <? dotIndex then
    let filenameIndex := sepIndex + 1 in
    match splitext_loop (Z.to_nat (dotIndex - filenameIndex)) p filenameIndex dotIndex with
    | Some r => r
    | None => (p, EmptyString)
    end
  else (p, EmptyString).

Definition startswith_sep (s : string) : bool :=
  match s with
  | String c _ => Ascii.eqb c Py.slash
  | EmptyString => false
  end.

Fixpoint endswith_sep (s : string) : bool :=
  match s with
  | EmptyString => false
  | String c EmptyString => Ascii.eqb c Py.slash
  | String _ s' => endswith_sep s'
  end.

(** [os.path.basename(p)]. *)
Definition basename (p : string) : string :=
  Py.slice_from p (Py.rfind Py.slash p + 1).

(** One step of [os.path.join]'s loop. *)
Definition join2 (path b : string) : string :=
  if startswith_sep b then b
  else if (String.eqb path EmptyString || endswith_sep path)%bool then path ++ b
  else path ++ "/" ++ b.

(** [os.path.join(a, *p)]. *)
Definition join (a : string) (p : list string) : string := fold_left join2 p a.

End PosixPath.

(* ================================================================= *)
(** ** The release catalog and its builder
    ([PackageManager.update_radare2_profiles], lines 54-145) *)

(** One entry of [release['assets']] and one release of the upstream
    release list, as the code reads them. *)
Record asset : Type := { asset_name : string }.
Record release : Type := { tag_name : string; assets : list asset }.

(** [{'id': ..., 'packages': {...}}] *)
Record version : Type := { id : string; packages : Dict.t string }.

(** [{'source': ..., 'versions': [...]}] *)
Record profile : Type := { source : string; versions : list version }.

Definition catalog : Type := Dict.t profile.

Definition git_version : version := {| id := "git"; packages := [] |}.

(** [_VERSION_FILTERS]: per extension, per platform, the candidate
    residual token lists. *)
Definition _VERSION_FILTERS : Dict.t (Dict.t (list (list string))) :=
  [ (".zip", [ ("w32", [["w32"]]);
               ("w64", [["w64"]]) ]);
    (".deb", [ ("deb_i386", [["i386"]]);
               ("deb_x64", [["amd64"]]) ]);
    (".pkg", [ ("mac_arm64", [["m1"]]);
               ("mac_x64", [[]; ["amd64"]; ["x64"]; ["macos"]]) ]) ].

(** The [for platform, refs in ...items()] loop with its [break]: the
    first platform one of whose patterns equals [asset_ref]. *)
Fixpoint first_platform (asset_ref : list string)
         (items : Dict.t (list (list string))) : option string :=
  match items with
  | [] => None
  | (platform, refs) :: items' =>
      if Py.mem_list asset_ref refs then Some platform
      else first_platform asset_ref items'
  end.

(** The body of the [for asset in release['assets']] loop up to the
    assignment: the platform identifier the asset is filed under, if
    any.  [Ok None] is a [continue] or a table miss; [Raise] is an
    exception escaping the loop. *)
Definition classify (tag name : string) : result (option string) :=
  let '(asset_name, asset_ext) := PosixPath.splitext name in
  let asset_ref := Py.split Py.hyphen (Py.replace Py.underscore Py.hyphen asset_name) in
  if negb (String.eqb (hd EmptyString asset_ref) "radare2") then Ok None
  else if negb (Py.mem tag asset_ref) then Ok None
  else
    (asset_ref <-- Py.remove "radare2" asset_ref ;;
     asset_ref <-- Py.remove tag asset_ref ;;
     match Dict.get _VERSION_FILTERS asset_ext with
     | Some items => Ok (first_platform asset_ref items)
     | None => Ok None
     end)%res.

(** The asset loop of one release, threading [version['packages']]. *)
Fixpoint scan_assets (tag : string) (l : list asset) (pkgs : Dict.t string)
  : result (Dict.t string) :=
  match l with
  | [] => Ok pkgs
  | a :: l' =>
      (c <-- classify tag (asset_name a) ;;
       scan_assets tag l'
         match c with
         | Some platform => Dict.set pkgs platform (asset_name a)
         | None => pkgs
         end)%res
  end.

Definition build_version (r : release) : result version :=
  (pkgs <-- scan_assets (tag_name r) (assets r) [] ;;
   Ok {| id := tag_name r; packages := pkgs |})%res.

(** The release loop, threading [radare2_versions] ([append]). *)
Fixpoint scan_releases (l : list release) (radare2_versions : list version)
  : result (list version) :=
  match l with
  | [] => Ok radare2_versions
  | r :: l' =>
      (v <-- build_version r ;;
       scan_releases l' (radare2_versions ++ [v])%list)%res
  end.

Definition companion (src : string) : profile :=
  {| source := src; versions := [git_version] |}.

(** The [profiles] dict literal, with [radare2_versions[::-1]]. *)
Definition make_profiles (radare2_versions : list version) : catalog :=
  [ ("r2frida", companion "https://github.com/nowsecure/r2frida");
    ("r2dec", companion "https://github.com/wargio/r2dec-js");
    ("r2yara", companion "https://github.com/radareorg/r2yara");
    ("r2ghidra", companion "https://github.com/radareorg/r2ghidra");
    ("r0", companion "https://github.com/radareorg/r0");
    ("radare2", {| source := "https://github.com/radareorg/radare2";
                   versions := rev radare2_versions |}) ].

(** The catalog [update_radare2_profiles] computes from the release
    list [gh_release_info], before it is written out. *)
Definition build_profiles (gh_release_info : list release) : result catalog :=
  (radare2_versions <-- scan_releases gh_release_info [git_version] ;;
   Ok (make_profiles radare2_versions))%res.

(* ================================================================= *)
(** ** json.dump of a catalog

    [json.dump(profiles, f)] with the default arguments: item
    separator [", "], key separator [": "], [ensure_ascii=True], keys
    in the dict's iteration order. *)

Module Json.

Definition hex_digit (n : nat) : string :=
  substring n 1 "0123456789abcdef".

(** [json.encoder.py_encode_basestring_ascii]'s replacement of one
    character: [ESCAPE_DCT] for the named escapes, the character
    itself from [' '] to ['~'], and [\u00xx] otherwise.  A character
    here is a code point below 256; the four-digit escapes and the
    surrogate pairs of the code points from 256 on are not covered. *)
Definition escape_char (c : ascii) : string :=
  let n := nat_of_ascii c in
  if (n =? 34)%nat then "\" ++ Py.chr 34
  else if (n =? 92)%nat then "\\"
  else if (n =? 8)%nat then "\b"
  else if (n =? 12)%nat then "\f"
  else if (n =? 10)%nat then "\n"
  else if (n =? 13)%nat then "\r"
  else if (n =? 9)%nat then "\t"
  else if ((32 <=? n) && (n <=? 126))%nat then String c EmptyString
  else "\u00" ++ hex_digit (n / 16) ++ hex_digit (n mod 16).

Fixpoint escape (s : string) : string :=
  match s with
  | EmptyString => EmptyString
  | String c s' => escape_char c ++ escape s'
  end.

Definition str (s : string) : string := Py.chr 34 ++ escape s ++ Py.chr 34.

Definition member (k v : string) : string := str k ++ ": " ++ v.

Definition object (members : list string) : string :=
  "{" ++ Py.join ", " members ++ "}".

Definition array (items : list string) : string :=
  "[" ++ Py.join ", " items ++ "]".

Definition of_packages (d : Dict.t string) : string :=
  object (map (fun kv => member (fst kv) (str (snd kv))) d).

Definition of_version (v : version) : string :=
  object [ member "id" (str (id v));
           member "packages" (of_packages (packages v)) ].

Definition of_profile (p : profile) : string :=
  object [ member "source" (str (source p));
           member "versions" (array (map of_version (versions p))) ].

Definition dumps (c : catalog) : string :=
  object (map (fun kv => member (fst kv) (of_profile (snd kv))) c).

End Json.

(* ================================================================= *)
(** ** The file system

    A tree of directories and regular files.  A path string names the
    node reached by its components: the parts between slashes, without
    the empty ones and the ["."] ones.  The root directory always
    exists and is the working directory, so ["/a/b"] and ["a/b"] name
    the same node.  There are no symbolic links and no permissions,
    and [".."] is not interpreted: a path with a [".."] component, an
    over-long name or a NUL character is outside what the model
    reads as the operating system does, and the statements that
    depend on path resolution leave such paths out ([well_named]).
    The state is the list of the nodes below the root, in creation
    order. *)

Module FS.

Definition path : Type := list string.

Inductive node : Type :=
| Dir
| File (content : string).

Definition t : Type := list (path * node).

Definition is_component (c : string) : bool :=
  negb (String.eqb c EmptyString || String.eqb c ".").

Definition components (s : string) : path :=
  filter is_component (Py.split Py.slash s).

Fixpoint find (fs : t) (p : path) : option node :=
  match fs with
  | [] => None
  | (q, n) :: fs' => if Py.list_eqb q p then Some n else find fs' p
  end.

(** Path resolution: walking [todo] down from the directory [done].
    A component below a regular file or below a missing directory
    names nothing. *)
Fixpoint walk (fs : t) (done todo : path) : option node :=
  match todo with
  | [] => Some Dir
  | c :: todo' =>
      let q := (done ++ [c])%list in
      match find fs q with
      | Some Dir => walk fs q todo'
      | Some (File x) => match todo' with [] => Some (File x) | _ => None end
      | None => None
      end
  end.

Definition lookup (fs : t) (p : path) : option node := walk fs [] p.

(** [p] is [q] or an ancestor of [q]. *)
Fixpoint is_prefix (p q : path) : bool :=
  match p, q with
  | [], _ => true
  | c :: p', d :: q' => String.eqb c d && is_prefix p' q'
  | _ :: _, [] => false
  end.

(** The node a path string names; the empty string names nothing. *)
Definition stat (fs : t) (s : string) : option node :=
  if String.eqb s EmptyString then None else lookup fs (components s).

(** [os.path.isdir], [os.path.isfile], [os.path.exists]. *)
Definition isdir (fs : t) (s : string) : bool :=
  match stat fs s with Some Dir => true | _ => false end.

Definition isfile (fs : t) (s : string) : bool :=
  match stat fs s with Some (File _) => true | _ => false end.

Definition exists_ (fs : t) (s : string) : bool :=
  match stat fs s with Some _ => true | None => false end.

(** The directories [os.makedirs] creates on the way down from the
    directory [done].  A regular file on the way is [None]. *)
Fixpoint mkdir_chain (fs : t) (done todo : path) : option t :=
  match todo with
  | [] => Some fs
  | c :: todo' =>
      let q := (done ++ [c])%list in
      match find fs q with
      | Some Dir => mkdir_chain fs q todo'
      | Some (File _) => None
      | None => mkdir_chain (fs ++ [(q, Dir)])%list q todo'
      end
  end.

(** [os.makedirs(s)] with [exist_ok=False]: the new state, or the
    exception, in which case nothing was created.  The exception
    here always carries [s]; the one of [os.makedirs] carries the path
    [os.mkdir] failed on, which is an ancestor of [s] when a regular
    file lies higher up. *)
Definition makedirs (fs : t) (s : string) : result t :=
  if String.eqb s EmptyString then Raise (OSError FileNotFoundError s)
  else match lookup fs (components s) with
       | Some _ => Raise (OSError FileExistsError s)
       | None =>
           match mkdir_chain fs [] (components s) with
           | Some fs' => Ok fs'
           | None => Raise (OSError NotADirectoryError s)
           end
       end.

(** [shutil.rmtree(s)]: the directory and everything below it.  On
    a directory it always succeeds here: without permissions and
    symbolic links nothing makes the removal fail half-way. *)
Definition rmtree (fs : t) (s : string) : result t :=
  match stat fs s with
  | Some Dir =>
      Ok (filter (fun e => negb (is_prefix (components s) (fst e))) fs)
  | Some (File _) => Raise (OSError NotADirectoryError s)
  | None => Raise (OSError FileNotFoundError s)
  end.

(** The name of [q] when [q] is a child of [p]. *)
Definition child_name (p q : path) : option string :=
  if (is_prefix p q && (length q =? S (length p))%nat)%bool
  then Some (last q EmptyString) else None.

Fixpoint children (fs : t) (p : path) : list string :=
  match fs with
  | [] => []
  | (q, _) :: fs' =>
      match child_name p q with
      | Some c => c :: children fs' p
      | None => children fs' p
      end
  end.

(** [os.listdir(s)]. *)
Definition listdir (fs : t) (s : string) : result (list string) :=
  match stat fs s with
  | Some Dir => Ok (children fs (components s))
  | Some (File _) => Raise (OSError NotADirectoryError s)
  | None => Raise (OSError FileNotFoundError s)
  end.

Definition parent (p : path) : path := removelast p.

(** Replaces the first node at [p], or adds one. *)
Fixpoint put (fs : t) (p : path) (n : node) : t :=
  match fs with
  | [] => [(p, n)]
  | (q, m) :: fs' =>
      if Py.list_eqb q p then (q, n) :: fs' else (q, m) :: put fs' p n
  end.

(** [with open(s, 'w') as f: f.write(content)], in one step: the
    state between the truncation by [open] and the end of the write
    is not modelled. *)
Definition write (fs : t) (s content : string) : result t :=
  match stat fs s with
  | Some Dir => Raise (OSError IsADirectoryError s)
  | Some (File _) => Ok (put fs (components s) (File content))
  | None =>
      if String.eqb s EmptyString then Raise (OSError FileNotFoundError s)
      else match lookup fs (parent (components s)) with
           | Some Dir => Ok (put fs (components s) (File content))
           | Some (File _) => Raise (OSError NotADirectoryError s)
           | None => Raise (OSError FileNotFoundError s)
           end
  end.

(** The content of the regular file [s]. *)
Definition read (fs : t) (s : string) : option string :=
  match stat fs s with Some (File c) => Some c | _ => None end.

End FS.

(* ================================================================= *)
(** ** The monad of code that touches the disk *)

Definition M (A : Type) : Type := FS.t -> result A * FS.t.

Definition ret {A} (a : A) : M A := fun fs => (Ok a, fs).

Definition raise {A} (e : exn) : M A := fun fs => (Raise e, fs).

Definition bind {A B} (m : M A) (k : A -> M B) : M B :=
  fun fs =>
    match m fs with
    | (Ok a, fs') => k a fs'
    | (Raise e, fs') => (Raise e, fs')
    end.

Declare Scope m_scope.
Delimit Scope m_scope with M.
Notation "x <- c ;; k" := (bind c (fun x => k))
  (at level 61, c at next level, right associativity) : m_scope.
Notation "c ;;; k" := (bind c (fun _ => k))
  (at level 61, right associativity) : m_scope.

(** [try: m except <handles>: h err]. *)
Definition try_except {A} (m : M A) (handles : exn -> bool) (h : exn -> M A) : M A :=
  fun fs =>
    match m fs with
    | (Ok a, fs') => (Ok a, fs')
    | (Raise e, fs') => if handles e then h e fs' else (Raise e, fs')
    end.

(** A pure computation that may raise. *)
Definition lift {A} (r : result A) : M A := fun fs => (r, fs).

(** A file-system operation that returns the new state or raises. *)
Definition update (f : FS.t -> result FS.t) : M unit :=
  fun fs =>
    match f fs with
    | Ok fs' => (Ok tt, fs')
    | Raise e => (Raise e, fs)
    end.

(** A file-system query. *)
Definition query {A} (f : FS.t -> A) : M A := fun fs => (Ok (f fs), fs).

Definition when (b : bool) (m : M unit) : M unit := if b then m else ret tt.

Module Os.
Definition isdir (s : string) : M bool := query (fun fs => FS.isdir fs s).
Definition isfile (s : string) : M bool := query (fun fs => FS.isfile fs s).
Definition exists_ (s : string) : M bool := query (fun fs => FS.exists_ fs s).
Definition makedirs (s : string) : M unit := update (fun fs => FS.makedirs fs s).
Definition rmtree (s : string) : M unit := update (fun fs => FS.rmtree fs s).
Definition listdir (s : string) : M (list string) := fun fs => (FS.listdir fs s, fs).
Definition write (s content : string) : M unit := update (fun fs => FS.write fs s content).
End Os.

Module Shutil.

(** [shutil.copyfile(src, dst)]. *)
Definition copyfile (src dst : string) : M unit :=
  update (fun fs =>
    match FS.stat fs src with
    | Some (FS.File c) =>
        if Py.list_eqb (FS.components src) (FS.components dst)
        then Raise (OSError SameFileError dst)
        else FS.write fs dst c
    | Some FS.Dir => Raise (OSError IsADirectoryError src)
    | None => Raise (OSError FileNotFoundError src)
    end).

End Shutil.

(** [str(err)] for the exceptions the code formats into a message. *)
Definition exn_str (e : exn) : string :=
  match e with
  | PackageManagerException msg => msg
  | OSError FileExistsError p => "[Errno 17] File exists: '" ++ p ++ "'"
  | OSError FileNotFoundError p => "[Errno 2] No such file or directory: '" ++ p ++ "'"
  | OSError NotADirectoryError p => "[Errno 20] Not a directory: '" ++ p ++ "'"
  | OSError IsADirectoryError p => "[Errno 21] Is a directory: '" ++ p ++ "'"
  | OSError SameFileError p => "'" ++ p ++ "' and '" ++ p ++ "' are the same file"
  | URLError reason => "<urlopen error " ++ reason ++ ">"
  | KeyError k => "'" ++ k ++ "'"
  | Foreign what => what
  | ValueError | TypeError | ConnectionResetError => EmptyString
  end.

(** [except OSError] ([IOError] is the same class): [URLError] and
    [ConnectionResetError] are subclasses of it; a [Foreign] exception
    stands for one that is not. *)
Definition is_OSError (e : exn) : bool :=
  match e with
  | OSError _ _ | URLError _ | ConnectionResetError => true
  | _ => false
  end.

(** [except (URLError, ConnectionResetError)]. *)
Definition is_download_error (e : exn) : bool :=
  match e with
  | URLError _ | ConnectionResetError => true
  | _ => false
  end.

(* ================================================================= *)
(** ** The collaborators

    What the package manager calls and this repository's two source
    files do not define: the helpers it imports from [r2env.tools]
    ([host_distname], [git_fetch], [git_clean], [exit_if_not_exists]),
    the network ([requests], [wget]), the shell ([os.system]), the zip
    archive reader and the clock. *)

Record Host : Type := {
  (** [host_distname()]: a platform identifier or [None] *)
  host_distname : option string;
  (** [str(os.uname())] *)
  uname : string;
  (** [round(time.monotonic() * 1000)] *)
  monotonic_ms : Z;
  (** [requests.get(...)], [raise_for_status()] and [.json()] *)
  gh_release_info_req : result (list release);
  (** [os.system(cmd)]: the exit status, and what the command did to the disk *)
  os_system : string -> FS.t -> Z * FS.t;
  (** [wget.download(url, out)] *)
  wget_download : option string -> string -> M unit;
  git_fetch : string -> string -> string -> M unit;
  git_clean : string -> M unit;
  exit_if_not_exists : list string -> M unit;
  (** [zipfile.ZipFile(pkgfile, 'r')] then [extractall()] *)
  zip_extractall : string -> M unit;
  (** [zip_file.namelist()] *)
  zip_namelist : string -> list string
}.

(* ================================================================= *)
(** ** class PackageManager *)

Record PackageManager : Type := {
  _packages : catalog;
  _r2env_path : string
}.

Definition LOG_DIR : string := "log".
Definition PACKAGES_DIR : string := "versions".
Definition SOURCE_DIR : string := "src".
Definition DOWNLOAD_URL : string :=
  "https://github.com/radareorg/radare2/releases/download/".

Definition get_package_path (self : PackageManager) (package_name : string) : string :=
  PosixPath.join (_r2env_path self) [PACKAGES_DIR; package_name].

Definition list_available_packages (self : PackageManager) : catalog :=
  _packages self.

(** The [for pkg in os.listdir(pkg_dir)] loop, threading [res]. *)
Fixpoint installed_loop (pkg_dir : string) (names res : list string) : M (list string) :=
  match names with
  | [] => ret res
  | pkg :: names' =>
      (d <- Os.isdir (PosixPath.join pkg_dir [pkg]) ;;
       installed_loop pkg_dir names' (if d then res ++ [pkg] else res)%list)%M
  end.

Definition list_installed_packages (self : PackageManager) : M (list string) :=
  let pkg_dir := PosixPath.join (_r2env_path self) [PACKAGES_DIR] in
  (d <- Os.isdir pkg_dir ;;
   if d then
     (names <- Os.listdir pkg_dir ;;
      installed_loop pkg_dir names [])
   else ret [])%M.

(** [update_radare2_profiles(r2env_path)], from the response on. *)
Definition update_radare2_profiles (h : Host) (r2env_path : string) : M unit :=
  (gh_release_info <- lift (gh_release_info_req h) ;;
   profiles <- lift (build_profiles gh_release_info) ;;
   d <- Os.isdir r2env_path ;;
   when (negb d) (Os.makedirs r2env_path) ;;;
   Os.write (PosixPath.join r2env_path ["profiles.json"]) (Json.dumps profiles))%M.

(** [_if_package_not_available]. *)
Definition _if_package_not_available (self : PackageManager) (profile version : string) : bool :=
  match Dict.get (_packages self) profile with
  | Some p => negb (existsb (fun available_version => String.eqb (id available_version) version)
                            (versions p))
  | None => true
  end.

(** [pkgd == cos], where [cos] may be [None]. *)
Definition eq_opt (pkgd : string) (cos : option string) : bool :=
  match cos with
  | Some c => String.eqb pkgd c
  | None => false
  end.

(** The two inner loops of [_get_pkgname]. *)
Fixpoint pkgname_in_versions (vs : list version) (version : string) (cos : option string)
  : option string :=
  match vs with
  | [] => None
  | pkgv :: vs' =>
      if String.eqb (id pkgv) version then
        match List.find (fun pkgd => eq_opt pkgd cos) (Dict.keys (packages pkgv)) with
        | Some pkgd => Dict.get (packages pkgv) pkgd
        | None => pkgname_in_versions vs' version cos
        end
      else pkgname_in_versions vs' version cos
  end.

Definition _get_pkgname (self : PackageManager) (profile version : string)
           (cos : option string) : option string :=
  match Dict.get (_packages self) profile with
  | Some p => pkgname_in_versions (versions p) version cos
  | None => None
  end.

Definition _get_disturl (self : PackageManager) (profile version : string)
           (cos : option string) : option string :=
  match _get_pkgname self profile version cos with
  | Some pkgname => Some (Py.join "/" [DOWNLOAD_URL; version; pkgname])
  | None => None
  end.

(** [sep.join(l)] when an item may be [None]: [TypeError]. *)
Fixpoint join_opt (sep : string) (l : list (option string)) (acc : list string)
  : result string :=
  match l with
  | [] => Ok (Py.join sep acc)
  | Some x :: l' => join_opt sep l' (acc ++ [x])%list
  | None :: _ => Raise TypeError
  end.

(** [x in (a, b, ...)] where [x] may be [None]. *)
Definition in_tuple (x : option string) (t : list string) : bool :=
  match x with
  | Some s => Py.mem s t
  | None => false
  end.

(** [x in s] for a string [s], where [x] may be [None]: [TypeError]. *)
Definition in_str (x : option string) (s : string) : result bool :=
  match x with
  | Some x' => Ok (Py.str_in x' s)
  | None => Raise TypeError
  end.

Section Strategies.

Variable h : Host.
Variable self : PackageManager.

(** [os.system(cmd)] in the monad. *)
Definition system (cmd : string) : M Z :=
  fun fs => let '(status, fs') := os_system h cmd fs in (Ok status, fs').

Definition unsupported {A} : M A :=
  raise (PackageManagerException ("Operative System not supported: " ++ uname h)).

Definition _uninstall_from_dist (profile version : string) : M bool :=
  let dist_name := host_distname h in
  (w <- lift (in_str dist_name "w64") ;;
   if w then
     let dst := Py.join "/" [_r2env_path self; "bin"] in
     try_except (Os.rmtree dst ;;; ret true) is_OSError
       (fun err => raise (PackageManagerException
          ("An issue occurred while removing " ++ dst ++ ". Error: " ++ exn_str err)))
   else if in_tuple dist_name ["mac_x64"; "mac_arm64"] then
     let result_code := 0 in
     let pkgname := "org.radare.radare2" in
     r1 <- system ("pkgutil --pkg-info " ++ pkgname) ;;
     let result_code := result_code + r1 in
     r2 <- system ("cd / && pkgutil --only-files --files " ++ pkgname ++ " | "
                   ++ "tr '\n' '\0' | xargs -n 1 -0 sudo rm -f") ;;
     let result_code := result_code + r2 in
     r3 <- system ("cd / && pkgutil --only-dirs --files " ++ pkgname ++ " | "
                   ++ "tail -r | tr '\n' '\0' | xargs -n 1 -0 sudo rmdir 2>/dev/null") ;;
     let result_code := result_code + r3 in
     r4 <- system ("sudo pkgutil --forget " ++ pkgname) ;;
     let result_code := result_code + r4 in
     ret (result_code =? 0)
   else if in_tuple dist_name ["deb_x64"; "deb_i386"] then
     r <- system ("sudo dpkg -r " ++ profile) ;;
     ret (r =? 0)
   else
     a <- lift (in_str dist_name "android") ;;
     if a then
       r <- system "sudo dpkg -r radare2" ;;
       ret (r =? 0)
     else unsupported)%M.

(** The [for file_path in zip_file.namelist()] loop. *)
Fixpoint copy_loop (dst_folder : string) (names : list string) : M unit :=
  match names with
  | [] => ret tt
  | file_path :: names' =>
      (when (Py.endswith file_path ".exe"
             || Py.endswith file_path ".dll" && Py.str_in "bin" file_path)
         (let file_name := PosixPath.basename file_path in
          let dst_filepath := Py.join "/" [dst_folder; file_name] in
          Shutil.copyfile file_path dst_filepath) ;;;
       copy_loop dst_folder names')%M
  end.

Definition _install_windows_package (pkgfile : string) : M bool :=
  try_except
    (zip_extractall h pkgfile ;;;
     let dst_folder := Py.join "/" [_r2env_path self; "bin"] in
     d <- Os.isdir dst_folder ;;
     when (negb d) (Os.makedirs dst_folder) ;;;
     copy_loop dst_folder (zip_namelist h pkgfile) ;;;
     let radare2_bin_file_path := Py.join "/" [_r2env_path self; "bin"; "radare2.exe"] in
     let r2_bin_file_path := Py.join "/" [_r2env_path self; "bin"; "r2.exe"] in
     Shutil.copyfile radare2_bin_file_path r2_bin_file_path ;;;
     ret true)%M
    is_OSError
    (fun err =>
       (_uninstall_from_dist "radare2" "latest" ;;;
        raise (PackageManagerException
                 ("Unable to install Windows package " ++ pkgfile ++ ".")))%M).

Definition _install_from_dist (profile version : string) : M bool :=
  let dist_name := host_distname h in
  let disturl := _get_disturl self profile version dist_name in
  let pkgname := _get_pkgname self profile version dist_name in
  (pkgfile <- lift (join_opt "/" [Some (_r2env_path self); Some "src"; pkgname] []) ;;
   try_except (wget_download h disturl pkgfile) is_download_error
     (fun err => raise (PackageManagerException
        ("Failed to download " ++ profile ++ " package. Error: " ++ exn_str err))) ;;;
   if in_tuple dist_name ["mac_x64"; "mac_arm64"] then
     r <- system ("sudo installer -pkg " ++ pkgfile ++ " -target /") ;;
     ret (r =? 0)
   else
     w <- lift (in_str dist_name "w64") ;;
     if w then _install_windows_package pkgfile
     else if in_tuple dist_name ["deb_x64"; "deb_i386"] then
       r <- system ("sudo dpkg -i " ++ pkgfile) ;;
       ret (r =? 0)
     else
       a <- lift (in_str dist_name "android") ;;
       if a then
         r <- system "apt install radare2" ;;
         ret (r =? 0)
       else unsupported)%M.

Definition _build_using_acr (source_path dst_path logfile r2env_path : string) : M bool :=
  (if match host_distname h with
      | Some d => Py.str_in d "w64"
      | None => false
      end
   then
     raise (PackageManagerException
              "acr is not supported on Windows platform. Use meson instead.")
   else
     exit_if_not_exists h ["make"] ;;;
     p <- Os.isfile "/default.prop" ;;
     let extra_flags := if p then " --with-compiler=termux" else EmptyString in
     let config_path := r2env_path ++ "/lib/pkgconfig" in
     let cmd := "(export PKG_CONFIG_PATH=" ++ Py.chr 34 ++ config_path ++ Py.chr 34 ++ ";"
                ++ "cd " ++ source_path ++ " && "
                ++ "rm -rf shlr/capstone && "
                ++ "./configure " ++ extra_flags ++ " --with-rpath --prefix=" ++ dst_path
                ++ " 2>&1 && "
                ++ "make -j4 2>&1 && "
                ++ "make install) > " ++ logfile in
     r <- system cmd ;;
     ret (r =? 0))%M.

Definition _build_using_meson (source_path dst_path logfile r2env_path : string) : M bool :=
  (exit_if_not_exists h ["meson"; "ninja"] ;;;
   let config_path := r2env_path ++ "/lib/pkgconfig" in
   let cmd := "(export PKG_CONFIG_PATH=" ++ Py.chr 34 ++ config_path ++ Py.chr 34 ++ ";"
              ++ "cd " ++ Py.chr 34 ++ source_path ++ Py.chr 34 ++ " && rm -rf build && "
              ++ "meson build --buildtype=release --prefix=" ++ dst_path
              ++ " -Dlocal=true 2>&1 && "
              ++ "ninja -C build && "
              ++ "ninja -C build install) > " ++ logfile ++ " && "
              ++ "for a in " ++ dst_path ++ "/bin/* ; do install_name_tool -add_rpath "
              ++ dst_path ++ "/lib $a ; done" in
   r <- system cmd ;;
   ret (r =? 0))%M.

Definition _build_from_source (profile version source_path dst_path logfile : string)
           (use_meson : bool) : M bool :=
  (exit_if_not_exists h ["git"] ;;;
   src <- lift (match Dict.get (_packages self) profile with
                | Some p => Ok (source p)
                | None => Raise (KeyError profile)
                end) ;;
   git_fetch h src version source_path ;;;
   git_clean h source_path ;;;
   if use_meson then _build_using_meson source_path dst_path logfile (_r2env_path self)
   else _build_using_acr source_path dst_path logfile (_r2env_path self))%M.

(** The paths [install_package] computes. *)
Definition log_path : string := PosixPath.join (_r2env_path self) [LOG_DIR].

Definition logfile_of (profile version : string) : string :=
  PosixPath.join log_path
    [profile ++ "_" ++ version ++ "_" ++ Py.str_of_int (monotonic_ms h) ++ "_build.txt"].

Definition source_path_of (profile : string) : string :=
  PosixPath.join (PosixPath.join (_r2env_path self) [SOURCE_DIR; profile]) [].

Definition dst_dir_of (profile version : string) : string :=
  PosixPath.join (PosixPath.join (_r2env_path self) [PACKAGES_DIR])
                 [profile ++ "@" ++ version].

(** [if os.path.isdir(dst_dir): shutil.rmtree(dst_dir)]. *)
Definition rollback (dst_dir : string) : M unit :=
  (d <- Os.isdir dst_dir ;; when d (Os.rmtree dst_dir))%M.

Definition install_package (profile version : string) (use_meson use_dist : bool) : M unit :=
  let logfile := logfile_of profile version in
  let source_path := source_path_of profile in
  let dst_dir := dst_dir_of profile version in
  (d <- Os.isdir log_path ;;
   when (negb d) (Os.makedirs log_path) ;;;
   d <- Os.isdir source_path ;;
   when (negb d) (Os.makedirs source_path) ;;;
   d <- Os.isdir dst_dir ;;
   when (negb d) (Os.makedirs dst_dir) ;;;
   if _if_package_not_available self profile version then
     rollback dst_dir ;;;
     raise (PackageManagerException
              (profile ++ "@" ++ version
               ++ " package not available. Use 'list' command to see available packages."))
   else if use_dist then
     ok <- _install_from_dist profile version ;;
     if ok then ret tt
     else
       rollback dst_dir ;;;
       raise (PackageManagerException
                ("[x] Failed to install " ++ profile ++ "@" ++ version ++ "."))
   else
     ok <- _build_from_source profile version source_path dst_dir logfile use_meson ;;
     if ok then ret tt
     else
       rollback dst_dir ;;;
       raise (PackageManagerException
                ("[x] Failed to build " ++ profile ++ "@" ++ version ++ ". "
                 ++ "Check " ++ logfile ++ " for more information.")))%M.

(** The [for package in self.list_installed_packages()] loop with
    its [break]; the result is [pkg_found]. *)
Fixpoint uninstall_loop (package_name : string) (use_dist : bool)
         (installed : list string) : M bool :=
  match installed with
  | [] => ret false
  | package :: installed' =>
      if String.eqb package_name package then
        ((if use_dist then
            match Py.split "@"%char package with
            | [profile; version] =>
                _uninstall_from_dist profile version ;;; ret tt
            | _ => raise ValueError
            end
          else
            let pkg_dir := PosixPath.join (_r2env_path self) [PACKAGES_DIR; package] in
            try_except (Os.rmtree pkg_dir) is_OSError
              (fun err => raise (PackageManagerException
                 ("[x] Unable to remove package " ++ package_name
                  ++ ". Error: " ++ exn_str err)))) ;;;
         ret true)%M
      else uninstall_loop package_name use_dist installed'
  end.

Definition uninstall_package (package_name : string) (use_dist : bool) : M unit :=
  (installed <- list_installed_packages self ;;
   pkg_found <- uninstall_loop package_name use_dist installed ;;
   if negb pkg_found then
     raise (PackageManagerException
              ("[x] Unable to find installed package " ++ package_name))
   else ret tt)%M.

End Strategies.

(* ================================================================= *)
(** ** r2env/tools.py

    [env_path] moves the process up the directory tree with
    [os.chdir("..")]; the working directory is the list of its
    components, all of them existing directories, and [os.getcwd()]
    is the absolute path string of that list.  [check] prints one
    line per tool; the lines printed are the value returned here. *)

Module Tools.

(** [os.getcwd()]. *)
Definition getcwd (cwd : FS.path) : string := "/" ++ Py.join "/" cwd.

(** [os.chdir("..")]: the root is its own parent. *)
Definition chdir_up (cwd : FS.path) : FS.path := removelast cwd.

(** The [while True] loop of [env_path]: [oldcwd] is the local
    variable, [cwd] the working directory of the process; the value
    returned, and the working directory the process is left in.
    [fuel] bounds the iterations. *)
Fixpoint env_path_loop (fuel : nat) (fs : FS.t) (oldcwd : string) (cwd : FS.path)
  : option string * FS.path :=
  match fuel with
  | O => (None, cwd)
  | S fuel' =>
      let envdir := PosixPath.join oldcwd [".r2env"] in
      if FS.isdir fs envdir then (Some envdir, cwd)
      else
        let cwd1 := chdir_up cwd in
        let cwd := getcwd cwd1 in
        if String.eqb oldcwd cwd then (None, cwd1)
        else env_path_loop fuel' fs cwd cwd1
  end.

(** [env_path()]: one iteration per ancestor of the working
    directory, the root included. *)
Definition env_path (fs : FS.t) (cwd : FS.path) : option string * FS.path :=
  env_path_loop (S (length cwd)) fs (getcwd cwd) cwd.

(** [check_tool(tool)]. *)
Definition check_tool (h : Host) (tool : string) : M bool :=
  if String.eqb tool "git" then
    (r <- system h "git --help > /dev/null" ;; ret (r =? 0))%M
  else if String.eqb tool "unzip" then
    (r <- system h "unzip -h > /dev/null" ;; ret (r =? 0))%M
  else ret false.

(** [check(tools)], with the lines it prints. *)
Fixpoint check (h : Host) (tools : list string) : M (list string) :=
  match tools with
  | [] => ret []
  | tool :: tools' =>
      (found <- check_tool h tool ;;
       let line := if found then "found " ++ tool else "oops  " ++ tool in
       lines <- check h tools' ;;
       ret (line :: lines))%M
  end.

End Tools.

(* ================================================================= *)
(** ** Vocabulary of the statements *)

(** The tokens and the extension the asset loop computes from a file
    name. *)
Definition asset_ext (name : string) : string := snd (PosixPath.splitext name).

Definition asset_tokens (name : string) : list string :=
  Py.split Py.hyphen (Py.replace Py.underscore Py.hyphen (fst (PosixPath.splitext name))).

(** The scan of a release completes: no asset makes it raise. *)
Definition raises (tag name : string) : bool :=
  match classify tag name with
  | Raise _ => true
  | Ok _ => false
  end.

Definition scans (r : release) : bool :=
  forallb (fun a => negb (raises (tag_name r) (asset_name a))) (assets r).

(** The version ids of a package of a catalog. *)
Definition version_ids (c : catalog) (package : string) : list string :=
  match Dict.get c package with
  | Some p => map id (versions p)
  | None => []
  end.

(** The installed-package registry's [list()] contains [K] in the
    state [fs]. *)
Definition installed (self : PackageManager) (fs : FS.t) (K : string) : Prop :=
  exists l, list_installed_packages self fs = (Ok l, fs) /\ In K l.

(** A name without a slash: one path component. *)
Fixpoint no_slash (s : string) : bool :=
  match s with
  | EmptyString => true
  | String c s' => negb (Ascii.eqb c Py.slash) && no_slash s'
  end.

(** The name the asset loop leaves under [platform]: that of the last
    asset filed under it. *)
Fixpoint last_filed (tag platform : string) (l : list asset) : option string :=
  match l with
  | [] => None
  | a :: l' =>
      match last_filed tag platform l' with
      | Some n => Some n
      | None =>
          match classify tag (asset_name a) with
          | Ok (Some p) => if String.eqb p platform then Some (asset_name a) else None
          | _ => None
          end
      end
  end.

(** *** The order of the primary package's versions *)

(** The synthetic version first, then the releases as delivered. *)
Definition git_first_newest_first (gh_release_info : list release) : Prop :=
  forall c, build_profiles gh_release_info = Ok c ->
            version_ids c "radare2" = "git" :: map tag_name gh_release_info.

(** A release list as the upstream delivers it: newest first. *)
Definition two_releases : list release :=
  [ {| tag_name := "5.9.0";
       assets := [ {| asset_name := "radare2_5.9.0_amd64.deb" |};
                   {| asset_name := "radare2-5.9.0-w64.zip" |} ] |};
    {| tag_name := "5.8.8"; assets := [] |} ].

(** A release tagged with the project name, with one text asset. *)
Definition release_named_radare2 : release :=
  {| tag_name := "radare2"; assets := [ {| asset_name := "radare2.txt" |} ] |}.

(** A release with two Debian packages for the same platform. *)
Definition two_debs : release :=
  {| tag_name := "5.9.0";
     assets := [ {| asset_name := "radare2_5.9.0_amd64.deb" |};
                 {| asset_name := "radare2-5.9.0-w64.zip" |};
                 {| asset_name := "radare2-5.9.0-amd64.deb" |};
                 {| asset_name := "radare2-5.9.0.tar.gz" |} ] |}.

(** *** File-system vocabulary *)

(** [fs'] is [fs] with directories added. *)
Definition grows (fs fs' : FS.t) : Prop :=
  exists l, fs' = (fs ++ l)%list /\ Forall (fun e => snd e = FS.Dir) l.

(** Every directory node of [fs] is a directory node of [fs']. *)
Definition keeps_dirs (fs fs' : FS.t) : Prop :=
  forall q, FS.find fs q = Some FS.Dir -> FS.find fs' q = Some FS.Dir.

(** A regular file lies on the way down [todo] from [done]. *)
Fixpoint blocked (fs : FS.t) (done todo : FS.path) : bool :=
  match todo with
  | [] => false
  | c :: todo' =>
      match FS.find fs (done ++ [c])%list with
      | Some (FS.File _) => true
      | _ => blocked fs (done ++ [c])%list todo'
      end
  end.

(** A regular file is in the way of the directory path [s]. *)
Definition obstructed (fs : FS.t) (s : string) : bool :=
  blocked fs [] (FS.components s).

(** [if not os.path.isdir(s): os.makedirs(s)]. *)
Definition ensure_dir (s : string) : M unit :=
  (d <- Os.isdir s ;; when (negb d) (Os.makedirs s))%M.

(** [fs] without the subtree at [D]. *)
Definition without (D : FS.path) (fs : FS.t) : FS.t :=
  filter (fun e => negb (FS.is_prefix D (fst e))) fs.

(** The key [profile@version]. *)
Definition key_of (profile version : string) : string :=
  (profile ++ "@" ++ version)%string.

(** *** The installed-package registry *)

Definition pkg_dir_of (self : PackageManager) : string :=
  PosixPath.join (_r2env_path self) [PACKAGES_DIR].

(** What [list_installed_packages] returns in the state [fs]. *)
Definition registry (self : PackageManager) (fs : FS.t) : list string :=
  if FS.isdir fs (pkg_dir_of self) then
    filter (fun pkg => FS.isdir fs (PosixPath.join (pkg_dir_of self) [pkg]))
           (FS.children fs (FS.components (pkg_dir_of self)))
  else [].

(** A state with a package directory, a plain file next to it and no
    versions directory elsewhere. *)
Definition pm_home : PackageManager :=
  {| _packages := make_profiles [git_version]; _r2env_path := "/home/u/.r2env" |}.

Definition fs_one_installed : FS.t :=
  [ (["home"], FS.Dir);
    (["home"; "u"], FS.Dir);
    (["home"; "u"; ".r2env"], FS.Dir);
    (["home"; "u"; ".r2env"; "bin"], FS.Dir);
    (["home"; "u"; ".r2env"; "versions"], FS.Dir);
    (["home"; "u"; ".r2env"; "versions"; "radare2@5.9.0"], FS.Dir);
    (["home"; "u"; ".r2env"; "versions"; "radare2@5.9.0"; "bin"], FS.Dir);
    (["home"; "u"; ".r2env"; "versions"; "notes.txt"], FS.File "x") ].

Definition fs_no_versions : FS.t :=
  [ (["home"], FS.Dir);
    (["home"; "u"], FS.Dir);
    (["home"; "u"; ".r2env"], FS.Dir);
    (["home"; "u"; ".r2env"; "profiles.json"], FS.File "{}") ].

(** *** Concrete hosts *)

(** A 64-bit Debian host whose collaborators succeed and leave the
    modelled tree alone. *)
Definition host_deb : Host :=
  {| host_distname := Some "deb_x64";
     uname := "posix.uname_result(sysname='Linux')";
     monotonic_ms := 1000;
     gh_release_info_req := Ok two_releases;
     os_system := fun _ fs => (0, fs);
     wget_download := fun _ _ => ret tt;
     git_fetch := fun _ _ _ => ret tt;
     git_clean := fun _ => ret tt;
     exit_if_not_exists := fun _ => ret tt;
     zip_extractall := fun _ => ret tt;
     zip_namelist := fun _ => [] |}.

(** The same host without a network: the download raises [URLError]. *)
Definition host_deb_offline : Host :=
  {| host_distname := Some "deb_x64";
     uname := "posix.uname_result(sysname='Linux')";
     monotonic_ms := 1000;
     gh_release_info_req := Ok two_releases;
     os_system := fun _ fs => (0, fs);
     wget_download := fun _ _ => raise (URLError "timed out");
     git_fetch := fun _ _ _ => ret tt;
     git_clean := fun _ => ret tt;
     exit_if_not_exists := fun _ => ret tt;
     zip_extractall := fun _ => ret tt;
     zip_namelist := fun _ => [] |}.


(** The package manager over the catalog rebuilt from [two_releases]. *)
Definition pm_two : PackageManager :=
  {| _packages :=
       make_profiles
         [ git_version;
           {| id := "5.9.0";
              packages := [ ("deb_x64", "radare2_5.9.0_amd64.deb");
                            ("w64", "radare2-5.9.0-w64.zip") ] |};
           {| id := "5.8.8"; packages := [] |} ];
     _r2env_path := "/home/u/.r2env" |}.

(** *** Install of a pair that is not in the catalog *)


(** *** Collaborators and the destination directory *)

(** A computation that, when it returns, leaves the directory [s] in
    place. *)
Definition keeps (s : string) {A} (m : M A) : Prop :=
  forall fs a fs', m fs = (Ok a, fs') -> FS.isdir fs s = true -> FS.isdir fs' s = true.

(** The collaborators of the host leave the directory [s] in place. *)
Definition host_keeps (h : Host) (s : string) : Prop :=
  (forall cmd, keeps s (system h cmd))
  /\ (forall url out, keeps s (wget_download h url out))
  /\ (forall url ref path, keeps s (git_fetch h url ref path))
  /\ (forall path, keeps s (git_clean h path))
  /\ (forall tools, keeps s (exit_if_not_exists h tools))
  /\ (forall pkgfile, keeps s (zip_extractall h pkgfile)).

(** *** Uninstall and the registry *)

(** The claim as stated, for either mode: after an uninstall that
    returns, the registry no longer lists the key. *)
Definition uninstall_unlists (h : Host) (self : PackageManager) (K : string)
           (use_dist : bool) (fs : FS.t) : Prop :=
  forall fs', uninstall_package h self K use_dist fs = (Ok tt, fs') ->
              ~ installed self fs' K.

(** The state after [radare2@git] has been installed from source in
    [fs_no_versions]. *)
Definition fs_git_installed : FS.t :=
  (fs_no_versions
     ++ [ (["home"; "u"; ".r2env"; "log"], FS.Dir);
          (["home"; "u"; ".r2env"; "src"], FS.Dir);
          (["home"; "u"; ".r2env"; "src"; "radare2"], FS.Dir);
          (["home"; "u"; ".r2env"; "versions"], FS.Dir);
          (["home"; "u"; ".r2env"; "versions"; "radare2@git"], FS.Dir) ])%list.

(** A release whose tag has a slash, and the package manager over the
    catalog rebuilt from it. *)
Definition release_slash : release := {| tag_name := "next/6.0"; assets := [] |}.

Definition pm_slash : PackageManager :=
  {| _packages := make_profiles [ git_version; {| id := "next/6.0"; packages := [] |} ];
     _r2env_path := "/home/u/.r2env" |}.

(** *** The catalog, for the further properties *)

(** The (extension, platform) pairs of [_VERSION_FILTERS]. *)
Definition filed_pairs : list (string * string) :=
  [ (".zip", "w32"); (".zip", "w64");
    (".deb", "deb_i386"); (".deb", "deb_x64");
    (".pkg", "mac_arm64"); (".pkg", "mac_x64") ].

(** The companion packages of the [profiles] literal. *)
Definition companions : list string := ["r2frida"; "r2dec"; "r2yara"; "r2ghidra"; "r0"].

(** *** Hosts and states for the further properties *)

(** A Debian host whose shell commands fail with status 1. *)
Definition host_deb_failing : Host :=
  {| host_distname := Some "deb_x64";
     uname := "posix.uname_result(sysname='Linux')";
     monotonic_ms := 1000;
     gh_release_info_req := Ok two_releases;
     os_system := fun _ fs => (1, fs);
     wget_download := fun _ _ => ret tt;
     git_fetch := fun _ _ _ => ret tt;
     git_clean := fun _ => ret tt;
     exit_if_not_exists := fun _ => ret tt;
     zip_extractall := fun _ => ret tt;
     zip_namelist := fun _ => [] |}.

(** A host that identifies itself as 32-bit Windows. *)
Definition host_w32 : Host :=
  {| host_distname := Some "w32";
     uname := "nt";
     monotonic_ms := 1000;
     gh_release_info_req := Ok two_releases;
     os_system := fun _ fs => (0, fs);
     wget_download := fun _ _ => ret tt;
     git_fetch := fun _ _ _ => ret tt;
     git_clean := fun _ => ret tt;
     exit_if_not_exists := fun _ => ret tt;
     zip_extractall := fun _ => ret tt;
     zip_namelist := fun _ => [] |}.

(** A catalog with a 32-bit Windows archive. *)
Definition pm_w32 : PackageManager :=
  {| _packages :=
       make_profiles
         [ git_version;
           {| id := "5.9.0"; packages := [ ("w32", "radare2-5.9.0-w32.zip") ] |} ];
     _r2env_path := "/home/u/.r2env" |}.

(** A state in which the log path is a regular file. *)
Definition fs_log_is_file : FS.t :=
  [ (["home"], FS.Dir);
    (["home"; "u"], FS.Dir);
    (["home"; "u"; ".r2env"], FS.Dir);
    (["home"; "u"; ".r2env"; "log"], FS.File "x") ].

(** Two installed packages, one of them with a name without [@]. *)
Definition fs_two_installed : FS.t :=
  [ (["home"], FS.Dir);
    (["home"; "u"], FS.Dir);
    (["home"; "u"; ".r2env"], FS.Dir);
    (["home"; "u"; ".r2env"; "versions"], FS.Dir);
    (["home"; "u"; ".r2env"; "versions"; "radare2@5.9.0"], FS.Dir);
    (["home"; "u"; ".r2env"; "versions"; "radare2@5.9.0"; "bin"], FS.Dir);
    (["home"; "u"; ".r2env"; "versions"; "r2dec@git"], FS.Dir);
    (["home"; "u"; ".r2env"; "versions"; "scratch"], FS.Dir) ].

(** [_install_from_dist] has a branch for the platform [d]. *)
Definition has_installer (d : string) : bool :=
  Py.mem d ["mac_x64"; "mac_arm64"]
  || Py.str_in d "w64"
  || Py.mem d ["deb_x64"; "deb_i386"]
  || Py.str_in d "android".

(** A host with no platform identifier. *)
Definition host_unknown : Host :=
  {| host_distname := None;
     uname := "posix.uname_result(sysname='Plan9')";
     monotonic_ms := 1000;
     gh_release_info_req := Ok two_releases;
     os_system := fun _ fs => (0, fs);
     wget_download := fun _ _ => ret tt;
     git_fetch := fun _ _ _ => ret tt;
     git_clean := fun _ => ret tt;
     exit_if_not_exists := fun _ => ret tt;
     zip_extractall := fun _ => ret tt;
     zip_namelist := fun _ => [] |}.

(** A Windows host whose archive holds the two executables, already
    unpacked in the working directory. *)
Definition host_w64_zip : Host :=
  {| host_distname := Some "w64";
     uname := "nt";
     monotonic_ms := 1000;
     gh_release_info_req := Ok two_releases;
     os_system := fun _ fs => (0, fs);
     wget_download := fun _ _ => ret tt;
     git_fetch := fun _ _ _ => ret tt;
     git_clean := fun _ => ret tt;
     exit_if_not_exists := fun _ => ret tt;
     zip_extractall := fun _ => ret tt;
     zip_namelist := fun _ => ["radare2-5.9.0-w64/bin/radare2.exe";
                               "radare2-5.9.0-w64/bin/libr_core.dll";
                               "radare2-5.9.0-w64/README.md"] |}.

Definition fs_unpacked : FS.t :=
  [ (["home"], FS.Dir);
    (["home"; "u"], FS.Dir);
    (["home"; "u"; ".r2env"], FS.Dir);
    (["radare2-5.9.0-w64"], FS.Dir);
    (["radare2-5.9.0-w64"; "bin"], FS.Dir);
    (["radare2-5.9.0-w64"; "bin"; "radare2.exe"], FS.File "MZ-radare2");
    (["radare2-5.9.0-w64"; "bin"; "libr_core.dll"], FS.File "MZ-core");
    (["radare2-5.9.0-w64"; "README.md"], FS.File "readme") ].

(** A host whose release list has a release tagged with the project
    name. *)
Definition host_bad_tag : Host :=
  {| host_distname := Some "deb_x64";
     uname := "posix.uname_result(sysname='Linux')";
     monotonic_ms := 1000;
     gh_release_info_req := Ok [release_named_radare2];
     os_system := fun _ fs => (0, fs);
     wget_download := fun _ _ => ret tt;
     git_fetch := fun _ _ _ => ret tt;
     git_clean := fun _ => ret tt;
     exit_if_not_exists := fun _ => ret tt;
     zip_extractall := fun _ => ret tt;
     zip_namelist := fun _ => [] |}.

(** A directory node is recorded at the path [s]. *)
Definition dir_node (fs : FS.t) (s : string) : bool :=
  match FS.find fs (FS.components s) with
  | Some FS.Dir => true
  | _ => false
  end.

(** The [.r2env] directory of the directory [anc]. *)
Definition env_marker (anc : FS.path) : string :=
  PosixPath.join (Tools.getcwd anc) [".r2env"].

(** A project tree with an environment two levels above the working
    directory, and one without any. *)
Definition fs_project : FS.t :=
  [ (["home"], FS.Dir);
    (["home"; "u"], FS.Dir);
    (["home"; "u"; "proj"], FS.Dir);
    (["home"; "u"; "proj"; ".r2env"], FS.Dir);
    (["home"; "u"; "proj"; "src"], FS.Dir);
    (["home"; "u"; "proj"; "src"; "lib"], FS.Dir);
    (["home"; "u"; ".r2env"], FS.File "not a directory") ].

(** *** Plain tags *)

(** The character [c] occurs in [s]. *)
Fixpoint has_char (c : ascii) (s : string) : bool :=
  match s with
  | EmptyString => false
  | String d s' => Ascii.eqb d c || has_char c s'
  end.

(** A tag without hyphen, underscore and slash (dots are fine). *)
Definition plain_tag (tag : string) : bool :=
  negb (has_char "-" tag) && negb (has_char "_" tag) && negb (has_char "/" tag).

(** *** Path strings the model reads as the operating system does *)

(** A path string shorter than PATH_MAX, without a NUL character, and
    whose components are at most NAME_MAX characters long and are not
    [".."].  On such a string path resolution goes down one directory
    per component, which is how [FS.walk] reads it. *)
Definition well_named (s : string) : bool :=
  (String.length s <? 4096)%nat
  && negb (has_char "000"%char s)
  && forallb (fun c => negb (String.eqb c "..") && (String.length c <=? 255)%nat)
             (FS.components s).


(** A package manager whose environment directory lies below a
    directory named like a package key. *)
Definition pm_nested : PackageManager :=
  {| _packages := make_profiles [git_version]; _r2env_path := "/x@y/env" |}.

(** *** Printable ASCII *)

(** Every character of [s] is between the space and the tilde. *)
Fixpoint printable (s : string) : bool :=
  match s with
  | EmptyString => true
  | String c s' =>
      ((32 <=? nat_of_ascii c) && (nat_of_ascii c <=? 126))%nat && printable s'
  end.

(** A release whose names have a quote, a backslash, a line feed and
    a character above 127. *)
Definition release_odd_names : release :=
  {| tag_name := String (ascii_of_nat 34) (String (ascii_of_nat 233) "5.9\0");
     assets := [ {| asset_name := String (ascii_of_nat 10) "radare2.zip" |} ] |}.

Definition host_odd_names : Host :=
  {| host_distname := Some "deb_x64";
     uname := "posix.uname_result(sysname='Linux')";
     monotonic_ms := 1000;
     gh_release_info_req := Ok [release_odd_names];
     os_system := fun _ fs => (0, fs);
     wget_download := fun _ _ => ret tt;
     git_fetch := fun _ _ _ => ret tt;
     git_clean := fun _ => ret tt;
     exit_if_not_exists := fun _ => ret tt;
     zip_extractall := fun _ => ret tt;
     zip_namelist := fun _ => [] |}.

(* ================================================================= *)
(** * Properties *)

(** ** Dictionaries *)

Lemma dict_get_set_same {V} (d : Dict.t V) k v :
  Dict.get (Dict.set d k v) k = Some v.
Proof.
  induction d as [|[k' v'] d IH]; simpl.
  - now rewrite String.eqb_refl.
  - destruct (String.eqb k' k) eqn:E; simpl; rewrite E; auto.
Qed.

Lemma dict_get_set_other {V} (d : Dict.t V) k k' v :
  k <> k' -> Dict.get (Dict.set d k v) k' = Dict.get d k'.
Proof.
  intros Hne. induction d as [|[k0 v0] d IH]; simpl.
  - destruct (String.eqb k k') eqn:E; auto.
    apply String.eqb_eq in E. contradiction.
  - destruct (String.eqb k0 k) eqn:E; simpl.
    + apply String.eqb_eq in E. subst k0.
      destruct (String.eqb k k') eqn:E'; auto.
      apply String.eqb_eq in E'. contradiction.
    + now rewrite IH.
Qed.

(** ** The asset normalizer *)

Lemma classify_unfold tag name :
  classify tag name =
  if negb (String.eqb (hd EmptyString (asset_tokens name)) "radare2") then Ok None
  else if negb (Py.mem tag (asset_tokens name)) then Ok None
  else
    (r1 <-- Py.remove "radare2" (asset_tokens name) ;;
     r2 <-- Py.remove tag r1 ;;
     match Dict.get _VERSION_FILTERS (asset_ext name) with
     | Some items => Ok (first_platform r2 items)
     | None => Ok None
     end)%res.
Proof.
  unfold classify, asset_tokens, asset_ext.
  destruct (PosixPath.splitext name) as [stem ext]. reflexivity.
Qed.

Example classify_w64 :
  classify "5.9.0" "radare2-5.9.0-w64.zip" = Ok (Some "w64").
Proof. reflexivity. Qed.

Example classify_apk :
  classify "5.9.0" "radare2-5.9.0-android.apk" = Ok None.
Proof. reflexivity. Qed.

Example classify_pkg :
  classify "5.9.0" "radare2-5.9.0.pkg" = Ok (Some "mac_x64").
Proof. reflexivity. Qed.

Example classify_raises :
  classify "radare2" "radare2.txt" = Raise ValueError.
Proof. reflexivity. Qed.

(** An asset whose first token is not the project name is skipped. *)
Lemma classify_first_token tag name :
  hd EmptyString (asset_tokens name) <> "radare2" ->
  classify tag name = Ok None.
Proof.
  intros H. rewrite classify_unfold.
  destruct (String.eqb (hd EmptyString (asset_tokens name)) "radare2") eqn:E; auto.
  apply String.eqb_eq in E. contradiction.
Qed.

(** An asset without the release's tag among its tokens is skipped. *)
Lemma classify_no_tag tag name :
  Py.mem tag (asset_tokens name) = false ->
  classify tag name = Ok None.
Proof.
  intros H. rewrite classify_unfold, H. simpl.
  now destruct (negb _).
Qed.

(** An asset with an extension outside the table is never filed under
    a platform: it is skipped, or the removal of the tag raises. *)
Lemma classify_unknown_ext tag name :
  Dict.get _VERSION_FILTERS (asset_ext name) = None ->
  classify tag name = Ok None \/ classify tag name = Raise ValueError.
Proof.
  intros H. rewrite classify_unfold, H.
  destruct (negb _); auto.
  destruct (negb _); auto.
  assert (R : forall x l, (exists l', Py.remove x l = Ok l') \/ Py.remove x l = Raise ValueError).
  { intros x l. induction l as [|y l IH]; simpl; auto.
    destruct (String.eqb y x); eauto.
    destruct IH as [[l' ->] | ->]; eauto. }
  destruct (R "radare2" (asset_tokens name)) as [[l1 ->] | ->]; simpl; auto.
  destruct (R tag l1) as [[l2 ->] | ->]; simpl; auto.
Qed.

Lemma remove_mem x l :
  Py.mem x l = true -> exists l', Py.remove x l = Ok l'.
Proof.
  induction l as [|y l IH]; simpl; [discriminate|].
  intros H. rewrite String.eqb_sym.
  destruct (String.eqb x y) eqn:E; simpl in *; eauto.
  destruct (IH H) as [l' ->]. eauto.
Qed.

(** The scan raises only for a release tagged with the project name
    itself. *)
Lemma classify_total tag name :
  tag <> "radare2" -> exists c, classify tag name = Ok c.
Proof.
  intros Hne. rewrite classify_unfold.
  destruct (asset_tokens name) as [|t ts] eqn:Et.
  - cbn. eauto.
  - cbn [hd Py.mem Py.remove].
    destruct (String.eqb t "radare2") eqn:E1; cbn [negb]; eauto.
    destruct (String.eqb tag t) eqn:E2.
    + apply String.eqb_eq in E1, E2. congruence.
    + cbn [orb]. destruct (Py.mem tag ts) eqn:E3; cbn [negb rbind]; eauto.
      destruct (remove_mem _ _ E3) as [l' ->]. cbn [rbind].
      destruct (Dict.get _VERSION_FILTERS (asset_ext name)); eauto.
Qed.

(** For a release that is not tagged with the project name, an asset
    is skipped as soon as its extension is outside the table, its
    first token is not the project name, or the tag is not among its
    tokens. *)
Lemma classify_skips tag name :
  tag <> "radare2" ->
  Dict.get _VERSION_FILTERS (asset_ext name) = None
  \/ hd EmptyString (asset_tokens name) <> "radare2"
  \/ Py.mem tag (asset_tokens name) = false ->
  classify tag name = Ok None.
Proof.
  intros Ht [H | [H | H]].
  - destruct (classify_unknown_ext tag name H) as [E | E]; auto.
    destruct (classify_total tag name Ht) as [c Ec]. congruence.
  - now apply classify_first_token.
  - now apply classify_no_tag.
Qed.

Lemma scans_other_tag r :
  tag_name r <> "radare2" -> scans r = true.
Proof.
  intros H. unfold scans. apply forallb_forall. intros a _.
  unfold raises. now destruct (classify_total (tag_name r) (asset_name a) H) as [c ->].
Qed.

Lemma scan_assets_ok tag l :
  forallb (fun a => negb (raises tag (asset_name a))) l = true ->
  forall pkgs, exists pkgs', scan_assets tag l pkgs = Ok pkgs'.
Proof.
  induction l as [|a l IH]; simpl; intros H pkgs; eauto.
  apply andb_prop in H. destruct H as [Ha Hl].
  unfold raises in Ha. destruct (classify tag (asset_name a)) as [c|]; [|discriminate].
  simpl. apply IH, Hl.
Qed.

Lemma scan_assets_get tag platform l :
  forall pkgs pkgs',
    scan_assets tag l pkgs = Ok pkgs' ->
    Dict.get pkgs' platform =
    match last_filed tag platform l with
    | Some n => Some n
    | None => Dict.get pkgs platform
    end.
Proof.
  induction l as [|a l IH]; simpl; intros pkgs pkgs' H.
  - now inversion H.
  - destruct (classify tag (asset_name a)) as [c|e]; simpl in H; [|discriminate].
    rewrite (IH _ _ H).
    destruct (last_filed tag platform l); auto.
    destruct c as [p|]; auto.
    destruct (String.eqb p platform) eqn:E.
    + apply String.eqb_eq in E. subst. apply dict_get_set_same.
    + apply dict_get_set_other. intros ->. now rewrite String.eqb_refl in E.
Qed.

Lemma last_filed_app tag platform l1 l2 :
  last_filed tag platform (l1 ++ l2) =
  match last_filed tag platform l2 with
  | Some n => Some n
  | None => last_filed tag platform l1
  end.
Proof.
  induction l1 as [|a l1 IH]; simpl.
  - now destruct (last_filed tag platform l2).
  - rewrite IH. now destruct (last_filed tag platform l2).
Qed.

Lemma last_filed_none tag platform l :
  (forall a, In a l -> classify tag (asset_name a) <> Ok (Some platform)) ->
  last_filed tag platform l = None.
Proof.
  induction l as [|a l IH]; simpl; intros H; auto.
  rewrite IH by auto.
  destruct (classify tag (asset_name a)) as [[p|]|] eqn:E; auto.
  destruct (String.eqb p platform) eqn:Ep; auto.
  apply String.eqb_eq in Ep. subst. exfalso. apply (H a); auto.
Qed.

(** C6. Last write wins: when two assets of a release are filed under
    the same platform, [a2] after [a1] and no asset after [a2], and the
    scan of the release completes, the version that is built maps the
    platform to the file name of [a2]. *)
Theorem last_write_wins (r : release) (pre mid post : list asset) (a1 a2 : asset)
        (platform : string) :
  assets r = (pre ++ a1 :: mid ++ a2 :: post)%list ->
  classify (tag_name r) (asset_name a1) = Ok (Some platform) ->
  classify (tag_name r) (asset_name a2) = Ok (Some platform) ->
  (forall a, In a post -> classify (tag_name r) (asset_name a) <> Ok (Some platform)) ->
  scans r = true ->
  exists v, build_version r = Ok v
            /\ id v = tag_name r
            /\ Dict.get (packages v) platform = Some (asset_name a2).
Proof.
  intros Hassets H1 H2 Hpost Hscan.
  unfold build_version.
  destruct (scan_assets_ok _ _ Hscan []) as [pkgs Hpkgs].
  rewrite Hpkgs. simpl. eexists. split; [reflexivity|]. split; [reflexivity|]. simpl.
  rewrite (scan_assets_get _ platform _ _ _ Hpkgs), Hassets.
  replace (pre ++ a1 :: mid ++ a2 :: post)%list
    with ((pre ++ a1 :: mid) ++ a2 :: post)%list
    by (rewrite <- app_assoc; reflexivity).
  rewrite last_filed_app. simpl.
  rewrite (last_filed_none _ _ _ Hpost), H2, String.eqb_refl. reflexivity.
Qed.

Lemma last_write_wins_witness :
  exists v, build_version two_debs = Ok v
            /\ id v = "5.9.0"
            /\ Dict.get (packages v) "deb_x64" = Some "radare2-5.9.0-amd64.deb".
Proof.
  apply (last_write_wins two_debs
           [] [ {| asset_name := "radare2-5.9.0-w64.zip" |} ]
           [ {| asset_name := "radare2-5.9.0.tar.gz" |} ]
           {| asset_name := "radare2_5.9.0_amd64.deb" |}
           {| asset_name := "radare2-5.9.0-amd64.deb" |} "deb_x64").
  - reflexivity.
  - vm_compute; reflexivity.
  - vm_compute; reflexivity.
  - intros a [<- | []]. vm_compute. discriminate.
  - vm_compute; reflexivity.
Defined.

(** ** The catalog builder *)

Lemma scan_releases_ok l :
  forallb scans l = true ->
  forall acc, exists vs,
    scan_releases l acc = Ok (acc ++ vs)%list /\ map id vs = map tag_name l.
Proof.
  induction l as [|r l IH]; simpl; intros H acc.
  - exists []. now rewrite app_nil_r.
  - apply andb_prop in H. destruct H as [Hr Hl].
    unfold build_version.
    destruct (scan_assets_ok _ _ Hr []) as [pkgs ->]. simpl.
    destruct (IH Hl (acc ++ [{| id := tag_name r; packages := pkgs |}])%list)
      as [vs [E Hvs]].
    exists ({| id := tag_name r; packages := pkgs |} :: vs). split.
    + rewrite E, <- app_assoc. reflexivity.
    + simpl. now rewrite Hvs.
Qed.

(** C3, as the code has it.  For every release list whose scan
    completes, the rebuilt catalog lists the primary package's
    versions in the reverse of the delivered order: the releases
    oldest first, and the synthetic version ["git"] last. *)
Theorem versions_oldest_first_git_last (gh_release_info : list release) :
  forallb scans gh_release_info = true ->
  exists c, build_profiles gh_release_info = Ok c
            /\ version_ids c "radare2" = (rev (map tag_name gh_release_info) ++ ["git"])%list.
Proof.
  intros H. unfold build_profiles.
  destruct (scan_releases_ok _ H [git_version]) as [vs [-> Hvs]].
  simpl. eexists. split; [reflexivity|].
  unfold version_ids. simpl.
  now rewrite map_app, map_rev, Hvs.
Qed.

Lemma versions_oldest_first_git_last_witness :
  forallb scans two_releases = true
  /\ exists c, build_profiles two_releases = Ok c
               /\ version_ids c "radare2" = ["5.8.8"; "5.9.0"; "git"].
Proof.
  split; [vm_compute; reflexivity|].
  apply (versions_oldest_first_git_last two_releases). vm_compute. reflexivity.
Defined.

(** C3, as stated, fails: for two releases delivered newest first the
    version list starts with the older release and ends with ["git"]. *)
Lemma git_first_newest_first_fails : ~ git_first_newest_first two_releases.
Proof.
  intros H.
  eassert (E : build_profiles two_releases = Ok _) by (vm_compute; reflexivity).
  specialize (H _ E). vm_compute in H. discriminate H.
Qed.

(** C5, at the failing input.  The release is tagged ["radare2"] and
    its asset ["radare2.txt"] has an extension outside the table; the
    asset is not skipped: removing the tag a second time raises
    [ValueError], which ends the whole rebuild. *)
Theorem unknown_extension_raises :
  asset_ext "radare2.txt" = ".txt"
  /\ Dict.get _VERSION_FILTERS ".txt" = None
  /\ classify "radare2" "radare2.txt" = Raise ValueError
  /\ build_profiles [release_named_radare2] = Raise ValueError.
Proof. repeat split. Qed.

(** ** The file system *)

Open Scope list_scope.

Lemma list_eqb_eq l1 l2 : Py.list_eqb l1 l2 = true <-> l1 = l2.
Proof.
  revert l2. induction l1 as [|x l1 IH]; intros [|y l2]; simpl;
    try (split; [discriminate | congruence]); [tauto|].
  rewrite andb_true_iff, String.eqb_eq, IH.
  split; [intros [-> ->]; reflexivity | intros E; inversion E; auto].
Qed.

Lemma list_eqb_refl l : Py.list_eqb l l = true.
Proof. now apply list_eqb_eq. Qed.

Lemma list_eqb_neq l1 l2 : l1 <> l2 -> Py.list_eqb l1 l2 = false.
Proof.
  intros H. destruct (Py.list_eqb l1 l2) eqn:E; auto.
  apply list_eqb_eq in E. contradiction.
Qed.

Lemma find_app fs l p :
  FS.find (fs ++ l) p =
  match FS.find fs p with
  | Some n => Some n
  | None => FS.find l p
  end.
Proof.
  induction fs as [|[q n] fs IH]; simpl; auto.
  destruct (Py.list_eqb q p); auto.
Qed.

Lemma find_dirs_only l p n :
  Forall (fun e => snd e = FS.Dir) l -> FS.find l p = Some n -> n = FS.Dir.
Proof.
  induction 1 as [|[q m] l Hq _ IH]; simpl; [discriminate|].
  destruct (Py.list_eqb q p); auto.
  simpl in Hq. congruence.
Qed.

Lemma grows_refl fs : grows fs fs.
Proof. exists []. now rewrite app_nil_r. Qed.

Lemma grows_trans fs1 fs2 fs3 : grows fs1 fs2 -> grows fs2 fs3 -> grows fs1 fs3.
Proof.
  intros [l1 [-> H1]] [l2 [-> H2]]. exists (l1 ++ l2)%list.
  rewrite app_assoc. split; auto. apply Forall_app; auto.
Qed.

Lemma grows_find fs fs' p n :
  grows fs fs' -> FS.find fs p = Some n -> FS.find fs' p = Some n.
Proof. intros [l [-> _]] H. now rewrite find_app, H. Qed.

Lemma grows_find_file fs fs' p x :
  grows fs fs' -> FS.find fs' p = Some (FS.File x) -> FS.find fs p = Some (FS.File x).
Proof.
  intros [l [-> Hl]]. rewrite find_app.
  destruct (FS.find fs p); auto.
  intros H. apply (find_dirs_only _ _ _ Hl) in H. discriminate.
Qed.

Lemma grows_keeps_dirs fs fs' : grows fs fs' -> keeps_dirs fs fs'.
Proof. intros H q Hq. eapply grows_find; eauto. Qed.

Lemma keeps_dirs_refl fs : keeps_dirs fs fs.
Proof. intros q H; exact H. Qed.

Lemma keeps_dirs_trans fs1 fs2 fs3 :
  keeps_dirs fs1 fs2 -> keeps_dirs fs2 fs3 -> keeps_dirs fs1 fs3.
Proof. intros H1 H2 q H. auto. Qed.

Lemma walk_keeps_dirs fs fs' :
  keeps_dirs fs fs' ->
  forall todo done, FS.walk fs done todo = Some FS.Dir -> FS.walk fs' done todo = Some FS.Dir.
Proof.
  intros K. induction todo as [|c todo IH]; simpl; intros done H; auto.
  destruct (FS.find fs (done ++ [c])) as [[|x]|] eqn:E; try discriminate.
  - rewrite (K _ E). auto.
  - destruct todo; discriminate.
Qed.

Lemma walk_grows fs fs' :
  grows fs fs' ->
  forall todo done n, FS.walk fs done todo = Some n -> FS.walk fs' done todo = Some n.
Proof.
  intros G. induction todo as [|c todo IH]; simpl; intros done n H; auto.
  destruct (FS.find fs (done ++ [c])) as [m|] eqn:E; try discriminate.
  rewrite (grows_find _ _ _ _ G E). destruct m; auto.
Qed.

Lemma blocked_grows fs fs' :
  grows fs fs' -> forall todo done, blocked fs' done todo = blocked fs done todo.
Proof.
  intros G. induction todo as [|c todo IH]; simpl; intros done; auto.
  destruct (FS.find fs' (done ++ [c])) as [[|x]|] eqn:E'.
  - destruct (FS.find fs (done ++ [c])) as [[|y]|] eqn:E; auto.
    rewrite (grows_find _ _ _ _ G E) in E'. discriminate.
  - now rewrite (grows_find_file _ _ _ _ G E').
  - destruct (FS.find fs (done ++ [c])) as [[|y]|] eqn:E; auto.
    rewrite (grows_find _ _ _ _ G E) in E'. discriminate.
Qed.

(** Resolution of a path in two steps. *)
Lemma walk_app fs a :
  forall done b,
    FS.walk fs done (a ++ b) =
    match FS.walk fs done a with
    | Some FS.Dir => FS.walk fs (done ++ a) b
    | Some (FS.File x) => match b with [] => Some (FS.File x) | _ => None end
    | None => None
    end.
Proof.
  induction a as [|c a IH]; simpl; intros done b.
  - now rewrite app_nil_r.
  - destruct (FS.find fs (done ++ [c])) as [[|x]|] eqn:E; auto.
    + rewrite IH, <- app_assoc. reflexivity.
    + destruct a; simpl; auto; try now destruct b.
Qed.

(** A path that resolves ends at its own node. *)
Lemma walk_find fs :
  forall todo done n,
    todo <> [] -> FS.walk fs done todo = Some n -> FS.find fs (done ++ todo) = Some n.
Proof.
  induction todo as [|c todo IH]; simpl; intros done n Hne H; [congruence|].
  destruct (FS.find fs (done ++ [c])) as [[|x]|] eqn:E; try discriminate.
  - destruct todo as [|c' todo].
    + simpl in H. congruence.
    + replace (done ++ c :: c' :: todo)%list with ((done ++ [c]) ++ c' :: todo)%list
        by (rewrite <- app_assoc; reflexivity).
      apply IH; [discriminate | assumption].
  - destruct todo; [congruence | discriminate].
Qed.

(** The parent of a node that resolves is a directory. *)
Lemma walk_parent fs p c n :
  FS.walk fs [] (p ++ [c]) = Some n -> FS.walk fs [] p = Some FS.Dir.
Proof.
  rewrite walk_app. destruct (FS.walk fs [] p) as [[|x]|]; auto; discriminate.
Qed.

(** *** makedirs *)

Lemma find_file_blocked fs x :
  forall todo done,
    todo <> [] -> FS.find fs (done ++ todo) = Some (FS.File x) -> blocked fs done todo = true.
Proof.
  induction todo as [|c todo IH]; simpl; intros done Hne H; [congruence|].
  destruct todo as [|c' todo].
  - now rewrite H.
  - destruct (FS.find fs (done ++ [c])) as [[|y]|]; auto;
      apply IH; try discriminate; now rewrite <- app_assoc.
Qed.

Lemma mkdir_chain_some :
  forall todo fs done fs',
    FS.mkdir_chain fs done todo = Some fs' ->
    grows fs fs' /\ FS.walk fs' done todo = Some FS.Dir.
Proof.
  induction todo as [|c todo IH]; simpl; intros fs done fs' H.
  - inversion H; subst. split; [apply grows_refl | reflexivity].
  - destruct (FS.find fs (done ++ [c])) as [[|x]|] eqn:E; try discriminate.
    + destruct (IH _ _ _ H) as [G W]. split; auto.
      now rewrite (grows_find _ _ _ _ G E).
    + destruct (IH _ _ _ H) as [G W].
      assert (G1 : grows fs (fs ++ [(done ++ [c], FS.Dir)])).
      { eexists. split; [reflexivity|]. repeat constructor. }
      split; [eapply grows_trans; eauto|].
      assert (F : FS.find (fs ++ [(done ++ [c], FS.Dir)]) (done ++ [c]) = Some FS.Dir).
      { rewrite find_app, E. simpl. now rewrite list_eqb_refl. }
      now rewrite (grows_find _ _ _ _ G F).
Qed.

Lemma mkdir_chain_ok :
  forall todo fs done,
    blocked fs done todo = false -> exists fs', FS.mkdir_chain fs done todo = Some fs'.
Proof.
  induction todo as [|c todo IH]; simpl; intros fs done H; eauto.
  destruct (FS.find fs (done ++ [c])) as [[|x]|] eqn:E; try discriminate.
  - auto.
  - apply IH. rewrite blocked_grows with (fs := fs); auto.
    eexists. split; [reflexivity|]. repeat constructor.
Qed.

Lemma makedirs_some fs s fs' :
  FS.makedirs fs s = Ok fs' -> grows fs fs' /\ FS.isdir fs' s = true.
Proof.
  unfold FS.makedirs, FS.isdir, FS.stat.
  destruct (String.eqb s EmptyString); [discriminate|].
  destruct (FS.lookup fs (FS.components s)); [discriminate|].
  destruct (FS.mkdir_chain fs [] (FS.components s)) as [fs1|] eqn:E; [|discriminate].
  intros H. inversion H; subst fs1.
  destruct (mkdir_chain_some _ _ _ _ E) as [G W].
  split; auto. unfold FS.lookup. now rewrite W.
Qed.

Lemma ensure_dir_some s fs r fs' :
  ensure_dir s fs = (r, fs') ->
  grows fs fs' /\ (r = Ok tt -> FS.isdir fs' s = true).
Proof.
  unfold ensure_dir, bind, Os.isdir, query, when, Os.makedirs, update, ret.
  destruct (FS.isdir fs s) eqn:D; simpl.
  - intros H. inversion H; subst. split; [apply grows_refl | auto].
  - destruct (FS.makedirs fs s) as [fs1|e] eqn:E; intros H; inversion H; subst.
    + destruct (makedirs_some _ _ _ E). split; auto.
    + split; [apply grows_refl | discriminate].
Qed.

Lemma ensure_dir_ok s fs :
  s <> EmptyString -> obstructed fs s = false ->
  exists fs', ensure_dir s fs = (Ok tt, fs') /\ grows fs fs' /\ FS.isdir fs' s = true.
Proof.
  intros Hs Hb.
  destruct (ensure_dir s fs) as [r fs'] eqn:E.
  destruct (ensure_dir_some _ _ _ _ E) as [G D].
  assert (R : r = Ok tt).
  { revert E. unfold ensure_dir, bind, Os.isdir, query, when, Os.makedirs, update, ret.
    destruct (FS.isdir fs s) eqn:Di; simpl; [congruence|].
    unfold FS.makedirs. apply String.eqb_neq in Hs. rewrite Hs.
    unfold FS.isdir, FS.stat in Di. rewrite Hs in Di.
    destruct (FS.lookup fs (FS.components s)) as [[|x]|] eqn:L; try discriminate.
    - exfalso. unfold FS.lookup in L.
      assert (Hne : FS.components s <> []).
      { intros Hnil. rewrite Hnil in L. discriminate. }
      apply walk_find in L; auto.
      apply find_file_blocked in L; auto.
      unfold obstructed in Hb. congruence.
    - destruct (mkdir_chain_ok _ _ _ Hb) as [fs1 ->]. congruence. }
  subst r. eauto.
Qed.

(** *** rmtree *)

Lemma is_prefix_app p : forall q x, FS.is_prefix p q = true -> FS.is_prefix p (q ++ x) = true.
Proof.
  induction p as [|c p IH]; simpl; auto.
  intros [|d q] x; simpl; [discriminate|].
  rewrite !andb_true_iff. intros [? ?]; auto.
Qed.

Lemma is_prefix_app_false p q x :
  FS.is_prefix p (q ++ x) = false -> FS.is_prefix p q = false.
Proof.
  intros H. destruct (FS.is_prefix p q) eqn:E; auto.
  now rewrite (is_prefix_app _ _ x E) in H.
Qed.

Lemma is_prefix_refl p : FS.is_prefix p p = true.
Proof. induction p; simpl; auto. now rewrite String.eqb_refl. Qed.

Lemma is_prefix_fork r : forall a b x y,
  a <> b -> FS.is_prefix (r ++ a :: x) (r ++ b :: y) = false.
Proof.
  induction r as [|c r IH]; simpl; intros a b x y H.
  - apply String.eqb_neq in H. now rewrite H.
  - now rewrite IH, andb_false_r.
Qed.

Lemma find_filter (f : FS.path -> bool) fs p :
  f p = true ->
  FS.find (filter (fun e => f (fst e)) fs) p = FS.find fs p.
Proof.
  intros H. induction fs as [|[q n] fs IH]; simpl; auto.
  destruct (Py.list_eqb q p) eqn:E.
  - apply list_eqb_eq in E. subst q. rewrite H. simpl. now rewrite list_eqb_refl.
  - destruct (f q); simpl; auto. now rewrite E.
Qed.

Lemma find_filter_none (f : FS.path -> bool) fs p :
  f p = false ->
  FS.find (filter (fun e => f (fst e)) fs) p = None.
Proof.
  intros H. induction fs as [|[q n] fs IH]; simpl; auto.
  destruct (f q) eqn:Fq; simpl; auto.
  destruct (Py.list_eqb q p) eqn:E; auto.
  apply list_eqb_eq in E. congruence.
Qed.

Lemma walk_without D fs :
  forall todo done,
    FS.is_prefix D (done ++ todo) = false ->
    FS.walk (without D fs) done todo = FS.walk fs done todo.
Proof.
  induction todo as [|c todo IH]; simpl; intros done H; auto.
  assert (H1 : FS.is_prefix D (done ++ [c]) = false).
  { apply is_prefix_app_false with (x := todo). now rewrite <- app_assoc. }
  unfold without at 1.
  rewrite (find_filter (fun q => negb (FS.is_prefix D q))) by now rewrite H1.
  destruct (FS.find fs (done ++ [c])) as [[|x]|]; auto.
  apply IH. now rewrite <- app_assoc.
Qed.

Lemma walk_without_gone D fs p :
  p <> [] -> FS.is_prefix D p = true -> FS.walk (without D fs) [] p = None.
Proof.
  intros Hne H. destruct (FS.walk (without D fs) [] p) as [n|] eqn:W; auto.
  apply walk_find in W; auto. simpl in W. unfold without in W.
  rewrite (find_filter_none (fun q => negb (FS.is_prefix D q))) in W by now rewrite H.
  discriminate.
Qed.

Lemma rmtree_dir fs s :
  FS.isdir fs s = true ->
  FS.rmtree fs s = Ok (without (FS.components s) fs).
Proof.
  unfold FS.isdir, FS.rmtree. destruct (FS.stat fs s) as [[|x]|]; try discriminate.
  reflexivity.
Qed.

(** *** Paths as strings *)

Lemma string_app_assoc (a b c : string) : ((a ++ b) ++ c = a ++ b ++ c)%string.
Proof. induction a; simpl; congruence. Qed.

Lemma string_app_nil_r (a : string) : (a ++ EmptyString)%string = a.
Proof. induction a; simpl; congruence. Qed.

Lemma split_nonempty sep s : Py.split sep s <> [].
Proof.
  destruct s as [|c s]; simpl; [discriminate|].
  destruct (Ascii.eqb c sep); [discriminate|].
  destruct (Py.split sep s); discriminate.
Qed.

Lemma split_app_sep sep a b :
  Py.split sep (a ++ String sep b)%string = Py.split sep a ++ Py.split sep b.
Proof.
  induction a as [|c a IH]; simpl.
  - now rewrite Ascii.eqb_refl.
  - destruct (Ascii.eqb c sep); [now rewrite IH|].
    rewrite IH. destruct (Py.split sep a) eqn:E; [|reflexivity].
    now apply split_nonempty in E.
Qed.

Lemma components_app_sep a b :
  FS.components (a ++ "/" ++ b)%string = FS.components a ++ FS.components b.
Proof.
  unfold FS.components. simpl.
  change (String "/" b) with (String Py.slash b).
  now rewrite split_app_sep, filter_app.
Qed.

Lemma components_empty : FS.components EmptyString = [].
Proof. reflexivity. Qed.

Lemma endswith_sep_inv a :
  PosixPath.endswith_sep a = true -> exists a', a = (a' ++ "/")%string.
Proof.
  induction a as [|c a IH]; simpl; [discriminate|].
  destruct a as [|d a].
  - intros H. apply Ascii.eqb_eq in H. subst c. now exists EmptyString.
  - intros H. destruct (IH H) as [a' E]. exists (String c a'). simpl. now rewrite <- E.
Qed.

(** [os.path.join] with a relative second part concatenates the
    components. *)
Lemma components_join2 a b :
  PosixPath.startswith_sep b = false ->
  FS.components (PosixPath.join2 a b) = FS.components a ++ FS.components b.
Proof.
  intros Hb. unfold PosixPath.join2. rewrite Hb.
  destruct (String.eqb a EmptyString) eqn:Ea; simpl.
  - apply String.eqb_eq in Ea. subst a. reflexivity.
  - destruct (PosixPath.endswith_sep a) eqn:Es.
    + destruct (endswith_sep_inv _ Es) as [a' ->].
      rewrite string_app_assoc.
      rewrite (components_app_sep a' b).
      replace (a' ++ "/")%string with (a' ++ "/" ++ EmptyString)%string by reflexivity.
      rewrite (components_app_sep a' EmptyString). simpl. now rewrite app_nil_r.
    + apply components_app_sep.
Qed.

Lemma join2_nonempty a b : b <> EmptyString -> PosixPath.join2 a b <> EmptyString.
Proof.
  intros Hb. unfold PosixPath.join2.
  destruct (PosixPath.startswith_sep b); auto.
  destruct b as [|c b]; [congruence|].
  destruct (_ || _); destruct a; simpl; discriminate.
Qed.

Lemma no_slash_split s : no_slash s = true -> Py.split Py.slash s = [s].
Proof.
  induction s as [|c s IH]; simpl; auto.
  intros H. apply andb_prop in H. destruct H as [Hc Hs].
  apply negb_true_iff in Hc. rewrite Hc, (IH Hs). reflexivity.
Qed.

Lemma no_slash_app a b : no_slash (a ++ b)%string = no_slash a && no_slash b.
Proof. induction a as [|c a IH]; simpl; auto. now rewrite IH, andb_assoc. Qed.

Lemma no_slash_relative s : no_slash s = true -> PosixPath.startswith_sep s = false.
Proof.
  destruct s as [|c s]; simpl; auto.
  intros H. apply andb_prop in H. destruct H as [Hc _]. now apply negb_true_iff in Hc.
Qed.

Lemma key_not_special profile version :
  FS.is_component (key_of profile version) = true.
Proof.
  unfold FS.is_component, key_of.
  destruct profile as [|c [|d p]]; simpl; auto;
    destruct (Ascii.eqb c "."); reflexivity.
Qed.

Lemma components_key profile version :
  no_slash profile = true -> no_slash version = true ->
  FS.components (key_of profile version) = [key_of profile version].
Proof.
  intros Hp Hv. unfold FS.components.
  rewrite no_slash_split.
  - simpl. now rewrite key_not_special.
  - unfold key_of. rewrite !no_slash_app, Hp, Hv. reflexivity.
Qed.

(** ** The installed-package registry *)

Lemma child_name_snoc p c : FS.child_name p (p ++ [c]) = Some c.
Proof.
  unfold FS.child_name.
  rewrite (is_prefix_app p p [c] (is_prefix_refl p)).
  rewrite length_app. simpl. rewrite Nat.add_1_r, Nat.eqb_refl. simpl.
  now rewrite last_last.
Qed.

Lemma children_find fs p c n :
  FS.find fs (p ++ [c]) = Some n -> In c (FS.children fs p).
Proof.
  induction fs as [|[q m] fs IH]; simpl; [discriminate|].
  destruct (Py.list_eqb q (p ++ [c])) eqn:E.
  - apply list_eqb_eq in E. subst q. rewrite child_name_snoc. intros _. now left.
  - intros H. destruct (FS.child_name p q); [right|]; auto.
Qed.

Lemma installed_loop_spec pkg_dir fs :
  forall names res,
    installed_loop pkg_dir names res fs =
    (Ok (res ++ filter (fun pkg => FS.isdir fs (PosixPath.join pkg_dir [pkg])) names), fs).
Proof.
  induction names as [|pkg names IH]; intros res.
  - simpl. unfold ret. now rewrite app_nil_r.
  - cbn [installed_loop filter]. unfold bind, Os.isdir, query. rewrite IH.
    destruct (FS.isdir fs (PosixPath.join pkg_dir [pkg])); [|reflexivity].
    now rewrite <- app_assoc.
Qed.

(** The registry never raises and never changes the disk. *)
Lemma list_installed_packages_spec self fs :
  list_installed_packages self fs = (Ok (registry self fs), fs).
Proof.
  unfold list_installed_packages, registry, pkg_dir_of, bind, Os.isdir, query, Os.listdir.
  destruct (FS.isdir fs (PosixPath.join (_r2env_path self) [PACKAGES_DIR])) eqn:D;
    [|reflexivity].
  unfold FS.listdir. unfold FS.isdir in D.
  destruct (FS.stat fs (PosixPath.join (_r2env_path self) [PACKAGES_DIR])) as [[|x]|];
    try discriminate.
  now rewrite installed_loop_spec.
Qed.

Lemma installed_iff self fs K : installed self fs K <-> In K (registry self fs).
Proof.
  unfold installed. rewrite list_installed_packages_spec. split.
  - intros [l [E H]]. inversion E; subst. exact H.
  - intros H. eauto.
Qed.

(** C10. In a state without the versions directory the registry's
    [list()] returns the empty list and does not raise; in every
    state it returns a list, leaves the disk as it is, and lists only
    names whose entry in the versions directory is a directory: an
    entry that is a plain file is not listed. *)
Theorem registry_lists_directories (self : PackageManager) (fs : FS.t) :
  (FS.isdir fs (PosixPath.join (_r2env_path self) [PACKAGES_DIR]) = false ->
   list_installed_packages self fs = (Ok [], fs))
  /\ exists l,
      list_installed_packages self fs = (Ok l, fs)
      /\ forall pkg,
          In pkg l ->
          FS.isdir fs (PosixPath.join (PosixPath.join (_r2env_path self) [PACKAGES_DIR]) [pkg]) = true
          /\ FS.isfile fs (PosixPath.join (PosixPath.join (_r2env_path self) [PACKAGES_DIR]) [pkg]) = false.
Proof.
  rewrite list_installed_packages_spec. split.
  - intros H. unfold registry, pkg_dir_of. now rewrite H.
  - eexists. split; [reflexivity|].
    intros pkg H. unfold registry in H.
    destruct (FS.isdir fs (pkg_dir_of self)); [|contradiction].
    apply filter_In in H. destruct H as [_ H]. split; [exact H|].
    unfold FS.isdir in H. unfold FS.isfile.
    destruct (FS.stat fs _) as [[|x]|]; auto; discriminate.
Qed.

Lemma registry_lists_directories_witness :
  list_installed_packages pm_home fs_no_versions = (Ok [], fs_no_versions)
  /\ list_installed_packages pm_home fs_one_installed = (Ok ["radare2@5.9.0"], fs_one_installed)
  /\ FS.isfile fs_one_installed "/home/u/.r2env/versions/notes.txt" = true.
Proof.
  split; [|split; vm_compute; reflexivity].
  apply (registry_lists_directories pm_home fs_no_versions).
  vm_compute; reflexivity.
Defined.

Example pm_two_catalog : build_profiles two_releases = Ok (_packages pm_two).
Proof. vm_compute. reflexivity. Qed.

(** ** Uninstall *)

Lemma uninstall_loop_absent h self package_name use_dist fs :
  forall l, ~ In package_name l ->
            uninstall_loop h self package_name use_dist l fs = (Ok false, fs).
Proof.
  induction l as [|package l IH]; intros H; simpl; [reflexivity|].
  destruct (String.eqb package_name package) eqn:E.
  - apply String.eqb_eq in E. subst. exfalso. apply H. now left.
  - apply IH. intros Hin. apply H. now right.
Qed.

(** C8. Uninstalling a key that the registry's [list()] does not
    contain raises the package manager's exception for a package that
    is not installed, and the disk is left exactly as it was. *)
Theorem uninstall_not_installed (h : Host) (self : PackageManager)
        (package_name : string) (use_dist : bool) (fs : FS.t) :
  ~ installed self fs package_name ->
  uninstall_package h self package_name use_dist fs =
  (Raise (PackageManagerException
            ("[x] Unable to find installed package " ++ package_name)%string), fs).
Proof.
  intros H. rewrite installed_iff in H.
  unfold uninstall_package, bind.
  rewrite list_installed_packages_spec.
  now rewrite (uninstall_loop_absent h self package_name use_dist fs _ H).
Qed.

Lemma uninstall_not_installed_witness :
  uninstall_package host_deb pm_two "radare2@5.8.8" true fs_one_installed =
  (Raise (PackageManagerException
            "[x] Unable to find installed package radare2@5.8.8"), fs_one_installed).
Proof.
  apply (uninstall_not_installed host_deb pm_two "radare2@5.8.8" true fs_one_installed).
  intros H. apply installed_iff in H. vm_compute in H.
  destruct H as [H | []]. discriminate H.
Defined.

(** ** Install *)

Lemma bind_ext {A B} (m : M A) (k k' : A -> M B) fs :
  (forall a fs1, k a fs1 = k' a fs1) -> bind m k fs = bind m k' fs.
Proof. intros H. unfold bind. destruct (m fs) as [[a|e] fs1]; auto. Qed.

Lemma ensure_dir_bind {A} s (k : M A) fs :
  (d <- Os.isdir s ;; when (negb d) (Os.makedirs s) ;;; k)%M fs
  = (ensure_dir s ;;; k)%M fs.
Proof.
  unfold ensure_dir, bind, Os.isdir, query, when, Os.makedirs, update, ret.
  destruct (FS.isdir fs s); simpl; [reflexivity|].
  now destruct (FS.makedirs fs s).
Qed.

Lemma rollback_spec s fs :
  rollback s fs = (Ok tt, if FS.isdir fs s then without (FS.components s) fs else fs).
Proof.
  unfold rollback, bind, Os.isdir, query, when, Os.rmtree, update, ret.
  destruct (FS.isdir fs s) eqn:D; [|reflexivity].
  now rewrite (rmtree_dir _ _ D).
Qed.

Lemma key_relative profile version :
  PosixPath.startswith_sep profile = false ->
  PosixPath.startswith_sep (key_of profile version) = false.
Proof. destruct profile; simpl; auto. Qed.

Lemma components_log_path self :
  FS.components (log_path self) = FS.components (_r2env_path self) ++ ["log"].
Proof. unfold log_path. simpl. now rewrite components_join2. Qed.

Lemma components_pkg_dir self :
  FS.components (pkg_dir_of self) = FS.components (_r2env_path self) ++ ["versions"].
Proof. unfold pkg_dir_of. simpl. now rewrite components_join2. Qed.

Lemma components_source_path self profile :
  PosixPath.startswith_sep profile = false ->
  FS.components (source_path_of self profile)
  = FS.components (_r2env_path self) ++ "src" :: FS.components profile.
Proof.
  intros H. unfold source_path_of. simpl.
  rewrite components_join2 by assumption.
  rewrite components_join2 by reflexivity.
  now rewrite <- app_assoc.
Qed.

Lemma components_dst_dir self profile version :
  PosixPath.startswith_sep profile = false ->
  FS.components (dst_dir_of self profile version)
  = FS.components (_r2env_path self) ++ "versions" :: FS.components (key_of profile version).
Proof.
  intros H. unfold dst_dir_of. simpl.
  rewrite components_join2 by now apply key_relative.
  rewrite components_join2 by reflexivity.
  now rewrite <- app_assoc.
Qed.

Lemma key_nonempty profile version : key_of profile version <> EmptyString.
Proof. unfold key_of. destruct profile; discriminate. Qed.

Lemma dst_dir_nonempty self profile version :
  dst_dir_of self profile version <> EmptyString.
Proof. unfold dst_dir_of. simpl. apply join2_nonempty, key_nonempty. Qed.

Lemma log_path_nonempty self : log_path self <> EmptyString.
Proof. unfold log_path. simpl. apply join2_nonempty. discriminate. Qed.

Lemma source_path_nonempty self profile : source_path_of self profile <> EmptyString.
Proof.
  unfold source_path_of. simpl.
  unfold PosixPath.join2 at 1.
  destruct (PosixPath.startswith_sep profile) eqn:E.
  - destruct profile; discriminate.
  - assert (N : PosixPath.join2 (_r2env_path self) SOURCE_DIR <> EmptyString)
      by (apply join2_nonempty; discriminate).
    destruct (PosixPath.join2 (_r2env_path self) SOURCE_DIR) as [|c j]; [congruence|].
    destruct (_ || _); simpl; discriminate.
Qed.

Lemma isdir_grows fs fs' s : grows fs fs' -> FS.isdir fs s = true -> FS.isdir fs' s = true.
Proof.
  intros G. unfold FS.isdir, FS.stat.
  destruct (String.eqb s EmptyString); auto.
  unfold FS.lookup.
  destruct (FS.walk fs [] (FS.components s)) as [[|x]|] eqn:W; try discriminate.
  now rewrite (walk_grows _ _ G _ _ _ W).
Qed.


Lemma stat_without D fs s :
  FS.is_prefix D (FS.components s) = false ->
  FS.stat (without D fs) s = FS.stat fs s.
Proof.
  intros H. unfold FS.stat.
  destruct (String.eqb s EmptyString); auto.
  now apply walk_without.
Qed.

(** The state [install_package] reaches before it looks at the
    catalog: the three directories exist. *)
Lemma install_prepares (h : Host) (self : PackageManager) (profile version : string)
      {A} (k : M A) (fs : FS.t) :
  obstructed fs (log_path self) = false ->
  obstructed fs (source_path_of self profile) = false ->
  obstructed fs (dst_dir_of self profile version) = false ->
  exists fs3,
    (ensure_dir (log_path self) ;;;
     ensure_dir (source_path_of self profile) ;;;
     ensure_dir (dst_dir_of self profile version) ;;; k)%M fs = k fs3
    /\ grows fs fs3
    /\ FS.isdir fs3 (log_path self) = true
    /\ FS.isdir fs3 (source_path_of self profile) = true
    /\ FS.isdir fs3 (dst_dir_of self profile version) = true.
Proof.
  intros O1 O2 O3.
  destruct (ensure_dir_ok _ fs (log_path_nonempty self) O1) as [fs1 [E1 [G1 D1]]].
  assert (O2' : obstructed fs1 (source_path_of self profile) = false)
    by (unfold obstructed in *; now rewrite (blocked_grows _ _ G1)).
  destruct (ensure_dir_ok _ fs1 (source_path_nonempty self profile) O2') as [fs2 [E2 [G2 D2]]].
  assert (G12 : grows fs fs2) by (eapply grows_trans; eauto).
  assert (O3' : obstructed fs2 (dst_dir_of self profile version) = false)
    by (unfold obstructed in *; now rewrite (blocked_grows _ _ G12)).
  destruct (ensure_dir_ok _ fs2 (dst_dir_nonempty self profile version) O3')
    as [fs3 [E3 [G3 D3]]].
  exists fs3. unfold bind at 1. rewrite E1. unfold bind at 1. rewrite E2.
  unfold bind at 1. rewrite E3.
  repeat split; auto.
  - eapply grows_trans; eauto.
  - eapply isdir_grows; [|eassumption]. eapply grows_trans; eauto.
  - eapply isdir_grows; eauto.
Qed.

Lemma install_package_unfold h self profile version use_meson use_dist fs :
  install_package h self profile version use_meson use_dist fs =
  (ensure_dir (log_path self) ;;;
   ensure_dir (source_path_of self profile) ;;;
   ensure_dir (dst_dir_of self profile version) ;;;
   if _if_package_not_available self profile version then
     rollback (dst_dir_of self profile version) ;;;
     raise (PackageManagerException
              (profile ++ "@" ++ version
               ++ " package not available. Use 'list' command to see available packages.")%string)
   else if use_dist then
     ok <- _install_from_dist h self profile version ;;
     if ok then ret tt
     else
       rollback (dst_dir_of self profile version) ;;;
       raise (PackageManagerException
                ("[x] Failed to install " ++ profile ++ "@" ++ version ++ ".")%string)
   else
     ok <- _build_from_source h self profile version (source_path_of self profile)
             (dst_dir_of self profile version) (logfile_of h self profile version) use_meson ;;
     if ok then ret tt
     else
       rollback (dst_dir_of self profile version) ;;;
       raise (PackageManagerException
                ("[x] Failed to build " ++ profile ++ "@" ++ version ++ ". "
                 ++ "Check " ++ logfile_of h self profile version
                 ++ " for more information.")%string))%M fs.
Proof.
  unfold install_package. cbv zeta.
  rewrite ensure_dir_bind. apply bind_ext. intros _ fs1.
  rewrite ensure_dir_bind. apply bind_ext. intros _ fs2.
  apply ensure_dir_bind.
Qed.







(** A relative profile name keeps the log directory and the source
    working directory outside the destination directory. *)
Lemma relative_profile_not_nested self profile version :
  PosixPath.startswith_sep profile = false ->
  FS.is_prefix (FS.components (dst_dir_of self profile version))
               (FS.components (log_path self)) = false
  /\ FS.is_prefix (FS.components (dst_dir_of self profile version))
                  (FS.components (source_path_of self profile)) = false.
Proof.
  intros H.
  rewrite components_dst_dir, components_log_path, components_source_path by assumption.
  split; apply is_prefix_fork; discriminate.
Qed.

(** With an absolute profile name the destination directory can be an
    ancestor of the log directory, which the cleanup then removes. *)
Example absolute_profile_removes_log :
  _if_package_not_available pm_nested "/x" "y" = true
  /\ FS.is_prefix (FS.components (dst_dir_of pm_nested "/x" "y"))
                  (FS.components (log_path pm_nested)) = true
  /\ exists fs',
      install_package host_deb pm_nested "/x" "y" false false [] =
      (Raise (PackageManagerException
                "/x@y package not available. Use 'list' command to see available packages."),
       fs')
      /\ FS.isdir fs' (log_path pm_nested) = false.
Proof.
  split; [vm_compute; reflexivity|].
  split; [vm_compute; reflexivity|].
  eexists. split; vm_compute; reflexivity.
Qed.




Lemma rolled_back_isdir s fs :
  FS.components s <> [] ->
  FS.isdir (if FS.isdir fs s then without (FS.components s) fs else fs) s = false.
Proof.
  intros N. destruct (FS.isdir fs s) eqn:D; [|assumption].
  unfold FS.isdir, FS.stat. destruct (String.eqb s EmptyString); auto.
  unfold FS.lookup. rewrite walk_without_gone; auto. apply is_prefix_refl.
Qed.

Lemma rolled_back_frame s fs t n :
  FS.stat fs t = Some n ->
  FS.is_prefix (FS.components s) (FS.components t) = false ->
  FS.stat (if FS.isdir fs s then without (FS.components s) fs else fs) t = Some n.
Proof.
  intros H P. destruct (FS.isdir fs s); auto. now rewrite stat_without.
Qed.

Lemma components_dst_dir_nonempty self profile version :
  PosixPath.startswith_sep profile = false ->
  FS.components (dst_dir_of self profile version) <> [].
Proof.
  intros H. rewrite components_dst_dir by assumption.
  now destruct (FS.components (_r2env_path self)).
Qed.

(** When the strategy returns [False], the destination directory is
    removed before the exception is raised, and every node outside
    it, the log file among them, is as the strategy left it. *)
Lemma install_failure_rolls_back (h : Host) (self : PackageManager)
      (profile version : string) (use_meson use_dist : bool) (fs : FS.t) :
  _if_package_not_available self profile version = false ->
  PosixPath.startswith_sep profile = false ->
  obstructed fs (log_path self) = false ->
  obstructed fs (source_path_of self profile) = false ->
  obstructed fs (dst_dir_of self profile version) = false ->
  exists fs3,
    grows fs fs3
    /\ FS.isdir fs3 (dst_dir_of self profile version) = true
    /\ forall fs4,
        (if use_dist then _install_from_dist h self profile version
         else _build_from_source h self profile version (source_path_of self profile)
                (dst_dir_of self profile version) (logfile_of h self profile version)
                use_meson) fs3 = (Ok false, fs4) ->
        exists fs',
          install_package h self profile version use_meson use_dist fs =
          (Raise (PackageManagerException
                    (if use_dist
                     then "[x] Failed to install " ++ profile ++ "@" ++ version ++ "."
                     else "[x] Failed to build " ++ profile ++ "@" ++ version ++ ". "
                          ++ "Check " ++ logfile_of h self profile version
                          ++ " for more information.")%string), fs')
          /\ FS.isdir fs' (dst_dir_of self profile version) = false
          /\ forall s n,
              FS.stat fs4 s = Some n ->
              FS.is_prefix (FS.components (dst_dir_of self profile version))
                           (FS.components s) = false ->
              FS.stat fs' s = Some n.
Proof.
  intros Hav Hrel O1 O2 O3.
  pose proof (install_package_unfold h self profile version use_meson use_dist fs) as U.
  rewrite Hav in U.
  match type of U with
  | context [(ensure_dir _ ;;; ensure_dir _ ;;; ensure_dir _ ;;; ?k)%M fs] =>
      destruct (install_prepares h self profile version k fs O1 O2 O3)
        as [fs3 [E [G [D1 [D2 D3]]]]]
  end.
  rewrite E in U. exists fs3. split; [assumption|]. split; [assumption|].
  intros fs4 S. rewrite U.
  pose proof (components_dst_dir_nonempty self profile version Hrel) as N.
  destruct use_dist; unfold bind at 1; rewrite S; unfold bind; rewrite rollback_spec;
    unfold raise; (eexists; split; [reflexivity|]); split;
    try (apply rolled_back_isdir; assumption);
    intros s n Hs Hp; now apply rolled_back_frame.
Qed.

(** The log file is not below the destination directory. *)
Lemma logfile_outside_dst h self profile version :
  PosixPath.startswith_sep profile = false ->
  FS.is_prefix (FS.components (dst_dir_of self profile version))
               (FS.components (logfile_of h self profile version)) = false.
Proof.
  intros H. rewrite components_dst_dir by assumption.
  unfold logfile_of. simpl.
  rewrite components_join2 by (destruct profile; simpl in *; auto).
  rewrite components_log_path, <- app_assoc. simpl.
  apply is_prefix_fork. discriminate.
Qed.

(** C2, at the failing input.  On a Debian host without a network, a
    binary-distribution install of a version that is in the catalog
    and has an artifact for the platform fails in the strategy: the
    download raises and [_install_from_dist] raises the package
    manager's exception.  No rollback runs: the destination directory
    is still there and the registry lists the key as installed. *)
Theorem install_download_error_keeps_directory :
  _if_package_not_available pm_two "radare2" "5.9.0" = false
  /\ exists fs',
      install_package host_deb_offline pm_two "radare2" "5.9.0" false true fs_no_versions =
      (Raise (PackageManagerException
                "Failed to download radare2 package. Error: <urlopen error timed out>"), fs')
      /\ FS.isdir fs' "/home/u/.r2env/versions/radare2@5.9.0" = true
      /\ installed pm_two fs' "radare2@5.9.0".
Proof.
  split; [reflexivity|].
  eexists. split; [vm_compute; reflexivity|]. split; [vm_compute; reflexivity|].
  apply installed_iff. vm_compute. left. reflexivity.
Qed.

(** With no artifact for the platform the artifact path cannot be
    built: [str.join] raises [TypeError] on the [None] that
    [_get_pkgname] returned, before any download, and the destination
    directory stays. *)
Lemma install_dist_no_artifact (h : Host) (self : PackageManager)
      (profile version : string) (use_meson : bool) (fs : FS.t) :
  _if_package_not_available self profile version = false ->
  _get_pkgname self profile version (host_distname h) = None ->
  obstructed fs (log_path self) = false ->
  obstructed fs (source_path_of self profile) = false ->
  obstructed fs (dst_dir_of self profile version) = false ->
  exists fs',
    install_package h self profile version use_meson true fs = (Raise TypeError, fs')
    /\ FS.isdir fs' (dst_dir_of self profile version) = true.
Proof.
  intros Hav Hno O1 O2 O3.
  rewrite install_package_unfold, Hav.
  match goal with
  | |- context [(ensure_dir _ ;;; ensure_dir _ ;;; ensure_dir _ ;;; ?k)%M fs] =>
      destruct (install_prepares h self profile version k fs O1 O2 O3)
        as [fs3 [E [G [D1 [D2 D3]]]]]
  end.
  rewrite E. exists fs3. split; [|assumption].
  unfold bind at 1. unfold _install_from_dist. rewrite Hno. reflexivity.
Qed.

(** C4, at the failing input.  The version ["git"] is in the catalog
    and has no artifact for the platform of the host; the
    binary-distribution install does not raise the package manager's
    exception but [TypeError], and leaves the destination directory
    behind. *)
Theorem install_dist_without_artifact_raises_TypeError :
  _if_package_not_available pm_two "radare2" "git" = false
  /\ _get_pkgname pm_two "radare2" "git" (host_distname host_deb) = None
  /\ exists fs',
      install_package host_deb pm_two "radare2" "git" false true fs_no_versions =
      (Raise TypeError, fs')
      /\ FS.isdir fs' "/home/u/.r2env/versions/radare2@git" = true.
Proof.
  split; [reflexivity|]. split; [reflexivity|].
  eexists. split; vm_compute; reflexivity.
Qed.

(** ** Computations that keep a directory *)

Lemma bind_ok_inv {A B} (m : M A) (k : A -> M B) fs b fs' :
  bind m k fs = (Ok b, fs') ->
  exists a fs1, m fs = (Ok a, fs1) /\ k a fs1 = (Ok b, fs').
Proof.
  unfold bind. destruct (m fs) as [[a|e] fs1]; [eauto | discriminate].
Qed.

Lemma keeps_ret s {A} (a : A) : keeps s (ret a).
Proof. intros fs a' fs' H. inversion H; subst; auto. Qed.

Lemma keeps_raise s {A} e : keeps s (@raise A e).
Proof. intros fs a fs' H. discriminate. Qed.

Lemma keeps_lift s {A} (r : result A) : keeps s (lift r).
Proof. intros fs a fs' H. inversion H; subst; auto. Qed.

Lemma keeps_query s {A} (f : FS.t -> A) : keeps s (query f).
Proof. intros fs a fs' H. inversion H; subst; auto. Qed.

Lemma keeps_bind s {A B} (m : M A) (k : A -> M B) :
  keeps s m -> (forall a, keeps s (k a)) -> keeps s (bind m k).
Proof.
  intros Hm Hk fs b fs' H D.
  destruct (bind_ok_inv _ _ _ _ _ H) as [a [fs1 [E1 E2]]].
  eapply Hk; eauto.
Qed.

Lemma keeps_if s {A} (b : bool) (m1 m2 : M A) :
  keeps s m1 -> keeps s m2 -> keeps s (if b then m1 else m2).
Proof. now destruct b. Qed.

Lemma keeps_when s (b : bool) (m : M unit) : keeps s m -> keeps s (when b m).
Proof. intros H. unfold when. destruct b; auto. apply keeps_ret. Qed.

(** A handler that always raises. *)
Lemma keeps_try_except s {A} (m : M A) handles (hnd : exn -> M A) :
  keeps s m ->
  (forall e fs a fs', hnd e fs <> (Ok a, fs')) ->
  keeps s (try_except m handles hnd).
Proof.
  intros Hm Hh fs a fs' H D. unfold try_except in H.
  destruct (m fs) as [[a1|e] fs1] eqn:E.
  - inversion H; subst. eapply Hm; eauto.
  - destruct (handles e); [|discriminate]. now apply Hh in H.
Qed.

Lemma isdir_keeps_dirs fs fs' s :
  keeps_dirs fs fs' -> FS.isdir fs s = true -> FS.isdir fs' s = true.
Proof.
  intros K. unfold FS.isdir, FS.stat.
  destruct (String.eqb s EmptyString); auto. unfold FS.lookup.
  destruct (FS.walk fs [] (FS.components s)) as [[|x]|] eqn:W; try discriminate.
  now rewrite (walk_keeps_dirs _ _ K _ _ W).
Qed.

Lemma keeps_makedirs s t : keeps s (Os.makedirs t).
Proof.
  intros fs a fs' H D. unfold Os.makedirs, update in H.
  destruct (FS.makedirs fs t) as [fs1|e] eqn:E; inversion H; subst.
  destruct (makedirs_some _ _ _ E) as [G _]. eapply isdir_grows; eauto.
Qed.

Lemma find_put fs p n q :
  FS.find (FS.put fs p n) q = if Py.list_eqb p q then Some n else FS.find fs q.
Proof.
  induction fs as [|[q0 m] fs IH]; simpl.
  - destruct (Py.list_eqb p q); reflexivity.
  - destruct (Py.list_eqb q0 p) eqn:E0; simpl.
    + apply list_eqb_eq in E0. subst q0. now destruct (Py.list_eqb p q).
    + rewrite IH. destruct (Py.list_eqb q0 q) eqn:E1; auto.
      destruct (Py.list_eqb p q) eqn:E2; auto.
      apply list_eqb_eq in E1, E2. subst. now rewrite list_eqb_refl in E0.
Qed.

Lemma put_same fs p n : FS.find fs p = Some n -> FS.put fs p n = fs.
Proof.
  induction fs as [|[q m] fs IH]; simpl; [discriminate|].
  destruct (Py.list_eqb q p); intros H.
  - now inversion H.
  - now rewrite IH.
Qed.

Lemma put_keeps_dirs fs p c :
  FS.find fs p <> Some FS.Dir -> keeps_dirs fs (FS.put fs p (FS.File c)).
Proof.
  intros H q Hq. rewrite find_put.
  destruct (Py.list_eqb p q) eqn:E; auto.
  apply list_eqb_eq in E. congruence.
Qed.

Lemma walk_none_find fs p :
  p <> [] -> FS.walk fs [] (removelast p) = Some FS.Dir -> FS.walk fs [] p = None ->
  FS.find fs p = None.
Proof.
  intros N Wp W.
  rewrite (app_removelast_last EmptyString N) in W.
  rewrite walk_app, Wp in W. simpl in W.
  rewrite <- (app_removelast_last EmptyString N) in W.
  destruct (FS.find fs p) as [[|x]|]; auto; discriminate.
Qed.

(** What a successful write does. *)
Lemma write_some fs s content fs' :
  FS.write fs s content = Ok fs' ->
  fs' = FS.put fs (FS.components s) (FS.File content)
  /\ FS.find fs (FS.components s) <> Some FS.Dir
  /\ FS.components s <> []
  /\ s <> EmptyString
  /\ FS.walk fs [] (removelast (FS.components s)) = Some FS.Dir.
Proof.
  unfold FS.write, FS.stat, FS.parent.
  destruct (String.eqb s EmptyString) eqn:Es; [discriminate|].
  apply String.eqb_neq in Es.
  unfold FS.lookup.
  destruct (FS.components s) as [|c0 p0] eqn:Ep; [discriminate|].
  rewrite <- Ep.
  assert (N : FS.components s <> []) by (rewrite Ep; discriminate).
  destruct (FS.walk fs [] (FS.components s)) as [[|x]|] eqn:W; try discriminate.
  - intros H. inversion H; subst fs'.
    pose proof W as W'.
    rewrite (app_removelast_last EmptyString N) in W'.
    apply walk_parent in W'.
    apply walk_find in W; auto. simpl in W.
    repeat split; auto. congruence.
  - destruct (FS.walk fs [] (removelast (FS.components s))) as [[|x]|] eqn:Wp;
      try discriminate.
    intros H. inversion H; subst fs'.
    repeat split; auto.
    rewrite (walk_none_find _ _ N Wp W). discriminate.
Qed.

Lemma write_keeps_dirs fs s content fs' :
  FS.write fs s content = Ok fs' -> keeps_dirs fs fs'.
Proof.
  intros H. destruct (write_some _ _ _ _ H) as [-> [F _]].
  now apply put_keeps_dirs.
Qed.

Lemma keeps_copyfile s src dst : keeps s (Shutil.copyfile src dst).
Proof.
  intros fs a fs' H D. unfold Shutil.copyfile, update in H.
  destruct (FS.stat fs src) as [[|c]|]; try discriminate.
  destruct (Py.list_eqb _ _); [discriminate|].
  destruct (FS.write fs dst c) as [fs1|e] eqn:E; inversion H; subst.
  eapply isdir_keeps_dirs; [eapply write_keeps_dirs|]; eauto.
Qed.

Lemma bind_raise_not_ok {A B} (m : M A) e fs (b : B) fs' :
  bind m (fun _ => raise e) fs <> (Ok b, fs').
Proof. unfold bind, raise. destruct (m fs) as [[a|e'] fs1]; discriminate. Qed.

Lemma raise_not_ok {A} e fs (a : A) fs' : raise e fs <> (Ok a, fs').
Proof. discriminate. Qed.

Ltac keeps_step :=
  match goal with
  | |- forall _, _ => intro
  | |- keeps _ (bind _ _) => apply keeps_bind
  | |- keeps _ (ret _) => apply keeps_ret
  | |- keeps _ (raise _) => apply keeps_raise
  | |- keeps _ (unsupported _) => apply keeps_raise
  | |- keeps _ (lift _) => apply keeps_lift
  | |- keeps _ (Os.isdir _) => apply keeps_query
  | |- keeps _ (Os.isfile _) => apply keeps_query
  | |- keeps _ (Os.makedirs _) => apply keeps_makedirs
  | |- keeps _ (Shutil.copyfile _ _) => apply keeps_copyfile
  | |- keeps _ (when _ _) => apply keeps_when
  | |- keeps _ (if _ then _ else _) => apply keeps_if
  | |- keeps _ (try_except _ _ _) => apply keeps_try_except
  | |- raise _ _ <> _ => apply raise_not_ok
  | |- bind _ (fun _ => raise _) _ <> _ => apply bind_raise_not_ok
  | H : host_keeps _ _ |- keeps _ _ => solve [apply H]
  end.

Section Keeps.

Variable h : Host.
Variable self : PackageManager.
Variable s : string.
Hypothesis Hh : host_keeps h s.

Lemma keeps_copy_loop dst_folder names : keeps s (copy_loop dst_folder names).
Proof.
  induction names as [|file_path names IH]; simpl.
  - apply keeps_ret.
  - repeat keeps_step. exact IH.
Qed.

Lemma keeps_install_windows_package pkgfile :
  keeps s (_install_windows_package h self pkgfile).
Proof.
  unfold _install_windows_package. repeat keeps_step.
  apply keeps_copy_loop.
Qed.

Lemma keeps_install_from_dist profile version :
  keeps s (_install_from_dist h self profile version).
Proof.
  unfold _install_from_dist. repeat keeps_step.
  apply keeps_install_windows_package.
Qed.

Lemma keeps_build_using_acr source_path dst_path logfile r2env_path :
  keeps s (_build_using_acr h source_path dst_path logfile r2env_path).
Proof. unfold _build_using_acr. repeat keeps_step. Qed.

Lemma keeps_build_using_meson source_path dst_path logfile r2env_path :
  keeps s (_build_using_meson h source_path dst_path logfile r2env_path).
Proof. unfold _build_using_meson. repeat keeps_step. Qed.

Lemma keeps_build_from_source profile version source_path dst_path logfile use_meson :
  keeps s (_build_from_source h self profile version source_path dst_path logfile use_meson).
Proof.
  unfold _build_from_source. repeat keeps_step.
  - apply keeps_build_using_meson.
  - apply keeps_build_using_acr.
Qed.

End Keeps.

(** ** Install, uninstall and the registry *)

Lemma pkg_dir_nonempty self : pkg_dir_of self <> EmptyString.
Proof. unfold pkg_dir_of. simpl. apply join2_nonempty. discriminate. Qed.

Lemma components_single K :
  no_slash K = true -> FS.is_component K = true -> FS.components K = [K].
Proof.
  intros Hs Hc. unfold FS.components. rewrite no_slash_split by assumption.
  simpl. now rewrite Hc.
Qed.

(** A directory named [K] in the versions directory is an entry of
    the registry. *)
Lemma isdir_key_installed self K fs :
  no_slash K = true -> FS.is_component K = true ->
  FS.isdir fs (PosixPath.join (pkg_dir_of self) [K]) = true ->
  installed self fs K.
Proof.
  intros Hs Hc D. apply installed_iff. unfold registry.
  assert (C : FS.components (PosixPath.join (pkg_dir_of self) [K])
              = FS.components (pkg_dir_of self) ++ [K]).
  { change (PosixPath.join (pkg_dir_of self) [K])
      with (PosixPath.join2 (pkg_dir_of self) K).
    rewrite components_join2 by now apply no_slash_relative.
    now rewrite (components_single K). }
  pose proof D as W. unfold FS.isdir, FS.stat in W.
  destruct (String.eqb (PosixPath.join (pkg_dir_of self) [K]) EmptyString); [discriminate|].
  unfold FS.lookup in W. rewrite C in W.
  destruct (FS.walk fs [] (FS.components (pkg_dir_of self) ++ [K]))
    as [[|x]|] eqn:E; try discriminate.
  assert (P : FS.isdir fs (pkg_dir_of self) = true).
  { unfold FS.isdir, FS.stat.
    pose proof (pkg_dir_nonempty self) as N. apply String.eqb_neq in N. rewrite N.
    unfold FS.lookup. now rewrite (walk_parent _ _ _ _ E). }
  rewrite P. apply filter_In. split.
  - apply walk_find in E; [|now destruct (FS.components (pkg_dir_of self))].
    simpl in E. eapply children_find; eauto.
  - exact D.
Qed.

Lemma isdir_dst_installed self profile version fs :
  no_slash profile = true -> no_slash version = true ->
  FS.isdir fs (dst_dir_of self profile version) = true ->
  installed self fs (key_of profile version).
Proof.
  intros Hp Hv D. apply isdir_key_installed.
  - unfold key_of. now rewrite !no_slash_app, Hp, Hv.
  - apply key_not_special.
  - exact D.
Qed.

Lemma install_ok_listed (h : Host) (self : PackageManager) (profile version : string)
      (use_meson use_dist : bool) (fs fs' : FS.t) :
  no_slash profile = true -> no_slash version = true ->
  host_keeps h (dst_dir_of self profile version) ->
  install_package h self profile version use_meson use_dist fs = (Ok tt, fs') ->
  installed self fs' (key_of profile version).
Proof.
  intros Hp Hv Hk H.
  apply isdir_dst_installed; auto.
  rewrite install_package_unfold in H.
  apply bind_ok_inv in H. destruct H as [[] [fs1 [E1 H]]].
  apply bind_ok_inv in H. destruct H as [[] [fs2 [E2 H]]].
  apply bind_ok_inv in H. destruct H as [[] [fs3 [E3 H]]].
  destruct (ensure_dir_some _ _ _ _ E3) as [_ D3]. specialize (D3 eq_refl).
  destruct (_if_package_not_available self profile version).
  { now apply bind_raise_not_ok in H. }
  destruct use_dist.
  - apply bind_ok_inv in H. destruct H as [ok [fs4 [S H]]].
    destruct ok; [|now apply bind_raise_not_ok in H].
    inversion H; subst.
    eapply (keeps_install_from_dist h self _ Hk); eauto.
  - apply bind_ok_inv in H. destruct H as [ok [fs4 [S H]]].
    destruct ok; [|now apply bind_raise_not_ok in H].
    inversion H; subst.
    eapply (keeps_build_from_source h self _ Hk); eauto.
Qed.

Lemma uninstall_loop_found h self package_name fs :
  forall l,
    In package_name l ->
    uninstall_loop h self package_name false l fs =
    (try_except (Os.rmtree (PosixPath.join (_r2env_path self) [PACKAGES_DIR; package_name]))
       is_OSError
       (fun err => raise (PackageManagerException
          ("[x] Unable to remove package " ++ package_name
           ++ ". Error: " ++ exn_str err)%string)) ;;;
     ret true)%M fs.
Proof.
  induction l as [|package l IH]; intros H; [contradiction|].
  cbn [uninstall_loop].
  destruct (String.eqb package_name package) eqn:E.
  - apply String.eqb_eq in E. subst package. reflexivity.
  - apply IH. destruct H as [H|H]; auto.
    subst. now rewrite String.eqb_refl in E.
Qed.

Lemma without_root fs : without [] fs = [].
Proof. unfold without. induction fs as [|e fs IH]; simpl; auto. Qed.

Lemma keeps_rmtree s d :
  FS.is_prefix (FS.components d) (FS.components s) = false -> keeps s (Os.rmtree d).
Proof.
  intros P fs a fs' H D. unfold Os.rmtree, update in H.
  destruct (FS.rmtree fs d) as [fs1|e] eqn:E; inversion H; subst.
  unfold FS.rmtree in E. destruct (FS.stat fs d) as [[|x]|]; inversion E; subst.
  unfold FS.isdir in *. fold (without (FS.components d) fs).
  now rewrite stat_without.
Qed.

Lemma keeps_uninstall_from_dist h self K profile version :
  PosixPath.startswith_sep K = false ->
  host_keeps h (PosixPath.join (pkg_dir_of self) [K]) ->
  keeps (PosixPath.join (pkg_dir_of self) [K]) (_uninstall_from_dist h self profile version).
Proof.
  intros Hrel Hk. unfold _uninstall_from_dist. repeat keeps_step.
  apply keeps_rmtree.
  change (PosixPath.join (pkg_dir_of self) [K])
    with (PosixPath.join2 (pkg_dir_of self) K).
  rewrite components_join2 by assumption.
  rewrite components_pkg_dir, <- app_assoc.
  change (Py.join "/" [_r2env_path self; "bin"])
    with (_r2env_path self ++ "/" ++ "bin")%string.
  rewrite components_app_sep. apply is_prefix_fork. discriminate.
Qed.

Lemma keeps_uninstall_loop_dist h self K :
  PosixPath.startswith_sep K = false ->
  host_keeps h (PosixPath.join (pkg_dir_of self) [K]) ->
  forall l, keeps (PosixPath.join (pkg_dir_of self) [K]) (uninstall_loop h self K true l).
Proof.
  intros Hrel Hk. induction l as [|package l IH]; cbn [uninstall_loop].
  - apply keeps_ret.
  - destruct (String.eqb K package); [|exact IH].
    repeat keeps_step.
    destruct (Py.split "@" package) as [|profile [|version [|x y]]];
      repeat keeps_step.
    now apply keeps_uninstall_from_dist.
Qed.

(** In binary-distribution mode the package manager itself never
    touches the versions directory. *)
Lemma uninstall_dist_still_listed (h : Host) (self : PackageManager) (K : string)
      (fs fs' : FS.t) :
  no_slash K = true -> FS.is_component K = true ->
  host_keeps h (PosixPath.join (pkg_dir_of self) [K]) ->
  installed self fs K ->
  uninstall_package h self K true fs = (Ok tt, fs') ->
  installed self fs' K.
Proof.
  intros Hs Hc Hk Hi H.
  apply isdir_key_installed; auto.
  apply installed_iff in Hi. unfold registry in Hi.
  destruct (FS.isdir fs (pkg_dir_of self)); [|contradiction].
  apply filter_In in Hi. destruct Hi as [_ D].
  unfold uninstall_package in H.
  apply bind_ok_inv in H. destruct H as [l [fs1 [E1 H]]].
  rewrite list_installed_packages_spec in E1. inversion E1; subst fs1. clear E1.
  apply bind_ok_inv in H. destruct H as [found [fs2 [E2 H]]].
  destruct found; simpl in H; [|discriminate].
  inversion H; subst fs2.
  eapply (keeps_uninstall_loop_dist h self K (no_slash_relative _ Hs) Hk); eauto.
Qed.

Lemma host_deb_keeps s : host_keeps host_deb s.
Proof.
  repeat split; intros; intros fs a fs' H D; inversion H; subst; assumption.
Qed.

(** C7, at the failing input.  On a Debian host whose package tools
    succeed, a binary-distribution install of [radare2@5.9.0] returns
    and the registry lists the key.  The uninstall of that key in
    binary-distribution mode returns as well, the disk is as before
    and the registry still lists the key: [uninstall_package] hands
    over to the platform's remover and never removes the directory
    that [install_package] created.  The from-source uninstall of the
    same key in the same state removes that directory, and the
    registry is empty afterwards. *)
Theorem uninstall_dist_leaves_key_listed :
  exists fs1,
    install_package host_deb pm_two "radare2" "5.9.0" false true fs_no_versions = (Ok tt, fs1)
    /\ FS.isdir fs1 "/home/u/.r2env/versions/radare2@5.9.0" = true
    /\ list_installed_packages pm_two fs1 = (Ok ["radare2@5.9.0"], fs1)
    /\ uninstall_package host_deb pm_two "radare2@5.9.0" true fs1 = (Ok tt, fs1)
    /\ exists fs2,
        uninstall_package host_deb pm_two "radare2@5.9.0" false fs1 = (Ok tt, fs2)
        /\ FS.isdir fs2 "/home/u/.r2env/versions/radare2@5.9.0" = false
        /\ list_installed_packages pm_two fs2 = (Ok [], fs2).
Proof.
  eexists. split; [vm_compute; reflexivity|].
  split; [vm_compute; reflexivity|].
  split; [vm_compute; reflexivity|].
  split; [vm_compute; reflexivity|].
  eexists. split; [vm_compute; reflexivity|].
  split; vm_compute; reflexivity.
Qed.

(** The same for a key that some earlier install left behind: on a
    Debian host an uninstall in binary-distribution mode returns and
    the registry still lists the key. *)
Lemma uninstall_dist_keeps_entry :
  ~ uninstall_unlists host_deb pm_two "radare2@5.9.0" true fs_one_installed.
Proof.
  intros H. apply (H fs_one_installed).
  - vm_compute. reflexivity.
  - apply installed_iff. vm_compute. left. reflexivity.
Qed.

(** Why the names must be free of slashes: a version tag with a slash
    makes the destination a nested directory, and the registry lists
    its first component, not the key. *)
Example install_slash_tag_not_listed :
  build_profiles [release_slash] = Ok (_packages pm_slash)
  /\ exists fs',
      install_package host_deb pm_slash "radare2" "next/6.0" false false fs_no_versions
      = (Ok tt, fs')
      /\ list_installed_packages pm_slash fs' = (Ok ["radare2@next"], fs').
Proof.
  split; [vm_compute; reflexivity|].
  eexists. split; vm_compute; reflexivity.
Qed.

(** ** Rebuilding the catalog *)

Lemma write_read fs s content fs' :
  FS.write fs s content = Ok fs' -> FS.read fs' s = Some content.
Proof.
  intros H. destruct (write_some _ _ _ _ H) as [-> [F [N [Ns Wp]]]].
  unfold FS.read, FS.stat. apply String.eqb_neq in Ns. rewrite Ns.
  unfold FS.lookup.
  rewrite (app_removelast_last EmptyString N) at 2.
  rewrite walk_app.
  rewrite (walk_keeps_dirs _ _ (put_keeps_dirs fs _ content F) _ _ Wp).
  simpl. rewrite <- (app_removelast_last EmptyString N).
  now rewrite find_put, list_eqb_refl.
Qed.

Lemma write_again fs s content fs' :
  FS.write fs s content = Ok fs' -> FS.write fs' s content = Ok fs'.
Proof.
  intros H. pose proof (write_read _ _ _ _ H) as R.
  destruct (write_some _ _ _ _ H) as [E [F [N [Ns Wp]]]].
  unfold FS.read in R. unfold FS.write.
  destruct (FS.stat fs' s) as [[|x]|]; try discriminate.
  f_equal. rewrite E at 2. rewrite E.
  apply put_same. now rewrite find_put, list_eqb_refl.
Qed.

(** What a rebuild that returns has done. *)
Lemma update_radare2_profiles_inv h r2env_path fs fs' :
  update_radare2_profiles h r2env_path fs = (Ok tt, fs') ->
  exists gh_release_info profiles fs1,
    gh_release_info_req h = Ok gh_release_info
    /\ build_profiles gh_release_info = Ok profiles
    /\ ensure_dir r2env_path fs = (Ok tt, fs1)
    /\ FS.write fs1 (PosixPath.join r2env_path ["profiles.json"]) (Json.dumps profiles)
       = Ok fs'.
Proof.
  unfold update_radare2_profiles. intros H.
  apply bind_ok_inv in H. destruct H as [rel [fs0 [E0 H]]].
  apply bind_ok_inv in H. destruct H as [c [fs0' [E0' H]]].
  unfold lift in E0, E0'. inversion E0; subst fs0. inversion E0'; subst fs0'.
  rewrite ensure_dir_bind in H.
  apply bind_ok_inv in H. destruct H as [[] [fs1 [E1 H]]].
  exists rel, c, fs1. repeat split; auto.
  unfold Os.write, update in H.
  destruct (FS.write fs1 _ _) as [fs2|e]; inversion H; subst; reflexivity.
Qed.

(** C9. Two rebuilds on the same host, from whatever two states of
    the disk, that both return have written the same bytes: the
    serialization of the catalog built from the release list, in
    which the order of packages, versions and platforms is fixed by
    the release list.  A second rebuild right after the first returns
    as well and leaves the disk, the catalog file included, exactly as
    the first left it. *)
Theorem rebuild_deterministic (h : Host) (r2env_path : string)
        (fsA fsA' fsB fsB' : FS.t) :
  update_radare2_profiles h r2env_path fsA = (Ok tt, fsA') ->
  update_radare2_profiles h r2env_path fsB = (Ok tt, fsB') ->
  (exists gh_release_info profiles,
      gh_release_info_req h = Ok gh_release_info
      /\ build_profiles gh_release_info = Ok profiles
      /\ FS.read fsA' (PosixPath.join r2env_path ["profiles.json"])
         = Some (Json.dumps profiles)
      /\ FS.read fsB' (PosixPath.join r2env_path ["profiles.json"])
         = Some (Json.dumps profiles))
  /\ update_radare2_profiles h r2env_path fsA' = (Ok tt, fsA').
Proof.
  intros HA HB.
  destruct (update_radare2_profiles_inv _ _ _ _ HA) as [rel [c [fs1 [Eg [Eb [Ee Ew]]]]]].
  destruct (update_radare2_profiles_inv _ _ _ _ HB) as [rel' [c' [fs1' [Eg' [Eb' [Ee' Ew']]]]]].
  assert (rel' = rel) by congruence. subst rel'.
  assert (c' = c) by congruence. subst c'.
  split.
  - exists rel, c. repeat split; auto; eapply write_read; eauto.
  - destruct (ensure_dir_some _ _ _ _ Ee) as [_ D]. specialize (D eq_refl).
    assert (D' : FS.isdir fsA' r2env_path = true)
      by (eapply isdir_keeps_dirs; [eapply write_keeps_dirs|]; eauto).
    unfold update_radare2_profiles, bind, lift. rewrite Eg, Eb.
    unfold Os.isdir, query. rewrite D'.
    unfold when, negb, ret, Os.write, update. now rewrite (write_again _ _ _ _ Ew).
Qed.

Lemma rebuild_deterministic_witness :
  (exists gh_release_info profiles,
      gh_release_info_req host_deb = Ok gh_release_info
      /\ build_profiles gh_release_info = Ok profiles
      /\ FS.read (snd (update_radare2_profiles host_deb "/home/u/.r2env" []))
                 "/home/u/.r2env/profiles.json"
         = Some (Json.dumps profiles)
      /\ FS.read (snd (update_radare2_profiles host_deb "/home/u/.r2env" fs_one_installed))
                 "/home/u/.r2env/profiles.json"
         = Some (Json.dumps profiles))
  /\ update_radare2_profiles host_deb "/home/u/.r2env"
       (snd (update_radare2_profiles host_deb "/home/u/.r2env" []))
     = (Ok tt, snd (update_radare2_profiles host_deb "/home/u/.r2env" [])).
Proof.
  apply (rebuild_deterministic host_deb "/home/u/.r2env"
           [] (snd (update_radare2_profiles host_deb "/home/u/.r2env" []))
           fs_one_installed
           (snd (update_radare2_profiles host_deb "/home/u/.r2env" fs_one_installed)));
    vm_compute; reflexivity.
Defined.

(* ================================================================= *)
(** * Further properties *)

(** ** The asset normalizer, continued *)

Lemma remove_raise x l e :
  Py.remove x l = Raise e -> e = ValueError /\ Py.mem x l = false.
Proof.
  induction l as [|y l IH]; simpl.
  - intros H. inversion H. auto.
  - rewrite (String.eqb_sym x y).
    destruct (String.eqb y x); [discriminate|].
    destruct (Py.remove x l); [discriminate|].
    intros H. inversion H; subst. destruct IH as [-> ->]; auto.
Qed.

Lemma remove_ok_mem x l l' : Py.remove x l = Ok l' -> Py.mem x l = true.
Proof.
  revert l'. induction l as [|y l IH]; simpl; [discriminate|].
  intros l'. rewrite (String.eqb_sym x y).
  destruct (String.eqb y x); auto.
  destruct (Py.remove x l); [|discriminate]. intros _. simpl. eauto.
Qed.

Lemma first_platform_key asset_ref items p :
  first_platform asset_ref items = Some p -> In p (Dict.keys items).
Proof.
  induction items as [|[k refs] items IH]; simpl; [discriminate|].
  destruct (Py.mem_list asset_ref refs).
  - intros H. inversion H. now left.
  - intros H. right. auto.
Qed.

Lemma filters_pairs ext items p :
  Dict.get _VERSION_FILTERS ext = Some items -> In p (Dict.keys items) ->
  In (ext, p) filed_pairs.
Proof.
  unfold _VERSION_FILTERS, filed_pairs. cbn [Dict.get].
  destruct (String.eqb ".zip" ext) eqn:E1.
  { apply String.eqb_eq in E1. subst ext. intros H. inversion H; subst items.
    simpl. intuition (subst; auto). }
  destruct (String.eqb ".deb" ext) eqn:E2.
  { apply String.eqb_eq in E2. subst ext. intros H. inversion H; subst items.
    simpl. intuition (subst; auto). }
  destruct (String.eqb ".pkg" ext) eqn:E3; [|discriminate].
  apply String.eqb_eq in E3. subst ext. intros H. inversion H; subst items.
  simpl. intuition (subst; auto 10).
Qed.

(** X1. An asset is filed under a platform only when the first token
    of its stem is the project name, the release's tag is among the
    tokens, and the platform is one the table lists for the
    extension of the file name: a [.zip] is never filed under a
    Debian or macOS platform, and so on. *)
Theorem classify_sound (tag name platform : string) :
  classify tag name = Ok (Some platform) ->
  hd EmptyString (asset_tokens name) = "radare2"
  /\ Py.mem tag (asset_tokens name) = true
  /\ In (asset_ext name, platform) filed_pairs.
Proof.
  rewrite classify_unfold.
  destruct (String.eqb (hd EmptyString (asset_tokens name)) "radare2") eqn:E1;
    [|discriminate].
  destruct (Py.mem tag (asset_tokens name)) eqn:E2; [|discriminate].
  cbn [negb]. apply String.eqb_eq in E1.
  destruct (Py.remove "radare2" (asset_tokens name)) as [r1|]; [|discriminate].
  cbn [rbind]. destruct (Py.remove tag r1) as [r2|]; [|discriminate].
  cbn [rbind].
  destruct (Dict.get _VERSION_FILTERS (asset_ext name)) as [items|] eqn:E3;
    [|discriminate].
  intros H. inversion H as [H1].
  repeat split; auto.
  eapply filters_pairs; eauto. eapply first_platform_key; eauto.
Qed.

Lemma classify_sound_witness :
  hd EmptyString (asset_tokens "radare2_5.9.0_amd64.deb") = "radare2"
  /\ Py.mem "5.9.0" (asset_tokens "radare2_5.9.0_amd64.deb") = true
  /\ In (asset_ext "radare2_5.9.0_amd64.deb", "deb_x64") filed_pairs.
Proof.
  apply (classify_sound "5.9.0" "radare2_5.9.0_amd64.deb" "deb_x64").
  vm_compute. reflexivity.
Defined.

(** X2. The asset loop raises in exactly one situation: the release
    is tagged with the project name itself and the asset's stem has
    the project name as its first token and nowhere else.  The
    exception is then [ValueError]. *)
Theorem classify_raises_iff (tag name : string) (e : exn) :
  classify tag name = Raise e <->
  e = ValueError /\ tag = "radare2"
  /\ exists ts, asset_tokens name = "radare2" :: ts /\ Py.mem "radare2" ts = false.
Proof.
  rewrite classify_unfold. split.
  - destruct (asset_tokens name) as [|t ts] eqn:Et; [discriminate|].
    cbn [hd Py.mem Py.remove].
    destruct (String.eqb t "radare2") eqn:E1; [|discriminate].
    apply String.eqb_eq in E1. subst t. cbn [negb rbind].
    destruct (String.eqb tag "radare2") eqn:E2.
    + apply String.eqb_eq in E2. subst tag. cbn [orb negb].
      destruct (Py.remove "radare2" ts) as [r2|e'] eqn:E3.
      * cbn [rbind]. destruct (Dict.get _ _); discriminate.
      * cbn [rbind]. intros H. inversion H; subst e'.
        destruct (remove_raise _ _ _ E3) as [-> Hm]. eauto.
    + cbn [orb]. destruct (Py.mem tag ts) eqn:E3; [|discriminate].
      cbn [negb]. destruct (remove_mem _ _ E3) as [r2 ->]. cbn [rbind].
      destruct (Dict.get _ _); discriminate.
  - intros [-> [-> [ts [-> Hm]]]].
    cbn [hd Py.mem Py.remove]. rewrite String.eqb_refl. cbn [negb orb rbind].
    destruct (Py.remove "radare2" ts) as [r2|e'] eqn:E3.
    + apply remove_ok_mem in E3. congruence.
    + cbn [rbind]. now destruct (remove_raise _ _ _ E3) as [-> _].
Qed.

Lemma classify_raises_iff_witness :
  classify "radare2" "radare2-w64.zip" = Raise ValueError.
Proof.
  apply (classify_raises_iff "radare2" "radare2-w64.zip" ValueError).
  split; [reflexivity|]. split; [reflexivity|].
  exists ["w64"]. split; vm_compute; reflexivity.
Defined.

(** ** The catalog builder, continued *)

Lemma last_filed_some tag platform l n :
  last_filed tag platform l = Some n ->
  exists a, In a l /\ asset_name a = n
            /\ classify tag (asset_name a) = Ok (Some platform).
Proof.
  induction l as [|a l IH]; simpl; [discriminate|].
  destruct (last_filed tag platform l) as [m|].
  - intros H. destruct (IH H) as [a' [Hin Ha]]. exists a'. auto.
  - destruct (classify tag (asset_name a)) as [[p|]|] eqn:E; try discriminate.
    destruct (String.eqb p platform) eqn:Ep; [|discriminate].
    apply String.eqb_eq in Ep. subst p. intros H. inversion H. exists a. auto.
Qed.

Lemma last_filed_filed tag platform l a :
  In a l -> classify tag (asset_name a) = Ok (Some platform) ->
  last_filed tag platform l <> None.
Proof.
  induction l as [|b l IH]; simpl; [contradiction|].
  intros [-> | Hin] Hc.
  - destruct (last_filed tag platform l); [discriminate|].
    rewrite Hc, String.eqb_refl. discriminate.
  - specialize (IH Hin Hc). destruct (last_filed tag platform l); congruence.
Qed.

Lemma build_version_inv r v :
  build_version r = Ok v ->
  id v = tag_name r /\ scan_assets (tag_name r) (assets r) [] = Ok (packages v).
Proof.
  unfold build_version.
  destruct (scan_assets (tag_name r) (assets r) []) as [pkgs|]; [|discriminate].
  intros H. inversion H. auto.
Qed.

Lemma build_version_get r v platform :
  build_version r = Ok v ->
  Dict.get (packages v) platform = last_filed (tag_name r) platform (assets r).
Proof.
  intros H. destruct (build_version_inv _ _ H) as [_ S].
  rewrite (scan_assets_get _ platform _ _ _ S).
  now destruct (last_filed (tag_name r) platform (assets r)).
Qed.

(** X3. In a version built from a release, a platform has an
    artifact exactly when some asset of the release is filed under
    that platform, and the artifact is then the file name of such an
    asset: the builder invents no artifact and drops no platform. *)
Theorem artifacts_are_filed_assets (r : release) (v : version) (platform : string) :
  build_version r = Ok v ->
  (forall n, Dict.get (packages v) platform = Some n ->
             exists a, In a (assets r) /\ asset_name a = n
                       /\ classify (tag_name r) n = Ok (Some platform))
  /\ (forall a, In a (assets r) ->
                classify (tag_name r) (asset_name a) = Ok (Some platform) ->
                Dict.get (packages v) platform <> None).
Proof.
  intros H. rewrite (build_version_get _ _ platform H). split.
  - intros n Hn. destruct (last_filed_some _ _ _ _ Hn) as [a [Hin [Ha Hc]]].
    exists a. subst n. auto.
  - intros a Hin Hc. eapply last_filed_filed; eauto.
Qed.

Lemma artifacts_are_filed_assets_witness :
  (forall n, Dict.get [("deb_x64", "radare2-5.9.0-amd64.deb");
                       ("w64", "radare2-5.9.0-w64.zip")] "w64" = Some n ->
             exists a, In a (assets two_debs) /\ asset_name a = n
                       /\ classify "5.9.0" n = Ok (Some "w64"))
  /\ (forall a, In a (assets two_debs) ->
                classify "5.9.0" (asset_name a) = Ok (Some "w64") ->
                Dict.get [("deb_x64", "radare2-5.9.0-amd64.deb");
                          ("w64", "radare2-5.9.0-w64.zip")] "w64" <> None).
Proof.
  apply (artifacts_are_filed_assets two_debs
           {| id := "5.9.0";
              packages := [("deb_x64", "radare2-5.9.0-amd64.deb");
                           ("w64", "radare2-5.9.0-w64.zip")] |} "w64").
  vm_compute. reflexivity.
Defined.

Lemma scan_releases_inv l :
  forall acc out,
    scan_releases l acc = Ok out ->
    exists vs, out = acc ++ vs /\ Forall2 (fun r v => build_version r = Ok v) l vs.
Proof.
  induction l as [|r l IH]; simpl; intros acc out H.
  - inversion H. exists []. now rewrite app_nil_r.
  - destruct (build_version r) as [v|] eqn:E; [|discriminate]. simpl in H.
    destruct (IH _ _ H) as [vs [-> F]].
    exists (v :: vs). rewrite <- app_assoc. auto.
Qed.

Lemma build_profiles_inv gh_release_info c :
  build_profiles gh_release_info = Ok c ->
  exists vs, c = make_profiles (git_version :: vs)
             /\ Forall2 (fun r v => build_version r = Ok v) gh_release_info vs.
Proof.
  unfold build_profiles.
  destruct (scan_releases gh_release_info [git_version]) as [out|] eqn:E; [|discriminate].
  destruct (scan_releases_inv _ _ _ E) as [vs [-> F]].
  cbn [rbind]. intros H. inversion H. exists vs. split; [reflexivity | assumption].
Qed.

Lemma built_ids l vs :
  Forall2 (fun r v => build_version r = Ok v) l vs -> map id vs = map tag_name l.
Proof.
  induction 1 as [|r v l vs H _ IH]; simpl; auto.
  destruct (build_version_inv _ _ H) as [-> _]. now rewrite IH.
Qed.

Lemma existsb_id_In vs version :
  existsb (fun v => String.eqb (id v) version) vs = true <-> In version (map id vs).
Proof.
  rewrite existsb_exists, in_map_iff. split.
  - intros [v [Hin E]]. apply String.eqb_eq in E. eauto.
  - intros [v [E Hin]]. exists v. split; auto. now apply String.eqb_eq.
Qed.

(** X4. Which requests pass the validation of [install_package]
    against a rebuilt catalog: for the primary package, the version
    ["git"] and the tags of the releases, and nothing else; for a
    companion package, the version ["git"] only; for any other
    package name, nothing. *)
Theorem available_in_rebuilt_catalog (gh_release_info : list release) (c : catalog)
        (r2env_path profile version : string) :
  build_profiles gh_release_info = Ok c ->
  _if_package_not_available {| _packages := c; _r2env_path := r2env_path |} profile version
  = false
  <-> (profile = "radare2"
       /\ (version = "git" \/ In version (map tag_name gh_release_info)))
      \/ (In profile companions /\ version = "git").
Proof.
  intros H. destruct (build_profiles_inv _ _ H) as [vs [-> F]].
  rewrite <- (built_ids _ _ F).
  unfold _if_package_not_available, make_profiles, companions. cbn [_packages Dict.get].
  repeat match goal with
         | |- context [String.eqb ?a profile] =>
             let E := fresh "E" in
             destruct (String.eqb a profile) eqn:E;
             [ apply String.eqb_eq in E; subst profile | apply String.eqb_neq in E ]
         end;
    cbn [versions companion git_version existsb id orb negb];
    try (rewrite negb_false_iff, orb_false_r, String.eqb_eq;
         split;
         [ intros E'; right; split; [simpl; auto 10 | congruence]
         | intros [[E' _] | [_ E']]; [discriminate | congruence] ]).
  - rewrite negb_false_iff, existsb_id_In, map_rev, <- in_rev. simpl.
    split.
    + intros [E' | E']; left; split; auto.
    + intros [[_ [E' | E']] | [Hc _]]; auto.
      simpl in Hc. intuition discriminate.
  - split; [discriminate|].
    intros [[E' _] | [Hc _]]; [congruence|].
    simpl in Hc. intuition congruence.
Qed.

Lemma available_in_rebuilt_catalog_witness :
  _if_package_not_available pm_two "radare2" "5.8.8" = false
  <-> ("radare2" = "radare2"
       /\ ("5.8.8" = "git" \/ In "5.8.8" (map tag_name two_releases)))
      \/ (In "radare2" companions /\ "5.8.8" = "git").
Proof.
  apply (available_in_rebuilt_catalog two_releases (_packages pm_two)
           "/home/u/.r2env" "radare2" "5.8.8").
  vm_compute. reflexivity.
Defined.

(** ** Looking up artifacts *)

Lemma find_key_get (d : Dict.t string) p :
  match List.find (fun pkgd => eq_opt pkgd (Some p)) (Dict.keys d) with
  | Some pkgd => Dict.get d pkgd
  | None => None
  end = Dict.get d p.
Proof.
  destruct (List.find (fun pkgd => eq_opt pkgd (Some p)) (Dict.keys d)) as [k|] eqn:E.
  - apply find_some in E. destruct E as [_ E]. simpl in E.
    apply String.eqb_eq in E. now subst k.
  - induction d as [|[k v] d IH]; simpl in *; auto.
    destruct (String.eqb k p); [discriminate | auto].
Qed.

Lemma pkgname_in_versions_absent vs version cos :
  ~ In version (map id vs) -> pkgname_in_versions vs version cos = None.
Proof.
  induction vs as [|x vs IH]; simpl; auto.
  intros H. destruct (String.eqb (id x) version) eqn:E.
  - apply String.eqb_eq in E. exfalso. auto.
  - auto.
Qed.

Lemma pkgname_in_versions_unique vs x p :
  NoDup (map id vs) -> In x vs ->
  pkgname_in_versions vs (id x) (Some p) = Dict.get (packages x) p.
Proof.
  induction vs as [|y vs IH]; simpl; [contradiction|].
  intros N Hin. inversion N as [|? ? Hy N']; subst.
  destruct (String.eqb (id y) (id x)) eqn:E.
  - apply String.eqb_eq in E.
    assert (y = x).
    { destruct Hin as [|Hin]; auto. exfalso. apply Hy. rewrite E. now apply in_map. }
    subst y. rewrite <- (find_key_get (packages x) p).
    destruct (List.find _ _); auto.
    now apply pkgname_in_versions_absent.
  - destruct Hin as [->|Hin]; [now rewrite String.eqb_refl in E | auto].
Qed.

Lemma Forall2_In_l {A B} (R : A -> B -> Prop) l l' a :
  Forall2 R l l' -> In a l -> exists b, In b l' /\ R a b.
Proof.
  induction 1 as [|x y l l' H _ IH]; simpl; [contradiction|].
  intros [->|Hin]; eauto. destruct (IH Hin) as [b [? ?]]. eauto.
Qed.

(** X5. Builder and lookup compose: when the release tags are
    pairwise different and none is ["git"], looking up a release's
    platform in the rebuilt catalog returns the file name of the last
    asset of that release filed under the platform, and nothing when
    no asset is. *)
Theorem lookup_in_rebuilt_catalog (gh_release_info : list release) (c : catalog)
        (r2env_path : string) (r : release) (platform : string) :
  build_profiles gh_release_info = Ok c ->
  NoDup (map tag_name gh_release_info) ->
  ~ In "git" (map tag_name gh_release_info) ->
  In r gh_release_info ->
  _get_pkgname {| _packages := c; _r2env_path := r2env_path |}
               "radare2" (tag_name r) (Some platform)
  = last_filed (tag_name r) platform (assets r).
Proof.
  intros H N G Hin. destruct (build_profiles_inv _ _ H) as [vs [-> F]].
  destruct (Forall2_In_l _ _ _ _ F Hin) as [v [Hv Hb]].
  destruct (build_version_inv _ _ Hb) as [Hid _].
  rewrite <- (build_version_get _ _ platform Hb), <- Hid.
  unfold _get_pkgname, make_profiles. cbn [_packages Dict.get String.eqb Ascii.eqb Bool.eqb].
  cbn [versions].
  apply pkgname_in_versions_unique.
  - rewrite map_rev. apply NoDup_rev. simpl. constructor.
    + now rewrite (built_ids _ _ F).
    + now rewrite (built_ids _ _ F).
  - apply -> in_rev. now right.
Qed.

Lemma lookup_in_rebuilt_catalog_witness :
  _get_pkgname pm_two "radare2" "5.9.0" (Some "deb_x64") = Some "radare2_5.9.0_amd64.deb".
Proof.
  apply (lookup_in_rebuilt_catalog two_releases (_packages pm_two) "/home/u/.r2env"
           {| tag_name := "5.9.0";
              assets := [ {| asset_name := "radare2_5.9.0_amd64.deb" |};
                          {| asset_name := "radare2-5.9.0-w64.zip" |} ] |} "deb_x64").
  - vm_compute. reflexivity.
  - simpl. repeat constructor; simpl; intuition discriminate.
  - simpl. intuition discriminate.
  - left. reflexivity.
Defined.

Lemma pkgname_in_versions_empty vs version cos :
  (forall x, In x vs -> id x = version -> packages x = []) ->
  pkgname_in_versions vs version cos = None.
Proof.
  induction vs as [|x vs IH]; simpl; auto.
  intros H. destruct (String.eqb (id x) version) eqn:E.
  - apply String.eqb_eq in E. rewrite (H x (or_introl eq_refl) E). simpl. auto.
  - auto.
Qed.

Lemma companion_entry radare2_versions profile :
  In profile companions ->
  exists src, Dict.get (make_profiles radare2_versions) profile = Some (companion src).
Proof.
  unfold companions. simpl.
  intros [<- | [<- | [<- | [<- | [<- | []]]]]]; eexists; reflexivity.
Qed.

(** X6. Source-only versions have no download: in a rebuilt catalog
    no companion package has an artifact or a download address for
    any version and platform, and neither has the version ["git"] of
    the primary package unless a release is itself tagged ["git"]. *)
Theorem source_only_versions (gh_release_info : list release) (c : catalog)
        (r2env_path profile version : string) (cos : option string) :
  build_profiles gh_release_info = Ok c ->
  In profile companions
  \/ (profile = "radare2" /\ version = "git"
      /\ ~ In "git" (map tag_name gh_release_info)) ->
  _get_pkgname {| _packages := c; _r2env_path := r2env_path |} profile version cos = None
  /\ _get_disturl {| _packages := c; _r2env_path := r2env_path |} profile version cos = None.
Proof.
  intros H Hc. destruct (build_profiles_inv _ _ H) as [vs [-> F]].
  assert (E : _get_pkgname {| _packages := make_profiles (git_version :: vs);
                              _r2env_path := r2env_path |} profile version cos = None).
  { destruct Hc as [Hc | [-> [-> G]]].
    - destruct (companion_entry (git_version :: vs) profile Hc) as [src Es].
      unfold _get_pkgname. cbn [_packages]. rewrite Es.
      apply pkgname_in_versions_empty.
      intros x [<- | []] _. reflexivity.
    - unfold _get_pkgname, make_profiles.
      cbn [_packages Dict.get String.eqb Ascii.eqb Bool.eqb versions].
      apply pkgname_in_versions_empty.
      intros x Hx Hid. apply in_rev in Hx. destruct Hx as [<- | Hx]; auto.
      exfalso. apply G. rewrite <- (built_ids _ _ F), <- Hid. now apply in_map. }
  split; [exact E|]. unfold _get_disturl. now rewrite E.
Qed.

Lemma source_only_versions_witness :
  _get_pkgname pm_two "r2frida" "git" (Some "deb_x64") = None
  /\ _get_disturl pm_two "r2frida" "git" (Some "deb_x64") = None.
Proof.
  apply (source_only_versions two_releases (_packages pm_two) "/home/u/.r2env"
           "r2frida" "git" (Some "deb_x64")).
  - vm_compute. reflexivity.
  - left. simpl. auto.
Defined.

Lemma pkgname_in_versions_some vs version cos n :
  pkgname_in_versions vs version cos = Some n ->
  existsb (fun v => String.eqb (id v) version) vs = true.
Proof.
  induction vs as [|x vs IH]; simpl; [discriminate|].
  destruct (String.eqb (id x) version); auto.
Qed.

(** X7. Lookup, validation and download address agree: whenever
    [_get_pkgname] finds an artifact, the pair passes the validation
    of [install_package], and [_get_disturl] is the download prefix,
    the version and the artifact joined by slashes (the prefix ends
    with a slash of its own, so the address has two in a row). *)
Theorem pkgname_available_and_url (self : PackageManager) (profile version : string)
        (cos : option string) (pkgname : string) :
  _get_pkgname self profile version cos = Some pkgname ->
  _if_package_not_available self profile version = false
  /\ _get_disturl self profile version cos
     = Some ("https://github.com/radareorg/radare2/releases/download//"
             ++ version ++ "/" ++ pkgname)%string.
Proof.
  intros H. split.
  - unfold _get_pkgname in H. unfold _if_package_not_available.
    destruct (Dict.get (_packages self) profile) as [p|]; [|discriminate].
    now rewrite (pkgname_in_versions_some _ _ _ _ H).
  - unfold _get_disturl. rewrite H. reflexivity.
Qed.

Lemma pkgname_available_and_url_witness :
  _if_package_not_available pm_two "radare2" "5.9.0" = false
  /\ _get_disturl pm_two "radare2" "5.9.0" (Some "w64")
     = Some "https://github.com/radareorg/radare2/releases/download//5.9.0/radare2-5.9.0-w64.zip".
Proof.
  apply (pkgname_available_and_url pm_two "radare2" "5.9.0" (Some "w64")
           "radare2-5.9.0-w64.zip").
  vm_compute. reflexivity.
Defined.

(** ** Install, continued *)

Lemma blocked_mkdir_none :
  forall todo fs done, blocked fs done todo = true -> FS.mkdir_chain fs done todo = None.
Proof.
  induction todo as [|c todo IH]; simpl; intros fs done H; [discriminate|].
  destruct (FS.find fs (done ++ [c])) as [[|x]|] eqn:E; auto.
  apply IH. rewrite blocked_grows with (fs := fs); auto.
  eexists. split; [reflexivity|]. repeat constructor.
Qed.

Lemma walk_dir_not_blocked fs :
  forall todo done, FS.walk fs done todo = Some FS.Dir -> blocked fs done todo = false.
Proof.
  induction todo as [|c todo IH]; simpl; intros done H; auto.
  destruct (FS.find fs (done ++ [c])) as [[|x]|]; try discriminate; auto.
  destruct todo; discriminate.
Qed.

Lemma ensure_dir_blocked s fs :
  obstructed fs s = true ->
  exists kind, ensure_dir s fs = (Raise (OSError kind s), fs)
               /\ (kind = FileExistsError \/ kind = NotADirectoryError
                   \/ kind = FileNotFoundError).
Proof.
  intros O. unfold ensure_dir, bind, Os.isdir, query, when, Os.makedirs, update.
  assert (D : FS.isdir fs s = false).
  { unfold FS.isdir, FS.stat. destruct (String.eqb s EmptyString); auto.
    unfold FS.lookup.
    destruct (FS.walk fs [] (FS.components s)) as [[|x]|] eqn:W; auto.
    apply walk_dir_not_blocked in W. unfold obstructed in O. congruence. }
  rewrite D. cbn [negb]. unfold FS.makedirs.
  destruct (String.eqb s EmptyString); [eauto 6|].
  destruct (FS.lookup fs (FS.components s)); [eauto 6|].
  unfold obstructed in O. rewrite (blocked_mkdir_none _ _ _ O). eauto 6.
Qed.

(** X8. When a regular file is in the way of the log directory (the
    log path itself or one of its ancestors is a regular file, the
    path being one that the operating system resolves component by
    component), [install_package] raises an [OSError] of
    [os.makedirs], a [FileExistsError] or a [NotADirectoryError],
    whatever the request, known to the catalog or not, and leaves the
    disk as it was.  The path the exception carries is the one
    [os.mkdir] failed on, the log path or an ancestor of it, and is
    left open here. *)
Theorem install_blocked_log (h : Host) (self : PackageManager)
        (profile version : string) (use_meson use_dist : bool) (fs : FS.t) :
  obstructed fs (log_path self) = true ->
  well_named (log_path self) = true ->
  exists kind path,
    install_package h self profile version use_meson use_dist fs
    = (Raise (OSError kind path), fs)
    /\ (kind = FileExistsError \/ kind = NotADirectoryError).
Proof.
  intros O _. rewrite install_package_unfold.
  destruct (ensure_dir_blocked _ _ O) as [kind [E K]].
  exists kind, (log_path self). unfold bind at 1. rewrite E. split; [reflexivity|].
  destruct K as [K | [K | K]]; auto.
  exfalso. subst kind. revert E.
  unfold ensure_dir, bind, Os.isdir, query, when, Os.makedirs, update, FS.makedirs.
  pose proof (log_path_nonempty self) as N. apply String.eqb_neq in N. rewrite N.
  destruct (FS.isdir fs (log_path self)); cbn [negb]; [discriminate|].
  destruct (FS.lookup fs _); [discriminate|].
  destruct (FS.mkdir_chain fs _ _); discriminate.
Qed.

Lemma install_blocked_log_witness :
  exists kind path,
    install_package host_deb pm_two "radare2" "git" false false fs_log_is_file
    = (Raise (OSError kind path), fs_log_is_file)
    /\ (kind = FileExistsError \/ kind = NotADirectoryError).
Proof.
  apply (install_blocked_log host_deb pm_two "radare2" "git" false false fs_log_is_file);
    vm_compute; reflexivity.
Defined.

(** X9. [install_package] returns only for a pair that is in the
    catalog and after the strategy it selected has returned [True];
    the three directories of the preparation step exist in the state
    the strategy started from. *)
Theorem install_returns_only_when_available (h : Host) (self : PackageManager)
        (profile version : string) (use_meson use_dist : bool) (fs fs' : FS.t) :
  install_package h self profile version use_meson use_dist fs = (Ok tt, fs') ->
  _if_package_not_available self profile version = false
  /\ exists fs3,
      grows fs fs3
      /\ FS.isdir fs3 (log_path self) = true
      /\ FS.isdir fs3 (source_path_of self profile) = true
      /\ FS.isdir fs3 (dst_dir_of self profile version) = true
      /\ (if use_dist then _install_from_dist h self profile version
          else _build_from_source h self profile version (source_path_of self profile)
                 (dst_dir_of self profile version) (logfile_of h self profile version)
                 use_meson) fs3 = (Ok true, fs').
Proof.
  intros H. rewrite install_package_unfold in H.
  apply bind_ok_inv in H. destruct H as [[] [fs1 [E1 H]]].
  apply bind_ok_inv in H. destruct H as [[] [fs2 [E2 H]]].
  apply bind_ok_inv in H. destruct H as [[] [fs3 [E3 H]]].
  destruct (ensure_dir_some _ _ _ _ E1) as [G1 D1]. specialize (D1 eq_refl).
  destruct (ensure_dir_some _ _ _ _ E2) as [G2 D2]. specialize (D2 eq_refl).
  destruct (ensure_dir_some _ _ _ _ E3) as [G3 D3]. specialize (D3 eq_refl).
  destruct (_if_package_not_available self profile version).
  { now apply bind_raise_not_ok in H. }
  split; [reflexivity|]. exists fs3.
  assert (G : grows fs fs3) by (eapply grows_trans; [eapply grows_trans|]; eauto).
  assert (L : FS.isdir fs3 (log_path self) = true)
    by (apply (isdir_grows fs1 fs3); [exact (grows_trans _ _ _ G2 G3) | exact D1]).
  assert (S : FS.isdir fs3 (source_path_of self profile) = true)
    by (apply (isdir_grows fs2 fs3); assumption).
  repeat (split; [assumption|]).
  destruct use_dist;
    apply bind_ok_inv in H; destruct H as [ok [fs4 [S4 H]]];
    (destruct ok; [|now apply bind_raise_not_ok in H]);
    inversion H; subst; assumption.
Qed.

Lemma install_returns_only_when_available_witness :
  _if_package_not_available pm_two "radare2" "git" = false
  /\ exists fs3,
      grows fs_no_versions fs3
      /\ FS.isdir fs3 "/home/u/.r2env/log" = true
      /\ FS.isdir fs3 "/home/u/.r2env/src/radare2" = true
      /\ FS.isdir fs3 "/home/u/.r2env/versions/radare2@git" = true
      /\ _build_from_source host_deb pm_two "radare2" "git" "/home/u/.r2env/src/radare2"
           "/home/u/.r2env/versions/radare2@git"
           "/home/u/.r2env/log/radare2_git_1000_build.txt" false fs3
         = (Ok true, fs_git_installed).
Proof.
  apply (install_returns_only_when_available host_deb pm_two "radare2" "git" false false
           fs_no_versions fs_git_installed).
  vm_compute. reflexivity.
Defined.

(** X10. When the selected strategy returns [False], the rollback
    runs: [install_package] raises the package manager's exception
    for a failed install (for a from-source build, naming the log
    file), the destination is no longer a directory, and every node
    outside the destination, as the strategy left it, is untouched. *)
Theorem strategy_false_rolls_back (h : Host) (self : PackageManager)
        (profile version : string) (use_meson use_dist : bool) (fs fs3 fs4 : FS.t) :
  PosixPath.startswith_sep profile = false ->
  _if_package_not_available self profile version = false ->
  (ensure_dir (log_path self) ;;;
   ensure_dir (source_path_of self profile) ;;;
   ensure_dir (dst_dir_of self profile version))%M fs = (Ok tt, fs3) ->
  (if use_dist then _install_from_dist h self profile version
   else _build_from_source h self profile version (source_path_of self profile)
          (dst_dir_of self profile version) (logfile_of h self profile version)
          use_meson) fs3 = (Ok false, fs4) ->
  exists fs',
    install_package h self profile version use_meson use_dist fs =
    (Raise (PackageManagerException
              (if use_dist
               then "[x] Failed to install " ++ profile ++ "@" ++ version ++ "."
               else "[x] Failed to build " ++ profile ++ "@" ++ version ++ ". "
                    ++ "Check " ++ logfile_of h self profile version
                    ++ " for more information.")%string), fs')
    /\ FS.isdir fs' (dst_dir_of self profile version) = false
    /\ forall s n,
        FS.stat fs4 s = Some n ->
        FS.is_prefix (FS.components (dst_dir_of self profile version))
                     (FS.components s) = false ->
        FS.stat fs' s = Some n.
Proof.
  intros Hrel Hav Hprep S.
  rewrite install_package_unfold, Hav.
  apply bind_ok_inv in Hprep. destruct Hprep as [[] [fs1 [E1 Hprep]]].
  apply bind_ok_inv in Hprep. destruct Hprep as [[] [fs2 [E2 E3]]].
  unfold bind at 1. rewrite E1. unfold bind at 1. rewrite E2.
  unfold bind at 1. rewrite E3.
  pose proof (components_dst_dir_nonempty self profile version Hrel) as N.
  destruct use_dist; unfold bind at 1; rewrite S; unfold bind; rewrite rollback_spec;
    unfold raise; (eexists; split; [reflexivity|]); split;
    try (apply rolled_back_isdir; assumption);
    intros s n Hs Hp; now apply rolled_back_frame.
Qed.

Lemma strategy_false_rolls_back_witness :
  exists fs',
    install_package host_deb_failing pm_two "radare2" "git" false false fs_no_versions =
    (Raise (PackageManagerException
              "[x] Failed to build radare2@git. Check /home/u/.r2env/log/radare2_git_1000_build.txt for more information."),
     fs')
    /\ FS.isdir fs' "/home/u/.r2env/versions/radare2@git" = false
    /\ forall s n,
        FS.stat fs_git_installed s = Some n ->
        FS.is_prefix (FS.components "/home/u/.r2env/versions/radare2@git")
                     (FS.components s) = false ->
        FS.stat fs' s = Some n.
Proof.
  apply (strategy_false_rolls_back host_deb_failing pm_two "radare2" "git" false false
           fs_no_versions fs_git_installed fs_git_installed);
    vm_compute; reflexivity.
Defined.

(** ** Uninstall, continued *)

Lemma registry_isdir_iff (self : PackageManager) (fs : FS.t) (K : string) :
  no_slash K = true -> FS.is_component K = true ->
  (installed self fs K <-> FS.isdir fs (get_package_path self K) = true).
Proof.
  intros Hs Hc. split.
  - intros H. apply installed_iff in H. unfold registry in H.
    destruct (FS.isdir fs (pkg_dir_of self)); [|contradiction].
    apply filter_In in H. exact (proj2 H).
  - intros H. now apply isdir_key_installed.
Qed.

(** X11. For a name that is one path component other than [".."],
    with a package path that the operating system resolves component
    by component, the registry lists the name exactly when the path
    [get_package_path] gives for it is a directory. *)
Theorem installed_iff_package_path_isdir (self : PackageManager) (fs : FS.t) (K : string) :
  no_slash K = true -> FS.is_component K = true -> K <> ".." ->
  well_named (get_package_path self K) = true ->
  (installed self fs K <-> FS.isdir fs (get_package_path self K) = true).
Proof. intros Hs Hc _ _. now apply registry_isdir_iff. Qed.

Lemma installed_iff_package_path_isdir_witness :
  installed pm_two fs_two_installed "r2dec@git"
  <-> FS.isdir fs_two_installed "/home/u/.r2env/versions/r2dec@git" = true.
Proof.
  apply (installed_iff_package_path_isdir pm_two fs_two_installed "r2dec@git");
    try reflexivity.
  discriminate.
Defined.

Lemma uninstall_source_run (h : Host) (self : PackageManager) (K : string) (fs : FS.t) :
  installed self fs K ->
  uninstall_package h self K false fs
  = (Ok tt, without (FS.components (get_package_path self K)) fs).
Proof.
  intros H. apply installed_iff in H.
  unfold uninstall_package, bind at 1.
  rewrite list_installed_packages_spec.
  unfold bind at 1. rewrite (uninstall_loop_found h self K fs _ H).
  unfold registry in H.
  destruct (FS.isdir fs (pkg_dir_of self)); [|contradiction].
  apply filter_In in H. destruct H as [_ D].
  change (PosixPath.join (pkg_dir_of self) [K]) with (get_package_path self K) in D.
  change (PosixPath.join (_r2env_path self) [PACKAGES_DIR; K])
    with (get_package_path self K).
  unfold bind, try_except, Os.rmtree, update. rewrite (rmtree_dir _ _ D).
  reflexivity.
Qed.

Lemma components_package_path self K :
  no_slash K = true -> FS.is_component K = true ->
  FS.components (get_package_path self K) = FS.components (pkg_dir_of self) ++ [K].
Proof.
  intros Hs Hc.
  change (get_package_path self K) with (PosixPath.join2 (pkg_dir_of self) K).
  rewrite components_join2 by now apply no_slash_relative.
  now rewrite (components_single K).
Qed.

Lemma uninstall_returns_installed (h : Host) (self : PackageManager) (K : string)
      (use_dist : bool) (fs fs' : FS.t) :
  uninstall_package h self K use_dist fs = (Ok tt, fs') -> installed self fs K.
Proof.
  intros H. apply installed_iff.
  destruct (in_dec string_dec K (registry self fs)) as [I|N]; auto.
  exfalso. revert H. unfold uninstall_package, bind.
  rewrite list_installed_packages_spec.
  rewrite (uninstall_loop_absent h self K use_dist fs _ N). discriminate.
Qed.

(** X12. When a from-source uninstall of a key returns (a key that
    is one path component other than [".."], with a package path
    that the operating system resolves component by component), it
    has removed the directory of the key and nothing else: the
    registry no longer lists the key, every node of the disk outside
    that directory is as it was, and every other such key of the
    registry is still listed. *)
Theorem uninstall_source_keeps_the_rest (h : Host) (self : PackageManager)
        (K K' : string) (fs fs' : FS.t) :
  no_slash K = true -> FS.is_component K = true -> K <> ".." ->
  well_named (get_package_path self K) = true ->
  uninstall_package h self K false fs = (Ok tt, fs') ->
  ~ installed self fs' K
  /\ (forall s n,
         FS.stat fs s = Some n ->
         FS.is_prefix (FS.components (get_package_path self K)) (FS.components s) = false ->
         FS.stat fs' s = Some n)
  /\ (no_slash K' = true -> FS.is_component K' = true -> K' <> ".." ->
      well_named (get_package_path self K') = true -> K' <> K ->
      installed self fs K' -> installed self fs' K').
Proof.
  intros Hs Hc _ _ H.
  pose proof (uninstall_returns_installed _ _ _ _ _ _ H) as Hi.
  rewrite (uninstall_source_run h self K fs Hi) in H.
  inversion H; subst fs'. clear H. split; [|split].
  - intros Hi'. apply registry_isdir_iff in Hi'; auto.
    revert Hi'. unfold FS.isdir, FS.stat.
    destruct (String.eqb _ _); [discriminate|].
    unfold FS.lookup. rewrite walk_without_gone; [discriminate| |apply is_prefix_refl].
    rewrite components_package_path by assumption.
    now destruct (FS.components (pkg_dir_of self)).
  - intros s n Hst Hp. now rewrite stat_without.
  - intros Hs' Hc' _ _ Hne Hi'.
    apply registry_isdir_iff in Hi'; auto.
    apply registry_isdir_iff; auto.
    unfold FS.isdir in *. rewrite stat_without; auto.
    rewrite !components_package_path by assumption.
    apply is_prefix_fork. congruence.
Qed.

Lemma uninstall_source_keeps_the_rest_witness :
  exists fs',
    uninstall_package host_deb pm_two "radare2@5.9.0" false fs_two_installed = (Ok tt, fs')
    /\ ~ installed pm_two fs' "radare2@5.9.0"
    /\ installed pm_two fs' "r2dec@git".
Proof.
  eexists. split; [vm_compute; reflexivity|].
  match goal with
  | |- ~ installed _ ?f _ /\ _ =>
      destruct (uninstall_source_keeps_the_rest host_deb pm_two "radare2@5.9.0" "r2dec@git"
                  fs_two_installed f eq_refl eq_refl) as [A [_ C]]
  end.
  - discriminate.
  - vm_compute. reflexivity.
  - vm_compute. reflexivity.
  - split; [exact A|]. apply C.
    + reflexivity.
    + reflexivity.
    + discriminate.
    + vm_compute. reflexivity.
    + discriminate.
    + apply installed_iff. vm_compute. auto.
Defined.

Lemma uninstall_loop_found_dist h self package_name fs :
  forall l,
    In package_name l ->
    uninstall_loop h self package_name true l fs =
    (match Py.split "@" package_name with
     | [profile; version] => _uninstall_from_dist h self profile version ;;; ret tt
     | _ => raise ValueError
     end ;;; ret true)%M fs.
Proof.
  induction l as [|package l IH]; intros H; [contradiction|].
  cbn [uninstall_loop].
  destruct (String.eqb package_name package) eqn:E.
  - apply String.eqb_eq in E. subst package. reflexivity.
  - apply IH. destruct H as [H|H]; auto.
    subst. now rewrite String.eqb_refl in E.
Qed.

(** X13. A binary-distribution uninstall of a listed key that does
    not split at [@] into exactly a profile and a version raises
    [ValueError], not the package manager's exception, and leaves the
    disk as it was. *)
Theorem uninstall_dist_malformed_key (h : Host) (self : PackageManager) (K : string)
        (fs : FS.t) :
  installed self fs K ->
  length (Py.split "@" K) <> 2%nat ->
  uninstall_package h self K true fs = (Raise ValueError, fs).
Proof.
  intros Hi Hl. apply installed_iff in Hi.
  unfold uninstall_package, bind at 1.
  rewrite list_installed_packages_spec.
  unfold bind at 1. rewrite (uninstall_loop_found_dist h self K fs _ Hi).
  destruct (Py.split "@" K) as [|a [|b [|c l]]]; try reflexivity.
  simpl in Hl. congruence.
Qed.

Lemma uninstall_dist_malformed_key_witness :
  uninstall_package host_deb pm_two "scratch" true fs_two_installed
  = (Raise ValueError, fs_two_installed).
Proof.
  apply (uninstall_dist_malformed_key host_deb pm_two "scratch" fs_two_installed).
  - apply installed_iff. vm_compute. auto.
  - vm_compute. discriminate.
Defined.

(** X14. On a host without a platform identifier a
    binary-distribution uninstall of a listed, well-formed key raises
    [TypeError] at the first platform test, before anything is
    removed. *)
Theorem uninstall_dist_unknown_host (h : Host) (self : PackageManager)
        (K profile version : string) (fs : FS.t) :
  installed self fs K ->
  Py.split "@" K = [profile; version] ->
  host_distname h = None ->
  uninstall_package h self K true fs = (Raise TypeError, fs).
Proof.
  intros Hi Hk Hn. apply installed_iff in Hi.
  unfold uninstall_package, bind at 1.
  rewrite list_installed_packages_spec.
  unfold bind at 1. rewrite (uninstall_loop_found_dist h self K fs _ Hi), Hk.
  unfold _uninstall_from_dist. rewrite Hn. reflexivity.
Qed.

Lemma uninstall_dist_unknown_host_witness :
  uninstall_package host_unknown pm_two "r2dec@git" true fs_two_installed
  = (Raise TypeError, fs_two_installed).
Proof.
  apply (uninstall_dist_unknown_host host_unknown pm_two "r2dec@git" "r2dec" "git"
           fs_two_installed).
  - apply installed_iff. vm_compute. auto.
  - reflexivity.
  - reflexivity.
Defined.

(** ** The binary-distribution strategy *)

(** X15. On a platform for which [_install_from_dist] has no branch,
    such as 32-bit Windows, for which the catalog builder does file
    archives, the artifact is downloaded first and only then the
    package manager's exception for an unsupported system is raised:
    the state is the one the download left. *)
Theorem install_from_dist_unsupported (h : Host) (self : PackageManager)
        (profile version d pkgname : string) (fs fs' : FS.t) :
  host_distname h = Some d ->
  has_installer d = false ->
  _get_pkgname self profile version (Some d) = Some pkgname ->
  wget_download h (_get_disturl self profile version (Some d))
                (_r2env_path self ++ "/src/" ++ pkgname)%string fs = (Ok tt, fs') ->
  _install_from_dist h self profile version fs
  = (Raise (PackageManagerException
              ("Operative System not supported: " ++ uname h)%string), fs').
Proof.
  intros Hd Hi Hp Hw. unfold has_installer in Hi.
  apply orb_false_elim in Hi. destruct Hi as [Hi Ha].
  apply orb_false_elim in Hi. destruct Hi as [Hi Hdeb].
  apply orb_false_elim in Hi. destruct Hi as [Hmac Hw64].
  unfold _install_from_dist. rewrite Hd, Hp.
  unfold bind at 1. cbn [join_opt lift app Py.join].
  replace (_r2env_path self ++ "/" ++ "src" ++ "/" ++ pkgname)%string
    with (_r2env_path self ++ "/src/" ++ pkgname)%string by reflexivity.
  unfold bind at 1, try_except. rewrite Hw.
  unfold in_tuple. rewrite Hmac.
  unfold bind at 1, in_str, lift. rewrite Hw64, Hdeb.
  unfold bind at 1. rewrite Ha. reflexivity.
Qed.

Lemma install_from_dist_unsupported_witness :
  _install_from_dist host_w32 pm_w32 "radare2" "5.9.0" fs_no_versions
  = (Raise (PackageManagerException "Operative System not supported: nt"), fs_no_versions).
Proof.
  apply (install_from_dist_unsupported host_w32 pm_w32 "radare2" "5.9.0" "w32"
           "radare2-5.9.0-w32.zip" fs_no_versions fs_no_versions); reflexivity.
Defined.

Lemma walk_put_other fs p m :
  FS.find fs p <> Some FS.Dir ->
  forall todo done n,
    p <> done ++ todo ->
    FS.walk fs done todo = Some n -> FS.walk (FS.put fs p m) done todo = Some n.
Proof.
  intros Hp. induction todo as [|c todo IH]; intros done n Hne; simpl; auto.
  rewrite find_put.
  destruct (Py.list_eqb p (done ++ [c])) eqn:E.
  - apply list_eqb_eq in E.
    destruct (FS.find fs (done ++ [c])) as [[|x]|] eqn:F; try discriminate.
    + congruence.
    + destruct todo; [|discriminate]. congruence.
  - destruct (FS.find fs (done ++ [c])) as [[|x]|]; auto.
    apply IH. now rewrite <- app_assoc.
Qed.

Lemma copyfile_some src dst fs fs' :
  Shutil.copyfile src dst fs = (Ok tt, fs') ->
  exists c, FS.read fs src = Some c /\ FS.read fs' src = Some c
            /\ FS.read fs' dst = Some c.
Proof.
  unfold Shutil.copyfile, update.
  destruct (FS.stat fs src) as [[|c]|] eqn:S; try discriminate.
  destruct (Py.list_eqb (FS.components src) (FS.components dst)) eqn:E; [discriminate|].
  destruct (FS.write fs dst c) as [fs1|e] eqn:W; [|discriminate].
  intros H. inversion H; subst fs1. exists c.
  split; [unfold FS.read; now rewrite S|].
  split; [|eapply write_read; eauto].
  destruct (write_some _ _ _ _ W) as [-> [F _]].
  unfold FS.read, FS.stat in *.
  destruct (String.eqb src EmptyString); [discriminate|].
  unfold FS.lookup in *.
  assert (Hne : FS.components dst <> [] ++ FS.components src).
  { simpl. intros Hn. rewrite Hn, list_eqb_refl in E. discriminate. }
  now rewrite (walk_put_other _ _ _ F _ _ _ Hne S).
Qed.

Lemma try_except_ok_inv {A} (m : M A) handles (hnd : exn -> M A) fs a fs' :
  (forall e fs1 a1 fs2, hnd e fs1 <> (Ok a1, fs2)) ->
  try_except m handles hnd fs = (Ok a, fs') -> m fs = (Ok a, fs').
Proof.
  intros Hh. unfold try_except.
  destruct (m fs) as [[a1|e] fs1]; auto.
  destruct (handles e); [|discriminate]. intros H. now apply Hh in H.
Qed.

(** X16. When [_install_windows_package] returns, it returns [True]
    and [r2.exe] in the [bin] directory of the environment is a copy
    of [radare2.exe] there. *)
Theorem windows_package_installs_r2_exe (h : Host) (self : PackageManager)
        (pkgfile : string) (b : bool) (fs fs' : FS.t) :
  _install_windows_package h self pkgfile fs = (Ok b, fs') ->
  b = true
  /\ exists c,
      FS.read fs' (_r2env_path self ++ "/bin/radare2.exe")%string = Some c
      /\ FS.read fs' (_r2env_path self ++ "/bin/r2.exe")%string = Some c.
Proof.
  unfold _install_windows_package. intros H.
  apply try_except_ok_inv in H; [|intros; apply bind_raise_not_ok].
  apply bind_ok_inv in H. destruct H as [[] [fs1 [_ H]]].
  apply bind_ok_inv in H. destruct H as [d [fs2 [_ H]]].
  apply bind_ok_inv in H. destruct H as [[] [fs3 [_ H]]].
  apply bind_ok_inv in H. destruct H as [[] [fs4 [_ H]]].
  apply bind_ok_inv in H. destruct H as [[] [fs5 [C H]]].
  inversion H; subst. split; [reflexivity|].
  destruct (copyfile_some _ _ _ _ C) as [c [_ [R1 R2]]].
  exists c. split; assumption.
Qed.

Lemma windows_package_installs_r2_exe_witness :
  true = true
  /\ exists c,
      FS.read (snd (_install_windows_package host_w64_zip pm_two "pkg.zip" fs_unpacked))
              "/home/u/.r2env/bin/radare2.exe" = Some c
      /\ FS.read (snd (_install_windows_package host_w64_zip pm_two "pkg.zip" fs_unpacked))
                 "/home/u/.r2env/bin/r2.exe" = Some c.
Proof.
  apply (windows_package_installs_r2_exe host_w64_zip pm_two "pkg.zip" true fs_unpacked
           (snd (_install_windows_package host_w64_zip pm_two "pkg.zip" fs_unpacked))).
  vm_compute. reflexivity.
Defined.

(** ** Rebuilding the catalog, continued *)

Lemma ensure_dir_raise s fs e fs' :
  ensure_dir s fs = (Raise e, fs') -> fs' = fs.
Proof.
  unfold ensure_dir, bind, Os.isdir, query, when, Os.makedirs, update, ret.
  destruct (FS.isdir fs s); simpl; [discriminate|].
  destruct (FS.makedirs fs s); [discriminate|]. intros H. now inversion H.
Qed.

(** X17. A rebuild that fails before the catalog file is opened,
    because the upstream request failed or because the scan of a
    release raised, raises that exception and leaves the disk exactly
    as it was: the environment directory is created and the catalog
    file is opened for writing only after the whole catalog has been
    built, so a catalog file that was there keeps its content. *)
Theorem failed_rebuild_keeps_catalog (h : Host) (r2env_path : string) (e : exn)
        (fs : FS.t) :
  gh_release_info_req h = Raise e
  \/ (exists gh_release_info,
        gh_release_info_req h = Ok gh_release_info
        /\ build_profiles gh_release_info = Raise e) ->
  update_radare2_profiles h r2env_path fs = (Raise e, fs).
Proof.
  intros [H | [rel [H B]]]; unfold update_radare2_profiles, bind, lift; rewrite H.
  - reflexivity.
  - now rewrite B.
Qed.

Lemma failed_rebuild_keeps_catalog_witness :
  FS.read fs_no_versions "/home/u/.r2env/profiles.json" = Some "{}"
  /\ update_radare2_profiles host_bad_tag "/home/u/.r2env" fs_no_versions
     = (Raise ValueError, fs_no_versions).
Proof.
  split; [reflexivity|].
  apply (failed_rebuild_keeps_catalog host_bad_tag "/home/u/.r2env" ValueError
           fs_no_versions).
  right. exists [release_named_radare2]. split; vm_compute; reflexivity.
Defined.

Lemma mkdir_chain_short :
  forall todo fs done fs',
    FS.mkdir_chain fs done todo = Some fs' ->
    exists l, fs' = fs ++ l
              /\ Forall (fun e => (length (fst e) <= length done + length todo)%nat) l.
Proof.
  induction todo as [|c todo IH]; simpl; intros fs done fs' H.
  - inversion H. exists []. now rewrite app_nil_r.
  - destruct (FS.find fs (done ++ [c])) as [[|x]|]; try discriminate.
    + destruct (IH _ _ _ H) as [l [-> F]]. exists l. split; auto.
      eapply Forall_impl; [|exact F]. intros e He.
      rewrite length_app in He. simpl in He. lia.
    + destruct (IH _ _ _ H) as [l [-> F]].
      exists ((done ++ [c], FS.Dir) :: l). rewrite <- app_assoc. split; auto.
      constructor.
      * simpl. rewrite length_app. simpl. lia.
      * eapply Forall_impl; [|exact F]. intros e He.
        rewrite length_app in He. simpl in He. lia.
Qed.

Lemma find_longer l p :
  Forall (fun e => (length (fst e) < length p)%nat) l -> FS.find l p = None.
Proof.
  induction 1 as [|[q n] l Hq _ IH]; simpl; auto.
  rewrite list_eqb_neq; auto. simpl in Hq. intros ->. lia.
Qed.

Lemma ensure_dir_dir_node s t fs fs' :
  ensure_dir s fs = (Ok tt, fs') ->
  (length (FS.components s) < length (FS.components t))%nat ->
  dir_node fs t = false -> dir_node fs' t = false.
Proof.
  unfold ensure_dir, bind, Os.isdir, query, when, Os.makedirs, update, ret.
  destruct (FS.isdir fs s); simpl.
  - intros H. now inversion H.
  - unfold FS.makedirs. destruct (String.eqb s EmptyString); [discriminate|].
    destruct (FS.lookup fs (FS.components s)); [discriminate|].
    destruct (FS.mkdir_chain fs [] (FS.components s)) as [fs1|] eqn:E; [|discriminate].
    intros H Hl. inversion H; subst fs1.
    destruct (mkdir_chain_short _ _ _ _ E) as [l [-> F]].
    unfold dir_node. rewrite find_app.
    destruct (FS.find fs (FS.components t)) as [[|x]|]; auto.
    intros _. rewrite find_longer; auto.
    eapply Forall_impl; [|exact F]. simpl. intros e He. lia.
Qed.

(** X18. On a disk where creating a directory or writing a file
    fails only for what is in the way, a rebuild goes through
    whenever the upstream request returns a release list in which no
    release is tagged with the project name, the environment path is
    not empty, the catalog path is one that the operating system
    resolves component by component (no [".."] in it, no over-long
    name, no NUL), no regular file is in the way of the environment
    directory, and the catalog path is not a directory: the rebuild
    returns, the environment directory exists afterwards, and the
    catalog file holds the serialization of the catalog built from
    the release list. *)
Theorem rebuild_succeeds (h : Host) (r2env_path : string)
        (gh_release_info : list release) (fs : FS.t) :
  gh_release_info_req h = Ok gh_release_info ->
  (forall r, In r gh_release_info -> tag_name r <> "radare2") ->
  r2env_path <> EmptyString ->
  well_named (PosixPath.join r2env_path ["profiles.json"]) = true ->
  obstructed fs r2env_path = false ->
  dir_node fs (PosixPath.join r2env_path ["profiles.json"]) = false ->
  exists profiles fs',
    build_profiles gh_release_info = Ok profiles
    /\ update_radare2_profiles h r2env_path fs = (Ok tt, fs')
    /\ FS.isdir fs' r2env_path = true
    /\ FS.read fs' (PosixPath.join r2env_path ["profiles.json"])
       = Some (Json.dumps profiles).
Proof.
  intros Hg Ht Hn _ Ho Hd.
  assert (Hs : forallb scans gh_release_info = true).
  { apply forallb_forall. intros r Hr. apply scans_other_tag. auto. }
  unfold build_profiles.
  destruct (scan_releases_ok _ Hs [git_version]) as [vs [Es _]]. rewrite Es.
  cbn [rbind]. eexists. 
  destruct (ensure_dir_ok _ fs Hn Ho) as [fs1 [E1 [G1 D1]]].
  set (pj := PosixPath.join r2env_path ["profiles.json"]).
  assert (C : FS.components pj = FS.components r2env_path ++ ["profiles.json"]).
  { unfold pj. simpl. now rewrite components_join2. }
  assert (Hd1 : dir_node fs1 pj = false).
  { eapply ensure_dir_dir_node; eauto. rewrite C, length_app. simpl. lia. }
  assert (W1 : FS.walk fs1 [] (FS.components r2env_path) = Some FS.Dir).
  { unfold FS.isdir, FS.stat in D1. apply String.eqb_neq in Hn. rewrite Hn in D1.
    unfold FS.lookup in D1.
    destruct (FS.walk fs1 [] (FS.components r2env_path)) as [[|x]|];
      auto; discriminate. }
  assert (Npj : pj <> EmptyString) by (unfold pj; simpl; apply join2_nonempty; discriminate).
  assert (W : exists fs', FS.write fs1 pj (Json.dumps (make_profiles ([git_version] ++ vs)))
                          = Ok fs').
  { unfold FS.write, FS.stat, FS.parent, FS.lookup.
    apply String.eqb_neq in Npj. rewrite Npj.
    rewrite C, walk_app, W1. cbn [app FS.walk].
    rewrite removelast_last, W1.
    unfold dir_node in Hd1. rewrite C in Hd1.
    destruct (FS.find fs1 (FS.components r2env_path ++ ["profiles.json"])) as [[|x]|];
      try discriminate; eauto. }
  destruct W as [fs' W]. exists fs'.
  split; [reflexivity|].
  assert (U : update_radare2_profiles h r2env_path fs = (Ok tt, fs')).
  { unfold update_radare2_profiles. unfold bind at 1, lift. rewrite Hg.
    unfold bind at 1. unfold build_profiles. rewrite Es. cbn [rbind].
    rewrite ensure_dir_bind. unfold bind. rewrite E1.
    unfold Os.write, update. fold pj. now rewrite W. }
  split; [exact U|]. split.
  - eapply isdir_keeps_dirs; [eapply write_keeps_dirs|]; eauto.
  - eapply write_read; eauto.
Qed.

Lemma rebuild_succeeds_witness :
  exists profiles fs',
    build_profiles two_releases = Ok profiles
    /\ update_radare2_profiles host_deb "/home/u/.r2env" [] = (Ok tt, fs')
    /\ FS.isdir fs' "/home/u/.r2env" = true
    /\ FS.read fs' "/home/u/.r2env/profiles.json" = Some (Json.dumps profiles).
Proof.
  apply (rebuild_succeeds host_deb "/home/u/.r2env" two_releases []).
  - reflexivity.
  - intros r [<- | [<- | []]]; discriminate.
  - discriminate.
  - reflexivity.
  - reflexivity.
  - reflexivity.
Defined.

(** ** tools.py *)

Lemma join_snoc sep l c :
  l <> [] -> Py.join sep (l ++ [c]) = (Py.join sep l ++ sep ++ c)%string.
Proof.
  induction l as [|x l IH]; [congruence|]. intros _.
  destruct l as [|y l].
  - reflexivity.
  - change (Py.join sep ((x :: y :: l) ++ [c]))
      with (x ++ sep ++ Py.join sep ((y :: l) ++ [c]))%string.
    rewrite IH by discriminate.
    change (Py.join sep (x :: y :: l)) with (x ++ sep ++ Py.join sep (y :: l))%string.
    now rewrite !string_app_assoc.
Qed.

Lemma string_length_app (a b : string) :
  String.length (a ++ b)%string = (String.length a + String.length b)%nat.
Proof. induction a; simpl; auto. Qed.

Lemma getcwd_parent_differs cwd :
  cwd <> [] -> Forall (fun c => c <> EmptyString) cwd ->
  Tools.getcwd cwd <> Tools.getcwd (Tools.chdir_up cwd).
Proof.
  intros N V E.
  assert (L : String.length (Tools.getcwd cwd)
              = String.length (Tools.getcwd (Tools.chdir_up cwd))) by now rewrite E.
  clear E. revert L. unfold Tools.getcwd, Tools.chdir_up.
  rewrite (app_removelast_last EmptyString N) at 1.
  assert (Hl : last cwd EmptyString <> EmptyString).
  { rewrite Forall_forall in V. apply V.
    rewrite (app_removelast_last EmptyString N) at 2. apply in_or_app. right. now left. }
  destruct (removelast cwd) as [|x l] eqn:R.
  - simpl. destruct (last cwd EmptyString); [congruence|]. simpl. lia.
  - rewrite join_snoc by discriminate. simpl.
    rewrite !string_length_app. simpl. lia.
Qed.

Lemma removelast_as_firstn {A} (l : list A) :
  removelast l = firstn (length l - 1) l.
Proof.
  induction l as [|x l IH]; simpl; auto.
  destruct l as [|y l]; simpl; auto.
  simpl in IH. rewrite IH. now rewrite Nat.sub_0_r.
Qed.

Lemma env_path_loop_spec fs :
  forall fuel cwd r cwd',
    (length cwd < fuel)%nat ->
    Forall (fun c => c <> EmptyString) cwd ->
    Tools.env_path_loop fuel fs (Tools.getcwd cwd) cwd = (r, cwd') ->
    cwd' = firstn (length cwd') cwd
    /\ (length cwd' <= length cwd)%nat
    /\ (forall k, (length cwd' < k <= length cwd)%nat ->
                  FS.isdir fs (env_marker (firstn k cwd)) = false)
    /\ match r with
       | Some e => e = env_marker cwd' /\ FS.isdir fs e = true
       | None => cwd' = [] /\ FS.isdir fs (env_marker []) = false
       end.
Proof.
  induction fuel as [|fuel IH]; intros cwd r cwd' Hf V; [lia|].
  cbn [Tools.env_path_loop]. fold (env_marker cwd).
  destruct (FS.isdir fs (env_marker cwd)) eqn:D.
  - intros H. inversion H; subst. rewrite firstn_all.
    repeat split; auto. intros k Hk. lia.
  - destruct (String.eqb (Tools.getcwd cwd) (Tools.getcwd (Tools.chdir_up cwd))) eqn:E.
    + apply String.eqb_eq in E.
      assert (cwd = []).
      { destruct cwd as [|c cwd]; auto.
        exfalso. eapply getcwd_parent_differs; eauto. discriminate. }
      subst cwd. intros H. inversion H; subst. simpl.
      repeat split; auto. intros k Hk. simpl in Hk. lia.
    + assert (N : cwd <> []).
      { intros ->. simpl in E. discriminate. }
      intros H. apply IH in H.
      * destruct H as [P [Hl [Hk Hr]]].
        unfold Tools.chdir_up in *. rewrite removelast_as_firstn in *.
        assert (Ln : (length (firstn (length cwd - 1) cwd) = length cwd - 1)%nat).
        { rewrite length_firstn. lia. }
        rewrite Ln in *.
        assert (Lc : (0 < length cwd)%nat) by (destruct cwd; simpl; [congruence|lia]).
        split.
        { rewrite P at 1. rewrite firstn_firstn. f_equal. lia. }
        split; [lia|]. split; [|exact Hr].
        intros k Hkk. destruct (Nat.eq_dec k (length cwd)) as [->|Hne].
        { now rewrite firstn_all. }
        { specialize (Hk k). rewrite firstn_firstn in Hk.
          replace (Nat.min k (length cwd - 1)) with k in Hk by lia.
          apply Hk. lia. }
      * unfold Tools.chdir_up. rewrite removelast_as_firstn, length_firstn.
        destruct cwd; simpl in *; [congruence|lia].
      * unfold Tools.chdir_up. rewrite removelast_as_firstn.
        rewrite Forall_forall in *. intros c Hc. apply V.
        rewrite <- (firstn_skipn (length cwd - 1) cwd). apply in_or_app. now left.
Qed.

(** X19. When [env_path] returns a path, it is the [.r2env]
    directory of the nearest ancestor of the working directory that
    has one (the working directory itself counts): it is a directory,
    no directory between that ancestor and the working directory has
    one, and the process is left standing in that ancestor. *)
Theorem env_path_nearest (fs : FS.t) (cwd cwd' : FS.path) (e : string) :
  Forall (fun c => c <> EmptyString) cwd ->
  Tools.env_path fs cwd = (Some e, cwd') ->
  cwd' = firstn (length cwd') cwd
  /\ e = env_marker cwd'
  /\ FS.isdir fs e = true
  /\ forall k, (length cwd' < k <= length cwd)%nat ->
                FS.isdir fs (env_marker (firstn k cwd)) = false.
Proof.
  intros V H. unfold Tools.env_path in H.
  apply env_path_loop_spec in H; auto.
  destruct H as [P [_ [Hk [He Hd]]]]. auto.
Qed.

Lemma env_path_nearest_witness :
  ["home"; "u"; "proj"] = firstn (length ["home"; "u"; "proj"]) ["home"; "u"; "proj"; "src"; "lib"]
  /\ "/home/u/proj/.r2env" = env_marker ["home"; "u"; "proj"]
  /\ FS.isdir fs_project "/home/u/proj/.r2env" = true
  /\ forall k, (length ["home"; "u"; "proj"] < k <= length ["home"; "u"; "proj"; "src"; "lib"])%nat ->
                FS.isdir fs_project (env_marker (firstn k ["home"; "u"; "proj"; "src"; "lib"]))
                = false.
Proof.
  apply (env_path_nearest fs_project ["home"; "u"; "proj"; "src"; "lib"]
           ["home"; "u"; "proj"] "/home/u/proj/.r2env").
  - repeat constructor; discriminate.
  - vm_compute. reflexivity.
Defined.

(** X20. [env_path] returns [None] exactly when no ancestor of the
    working directory, from the working directory up to the root, has
    a [.r2env] directory; the process is then left standing in the
    root directory. *)
Theorem env_path_none_iff (fs : FS.t) (cwd : FS.path) :
  Forall (fun c => c <> EmptyString) cwd ->
  (fst (Tools.env_path fs cwd) = None
   <-> forall k, (k <= length cwd)%nat ->
                 FS.isdir fs (env_marker (firstn k cwd)) = false)
  /\ (fst (Tools.env_path fs cwd) = None -> snd (Tools.env_path fs cwd) = []).
Proof.
  intros V. destruct (Tools.env_path fs cwd) as [r cwd'] eqn:H.
  unfold Tools.env_path in H. apply env_path_loop_spec in H; auto.
  destruct H as [P [Hl [Hk Hr]]]. simpl. split; [split|].
  - intros ->. destruct Hr as [-> Hroot]. intros k Hkk.
    destruct k as [|k]; [exact Hroot|]. apply Hk. simpl. lia.
  - intros Hall. destruct r as [e|]; auto.
    destruct Hr as [-> D]. rewrite P, Hall in D; [discriminate | exact Hl].
  - intros ->. now destruct Hr.
Qed.

Lemma env_path_none_iff_witness :
  (fst (Tools.env_path fs_project ["home"; "u"; "work"]) = None
   <-> forall k, (k <= length ["home"; "u"; "work"])%nat ->
                 FS.isdir fs_project (env_marker (firstn k ["home"; "u"; "work"])) = false)
  /\ (fst (Tools.env_path fs_project ["home"; "u"; "work"]) = None ->
      snd (Tools.env_path fs_project ["home"; "u"; "work"]) = []).
Proof.
  apply (env_path_none_iff fs_project ["home"; "u"; "work"]).
  repeat constructor; discriminate.
Defined.

Example env_path_skips_a_file :
  Tools.env_path fs_project ["home"; "u"; "work"] = (None, []).
Proof. vm_compute. reflexivity. Qed.

Lemma check_tool_total h tool fs :
  exists found fs', Tools.check_tool h tool fs = (Ok found, fs')
                    /\ (found = true -> tool = "git" \/ tool = "unzip").
Proof.
  unfold Tools.check_tool.
  destruct (String.eqb tool "git") eqn:E1.
  - apply String.eqb_eq in E1. unfold bind, system, ret.
    destruct (os_system h _ fs) as [st fs']. eauto.
  - destruct (String.eqb tool "unzip") eqn:E2.
    + apply String.eqb_eq in E2. unfold bind, system, ret.
      destruct (os_system h _ fs) as [st fs']. eauto.
    + exists false, fs. split; [reflexivity | discriminate].
Qed.

(** X21. [check] never raises and prints one line per tool, in the
    order given: ["found "] and the tool, or ["oops  "] and the tool.
    A tool other than [git] and [unzip] is always reported with
    ["oops  "], whatever is installed on the host. *)
Theorem check_reports_every_tool (h : Host) (tools : list string) (fs : FS.t) :
  exists lines fs',
    Tools.check h tools fs = (Ok lines, fs')
    /\ Forall2 (fun tool line =>
                  line = ("oops  " ++ tool)%string
                  \/ (line = ("found " ++ tool)%string
                      /\ (tool = "git" \/ tool = "unzip")))
               tools lines.
Proof.
  revert fs. induction tools as [|tool tools IH]; intros fs.
  - exists [], fs. split; [reflexivity | constructor].
  - cbn [Tools.check]. unfold bind at 1.
    destruct (check_tool_total h tool fs) as [found [fs1 [-> Hf]]].
    unfold bind at 1. destruct (IH fs1) as [lines [fs' [-> F]]].
    eexists. eexists. split; [reflexivity|].
    constructor; auto. destruct found; auto.
Qed.

(** ** File names as the releases carry them *)

Lemma has_char_app c a b : has_char c (a ++ b)%string = has_char c a || has_char c b.
Proof. induction a as [|d a IH]; simpl; auto. now rewrite IH, orb_assoc. Qed.

Lemma rfind_from_absent c s i : has_char c s = false -> Py.rfind_from c s i = -1.
Proof.
  revert i. induction s as [|d s IH]; simpl; intros i H; auto.
  apply orb_false_elim in H. destruct H as [Hd Hs].
  rewrite (IH _ Hs), Hd. reflexivity.
Qed.

Lemma rfind_from_last c a b i :
  0 <= i -> has_char c b = false ->
  Py.rfind_from c (a ++ String c b)%string i = i + Py.len a.
Proof.
  revert i. induction a as [|d a IH]; intros i Hi Hb.
  - simpl. rewrite (rfind_from_absent _ _ _ Hb), Ascii.eqb_refl. simpl.
    unfold Py.len. simpl. lia.
  - cbn [String.append Py.rfind_from]. rewrite IH by (auto; lia).
    unfold Py.len. cbn [String.length].
    destruct (0 <=? i + 1 + Z.of_nat (String.length a)) eqn:E; [lia|].
    apply Z.leb_gt in E. lia.
Qed.

Lemma substring_prefix a b :
  substring 0 (String.length a) (a ++ b)%string = a.
Proof. induction a as [|c a IH]; simpl; [now destruct b | now rewrite IH]. Qed.

Lemma substring_all b : substring 0 (String.length b) b = b.
Proof. induction b as [|c b IH]; simpl; [reflexivity | now rewrite IH]. Qed.

Lemma substring_suffix a b :
  substring (String.length a) (String.length b) (a ++ b)%string = b.
Proof. induction a as [|c a IH]; simpl; [apply substring_all | exact IH]. Qed.

(** [splitext] of a stem and an extension without further dots. *)
Lemma splitext_stem_ext c0 stem e :
  c0 <> "."%char ->
  has_char "/" (String c0 stem ++ String "." e)%string = false ->
  has_char "." e = false ->
  PosixPath.splitext (String c0 stem ++ String "." e)%string
  = (String c0 stem, String "." e).
Proof.
  intros Hc Hs He. unfold PosixPath.splitext, Py.rfind.
  rewrite (rfind_from_absent _ _ _ Hs).
  change Py.dot with "."%char.
  rewrite (rfind_from_last "." (String c0 stem) e 0) by (auto; lia).
  unfold Py.len. cbn [String.length].
  assert (L : (-1 <? 0 + Z.of_nat (S (String.length stem))) = true)
    by (apply Z.ltb_lt; lia).
  rewrite L.
  replace (Z.to_nat (0 + Z.of_nat (S (String.length stem)) - (-1 + 1)))
    with (S (String.length stem)) by lia.
  cbn [PosixPath.splitext_loop].
  replace (-1 + 1) with 0 by lia.
  assert (L2 : (0 <? 0 + Z.of_nat (S (String.length stem))) = true)
    by (apply Z.ltb_lt; lia).
  rewrite L2.
  assert (S1 : Py.slice (String c0 stem ++ String "." e)%string 0 (0 + 1)
               = String c0 EmptyString).
  { unfold Py.slice. simpl. now destruct (stem ++ String "." e)%string. }
  rewrite S1.
  assert (N : String.eqb (String c0 EmptyString) (String Py.dot EmptyString) = false).
  { apply String.eqb_neq. intros E. inversion E. contradiction. }
  rewrite N. cbn [negb]. f_equal.
  - unfold Py.slice_to, Py.slice.
    replace (Z.to_nat 0) with 0%nat by lia.
    replace (Z.to_nat (0 + Z.of_nat (S (String.length stem)) - 0))
      with (String.length (String c0 stem)) by (cbn [String.length]; lia).
    apply substring_prefix.
  - unfold Py.slice_from, Py.slice, Py.len.
    rewrite string_length_app.
    replace (Z.to_nat (0 + Z.of_nat (S (String.length stem))))
      with (String.length (String c0 stem)) by (cbn [String.length]; lia).
    replace (Z.to_nat (Z.of_nat (String.length (String c0 stem)
                                 + String.length (String "." e))
                       - (0 + Z.of_nat (S (String.length stem)))))
      with (String.length (String "." e)) by (cbn [String.length]; lia).
    apply substring_suffix.
Qed.

Lemma replace_app a b x y :
  Py.replace a b (x ++ y)%string = (Py.replace a b x ++ Py.replace a b y)%string.
Proof. induction x as [|c x IH]; simpl; auto. now rewrite IH. Qed.

Lemma replace_absent a b x : has_char a x = false -> Py.replace a b x = x.
Proof.
  induction x as [|c x IH]; simpl; auto.
  intros H. apply orb_false_elim in H. destruct H as [Hc Hx].
  now rewrite Hc, IH.
Qed.

Lemma split_absent sep s : has_char sep s = false -> Py.split sep s = [s].
Proof.
  induction s as [|c s IH]; simpl; auto.
  intros H. apply orb_false_elim in H. destruct H as [Hc Hs].
  now rewrite Hc, (IH Hs).
Qed.

Lemma plain_tag_inv tag :
  plain_tag tag = true ->
  has_char "-" tag = false /\ has_char "_" tag = false /\ has_char "/" tag = false.
Proof.
  unfold plain_tag. rewrite !andb_true_iff, !negb_true_iff. tauto.
Qed.

(** The tokens and the extension of a name made of the project name,
    a separator, the tag, and a suffix: [sep] is the hyphen or the
    underscore. *)
Lemma tokens_of_release_name (sep : ascii) tag suffix e :
  (sep = "-"%char \/ sep = "_"%char) ->
  plain_tag tag = true ->
  has_char "/" suffix = false -> has_char "/" e = false -> has_char "." e = false ->
  asset_ext ("radare2" ++ String sep (tag ++ suffix ++ String "." e))%string
  = String "." e
  /\ asset_tokens ("radare2" ++ String sep (tag ++ suffix ++ String "." e))%string
     = "radare2" :: Py.split "-" (Py.replace "_" "-" (tag ++ suffix)).
Proof.
  intros Hsep Ht Hsu He1 He2.
  destruct (plain_tag_inv _ Ht) as [T1 [T2 T3]].
  unfold asset_ext, asset_tokens.
  replace ("radare2" ++ String sep (tag ++ suffix ++ String "." e))%string
    with (String "r" ("adare2" ++ String sep (tag ++ suffix)) ++ String "." e)%string
    by (simpl; now rewrite !string_app_assoc).
  rewrite splitext_stem_ext; auto.
  - cbn [fst snd]. split; [reflexivity|].
    change (String "r" ("adare2" ++ String sep (tag ++ suffix)))%string
      with ("radare2" ++ String sep (tag ++ suffix))%string.
    rewrite replace_app.
    change (Py.replace Py.underscore Py.hyphen (String sep (tag ++ suffix)))
      with (String (if Ascii.eqb sep "_" then "-"%char else sep)
                   (Py.replace "_" "-" (tag ++ suffix))).
    assert (E : (if Ascii.eqb sep "_" then "-"%char else sep) = "-"%char)
      by (destruct Hsep; subst; reflexivity).
    rewrite E.
    change (Py.replace Py.underscore Py.hyphen "radare2") with "radare2".
    change Py.hyphen with "-"%char.
    now rewrite (split_app_sep "-" "radare2").
  - discriminate.
  - cbn [String.append has_char]. rewrite !has_char_app. cbn [has_char].
    rewrite T3, Hsu, He1. destruct Hsep; subst; reflexivity.
Qed.

(** X22. For every plain tag (no hyphen, underscore or slash; dots
    are fine) the asset names of the usual shapes are filed under the
    platform their name says: the Windows archives, the Debian
    packages written with underscores, and the macOS bundles. *)
Theorem release_names_are_filed (tag : string) :
  plain_tag tag = true ->
  classify tag ("radare2-" ++ tag ++ "-w64.zip") = Ok (Some "w64")
  /\ classify tag ("radare2-" ++ tag ++ "-w32.zip") = Ok (Some "w32")
  /\ classify tag ("radare2_" ++ tag ++ "_amd64.deb") = Ok (Some "deb_x64")
  /\ classify tag ("radare2_" ++ tag ++ "_i386.deb") = Ok (Some "deb_i386")
  /\ classify tag ("radare2-" ++ tag ++ ".pkg") = Ok (Some "mac_x64").
Proof.
  intros Ht. destruct (plain_tag_inv _ Ht) as [T1 [T2 T3]].
  assert (R : forall suffix, has_char "_" suffix = false ->
                             Py.replace "_" "-" (tag ++ suffix) = (tag ++ suffix)%string).
  { intros suffix Hs. apply replace_absent. now rewrite has_char_app, T2, Hs. }
  assert (C : forall (sep : ascii) suffix e items platform,
             (sep = "-"%char \/ sep = "_"%char) ->
             has_char "/" suffix = false -> has_char "/" e = false ->
             has_char "." e = false ->
             Dict.get _VERSION_FILTERS (String "." e) = Some items ->
             first_platform (tl (Py.split "-" (Py.replace "_" "-" (tag ++ suffix)))) items
             = Some platform ->
             hd EmptyString (Py.split "-" (Py.replace "_" "-" (tag ++ suffix))) = tag ->
             classify tag ("radare2" ++ String sep (tag ++ suffix ++ String "." e))
             = Ok (Some platform)).
  { intros sep suffix e items platform Hsep H1 H2 H3 Hg Hf Hh.
    rewrite classify_unfold.
    destruct (tokens_of_release_name sep tag suffix e Hsep Ht H1 H2 H3) as [-> ->].
    destruct (Py.split "-" (Py.replace "_" "-" (tag ++ suffix))) as [|t ts] eqn:Es.
    - now apply split_nonempty in Es.
    - simpl in Hh. subst t. cbn [hd tl] in *.
      cbn [Py.mem Py.remove]. rewrite !String.eqb_refl.
      cbn [String.eqb Ascii.eqb Bool.eqb negb orb rbind].
      rewrite orb_true_r. cbn [negb rbind Py.remove].
      rewrite String.eqb_refl. cbn [rbind]. rewrite Hg, Hf. reflexivity. }
  assert (S : forall suffix,
             has_char "_" suffix = false ->
             Py.split "-" (Py.replace "_" "-" (tag ++ String "-" suffix))
             = tag :: Py.split "-" suffix).
  { intros suffix Hs. rewrite replace_app, (replace_absent _ _ _ T2).
    cbn [Py.replace]. rewrite (replace_absent _ _ _ Hs).
    change (if ("-" =? "_")%char then "-"%char else "-"%char) with "-"%char.
    now rewrite split_app_sep, (split_absent _ _ T1). }
  assert (S' : forall suffix,
             has_char "_" suffix = false ->
             Py.split "-" (Py.replace "_" "-" (tag ++ String "_" suffix))
             = tag :: Py.split "-" suffix).
  { intros suffix Hs. rewrite replace_app, (replace_absent _ _ _ T2).
    cbn [Py.replace]. rewrite (replace_absent _ _ _ Hs).
    change (if ("_" =? "_")%char then "-"%char else "_"%char) with "-"%char.
    now rewrite split_app_sep, (split_absent _ _ T1). }
  repeat split.
  - apply (C "-"%char "-w64" "zip" [("w32", [["w32"]]); ("w64", [["w64"]])]); auto;
      rewrite (S "w64") by reflexivity; reflexivity.
  - apply (C "-"%char "-w32" "zip" [("w32", [["w32"]]); ("w64", [["w64"]])]); auto;
      rewrite (S "w32") by reflexivity; reflexivity.
  - apply (C "_"%char "_amd64" "deb"
             [("deb_i386", [["i386"]]); ("deb_x64", [["amd64"]])]); auto;
      rewrite (S' "amd64") by reflexivity; reflexivity.
  - apply (C "_"%char "_i386" "deb"
             [("deb_i386", [["i386"]]); ("deb_x64", [["amd64"]])]); auto;
      rewrite (S' "i386") by reflexivity; reflexivity.
  - pose proof (C "-"%char EmptyString "pkg"
                  [("mac_arm64", [["m1"]]);
                   ("mac_x64", [[]; ["amd64"]; ["x64"]; ["macos"]])] "mac_x64") as P.
    rewrite string_app_nil_r in P. cbn [String.append] in P.
    rewrite (replace_absent _ _ _ T2), (split_absent _ _ T1) in P.
    apply P; auto.
Qed.

Lemma release_names_are_filed_witness :
  classify "5.9.0" "radare2-5.9.0-w64.zip" = Ok (Some "w64")
  /\ classify "5.9.0" "radare2-5.9.0-w32.zip" = Ok (Some "w32")
  /\ classify "5.9.0" "radare2_5.9.0_amd64.deb" = Ok (Some "deb_x64")
  /\ classify "5.9.0" "radare2_5.9.0_i386.deb" = Ok (Some "deb_i386")
  /\ classify "5.9.0" "radare2-5.9.0.pkg" = Ok (Some "mac_x64").
Proof. apply (release_names_are_filed "5.9.0"). reflexivity. Defined.

(** ** The serialized catalog *)

Lemma printable_app a b : printable (a ++ b)%string = printable a && printable b.
Proof. induction a as [|c a IH]; simpl; auto. now rewrite IH, andb_assoc. Qed.

Lemma escape_char_printable c : printable (Json.escape_char c) = true.
Proof. destruct c as [[] [] [] [] [] [] [] []]; vm_compute; reflexivity. Qed.

Lemma escape_printable s : printable (Json.escape s) = true.
Proof.
  induction s as [|c s IH]; simpl; auto.
  now rewrite printable_app, escape_char_printable, IH.
Qed.

Lemma str_printable s : printable (Json.str s) = true.
Proof.
  unfold Json.str. rewrite !printable_app, escape_printable. reflexivity.
Qed.

Lemma join_printable sep l :
  printable sep = true -> Forall (fun x => printable x = true) l ->
  printable (Py.join sep l) = true.
Proof.
  intros Hs. induction 1 as [|x l Hx Hl IH]; simpl; auto.
  destruct l as [|y l]; auto.
  now rewrite !printable_app, Hx, Hs, IH.
Qed.

Lemma member_printable k v : printable v = true -> printable (Json.member k v) = true.
Proof.
  intros H. unfold Json.member. now rewrite !printable_app, str_printable, H.
Qed.

Lemma object_printable l :
  Forall (fun x => printable x = true) l -> printable (Json.object l) = true.
Proof.
  intros H. unfold Json.object. rewrite !printable_app, join_printable; auto.
Qed.

Lemma array_printable l :
  Forall (fun x => printable x = true) l -> printable (Json.array l) = true.
Proof.
  intros H. unfold Json.array. rewrite !printable_app, join_printable; auto.
Qed.

Lemma of_version_printable v : printable (Json.of_version v) = true.
Proof.
  unfold Json.of_version. apply object_printable.
  repeat constructor; apply member_printable.
  - apply str_printable.
  - unfold Json.of_packages. apply object_printable.
    apply Forall_map, Forall_forall. intros kv _.
    apply member_printable, str_printable.
Qed.

Lemma of_profile_printable p : printable (Json.of_profile p) = true.
Proof.
  unfold Json.of_profile. apply object_printable.
  repeat constructor; apply member_printable.
  - apply str_printable.
  - apply array_printable, Forall_map, Forall_forall. intros v _.
    apply of_version_printable.
Qed.

(** X23. For release tags and asset names made of code points
    below 256 (the strings of this development; a code point from 256
    on is outside it), the catalog file a rebuild writes consists of
    printable ASCII characters only: quotes, backslashes, control
    characters and the code points from 127 to 255 are written as
    escapes. *)
Theorem catalog_file_is_printable_ascii (h : Host) (r2env_path : string)
        (fs fs' : FS.t) :
  update_radare2_profiles h r2env_path fs = (Ok tt, fs') ->
  exists bytes,
    FS.read fs' (PosixPath.join r2env_path ["profiles.json"]) = Some bytes
    /\ printable bytes = true.
Proof.
  intros H.
  destruct (update_radare2_profiles_inv _ _ _ _ H) as [rel [c [fs1 [_ [_ [_ W]]]]]].
  exists (Json.dumps c). split; [eapply write_read; eauto|].
  unfold Json.dumps. apply object_printable, Forall_map, Forall_forall.
  intros kv _. apply member_printable, of_profile_printable.
Qed.

Lemma catalog_file_is_printable_ascii_witness :
  exists bytes,
    FS.read (snd (update_radare2_profiles host_odd_names "/home/u/.r2env" []))
            "/home/u/.r2env/profiles.json" = Some bytes
    /\ printable bytes = true.
Proof.
  apply (catalog_file_is_printable_ascii host_odd_names "/home/u/.r2env" []
           (snd (update_radare2_profiles host_odd_names "/home/u/.r2env" []))).
  vm_compute. reflexivity.
Defined.

(** ** The Windows remover *)



